(** * MapView: a shallow embedding of [src/components/MapView.tsx]

  The component plots geotagged posts on a Leaflet map, clusters them, and
  shows the posts of the clicked marker or cluster in a paginated side
  panel.  This file embeds

  - the asset loader ([loadScript], [loadCss]) over a list-of-elements
    document, with the selectors it builds read as CSS reads them,
  - the cluster icon builder ([makeClusterIcon]) over IEEE-754 binary64
    numbers, which is what a JavaScript [number] is,
  - the marker loop and the two click handlers of [mountMap],
  - the library loading effect ([load]) as a small state-and-exception
    monad over the page, and
  - the selection and pagination controller: the React state variables,
    the effects with their dependency lists, and the pending timers,

  and states the properties of the specification about them. *)

From Stdlib Require Import ZArith List Bool Ascii String Lia PeanoNat.
From Stdlib Require Import Floats DecimalString.
Import ListNotations.

Set Warnings "-inexact-float".

(** ** JavaScript numbers

  A [number] is a binary64 float; [PrimFloat] is the same format with the
  same correctly rounded [+], [-], [*], [/] and [sqrt]. *)

Module JS.

Local Open Scope float_scope.

(** The number denoted by an integer literal or an array length. *)
Definition Z2float (z : Z) : float :=
  if (z <? 0)%Z then - PrimFloat.of_uint63 (Uint63.of_Z (- z))
  else PrimFloat.of_uint63 (Uint63.of_Z z).

Definition nat2float (n : nat) : float := Z2float (Z.of_nat n).

(** [Math.round]: the integral number closest to [x], ties towards
    [+Infinity]; [-0] for [-0.5 <= x <= -0].  A finite non-zero [x] is
    [(-1)^s * m * 2^e]; for [e < 0] the result is [floor (x + 1/2)],
    computed exactly on integers. *)
Definition Math_round (x : float) : float :=
  match Prim2SF x with
  | S754_finite s m e =>
      if (0 <=? e)%Z then x
      else
        let n := ((if s then - (2 * Zpos m) else 2 * Zpos m) + 2 ^ (- e))%Z in
        let z := (n / 2 ^ (1 - e))%Z in
        if (z =? 0)%Z then (if s then neg_zero else zero) else Z2float z
  | _ => x
  end.

Definition is_neg_zero (x : float) : bool := is_zero x && get_sign x.

(** [Math.min] and [Math.max] of two numbers: [NaN] is contagious and
    [-0] is below [+0]. *)
Definition Math_min (a b : float) : float :=
  if is_nan a || is_nan b then nan
  else if a <? b then a
  else if b <? a then b
  else if is_neg_zero a then a else b.

Definition Math_max (a b : float) : float :=
  if is_nan a || is_nan b then nan
  else if a <? b then b
  else if b <? a then a
  else if is_neg_zero a then b else a.

(** Truthiness of a value that is a number or [undefined] ([None]):
    [undefined], [NaN], [+0] and [-0] are falsy. *)
Definition truthy (v : option float) : bool :=
  match v with
  | None => false
  | Some x => negb (is_nan x || is_zero x)
  end.

(** [ToNumber] of such a value: [undefined] becomes [NaN]. *)
Definition to_number (v : option float) : float :=
  match v with
  | None => nan
  | Some x => x
  end.

(** [String(v)] for [undefined] and for an integer of magnitude up to
    2^53, which [String] prints with all its digits.  Larger numbers and
    numbers with a fraction are printed in other ways and are not
    covered; the ids and Leaflet ids below are taken to be such
    integers. *)
Definition String_of (v : option Z) : string :=
  match v with
  | None => "undefined"%string
  | Some z => DecimalString.NilZero.string_of_int (Z.to_int z)
  end.

End JS.

(** ** Data model *)

Module MarkerData.
(** [type MarkerData].  The list is parsed from JSON and not validated,
    so a field declared [number] may be absent at run time: [None].  An
    [id] that is present is taken to be an integer. *)
Record t : Type := mk {
  id : option Z;
  lat : option float;
  lon : option float;
  title : option string;
  description : option string;
  url : string
}.
End MarkerData.

Module ClusterData.
(** [type ClusterData]: the object literal a click handler passes to
    [setSelectedCluster].  A marker click copies [m.lat] and [m.lon] as
    they are, hence the same [option]. *)
Record t : Type := mk {
  clusterId : string;
  markers : list MarkerData.t;
  lat : option float;
  lon : option float
}.
End ClusterData.

Definition MARKERS_PER_PAGE : nat := 25.

(** ** Cluster icon builder *)

Module ClusterIcon.

Import JS.
Local Open Scope float_scope.

(** [CLUSTER_SOCKET_ICON] after the five [replace] calls: the template is
    fixed, so the markup is determined by the substituted numbers. *)
Record Html : Type := mkHtml {
  h_width : float;
  h_height : float;
  h_innerWidth : float;
  h_fontSize : float;
  h_count : float
}.

(** The argument of [window.L.divIcon]. *)
Record DivIcon : Type := mkIcon {
  html : Html;
  className : string;
  iconSize : float * float;
  iconAnchor : float * float
}.

Definition baseSize : float := 32.
Definition maxSize : float := 48.
Definition minCount : float := 2.
Definition maxCount : float := 100.

Definition size (count : float) : float :=
  baseSize + Math_min
    (PrimFloat.sqrt (count - minCount) / PrimFloat.sqrt (maxCount - minCount)
       * (maxSize - baseSize))
    (maxSize - baseSize).

Definition width (count : float) : float :=
  Math_max (Math_round (size count)) baseSize.

Definition innerWidth (count : float) : float :=
  Math_round (width count * 0.8).

Definition fontSize (count : float) : float :=
  Math_max 11 (Math_min 14 (Math_round (width count * 0.35))).

Definition makeClusterIcon (count : float) : DivIcon :=
  let width := width count in
  let height := width in
  let innerWidth := innerWidth count in
  let fontSize := fontSize count in
  {| html := mkHtml width height innerWidth fontSize count;
     className := "";
     iconSize := (width, width);
     iconAnchor := (width / 2, width / 2) |}.

(** The descriptor as the specification words it. *)
Definition clamp (x lo hi : float) : float := Math_min (Math_max x lo) hi.

Definition spec_diameter (count : float) : float :=
  32 + Math_min (PrimFloat.sqrt (count - 2) / PrimFloat.sqrt 98 * (48 - 32))
                (48 - 32).

Definition spec_inner (diameter : float) : float :=
  Math_round (diameter * 0.8).

Definition spec_fontSize (diameter : float) : float :=
  clamp (Math_round (diameter * 0.35)) 11 14.

(** The child counts of the specification's domain. *)
Definition counts : list Z := map Z.of_nat (seq 2 99).

(** The diameter of the icon built for an integer child count, and the
    unrounded size it comes from. *)
Definition diameter (count : Z) : float :=
  fst (iconSize (makeClusterIcon (Z2float count))).

Definition raw_size (count : Z) : float := size (Z2float count).

(** The descriptor of the specification with the diameter rounded to a
    whole number of pixels first. *)
Definition rounded_descriptor (count : float) : DivIcon :=
  let d := Math_round (spec_diameter count) in
  {| html := mkHtml d d (spec_inner d) (spec_fontSize d) count;
     className := "";
     iconSize := (d, d);
     iconAnchor := (d / 2, d / 2) |}.

(** Decision procedures over the finite domain. *)
Definition in_range (lo x hi : float) : bool := (lo <=? x) && (x <=? hi).

Definition monotone_on (f : Z -> float) (cs : list Z) : bool :=
  forallb (fun c1 =>
    forallb (fun c2 => implb (c1 <=? c2)%Z (f c1 <=? f c2)) cs) cs.

Definition bounded_on (f : Z -> float) (cs : list Z) : bool :=
  forallb (fun c => in_range baseSize (f c) maxSize) cs.

End ClusterIcon.

(** ** Selection and pagination controller

  The React state variables of [MapView], the three effects that drive
  the panel (lines 84-128), [closePanel], and the callbacks waiting in
  [setTimeout].  One event is handled to quiescence before the next one
  arrives: the handler's updates are batched into one render, the effects
  whose dependencies changed run with the values of that render, and
  their updates cause the next render.  This is [step], and [run] is a
  sequence of events each of which arrives after React has rendered the
  one before and run its effects, as clicks, the 300 ms callbacks and
  scroll events in different frames do.  Scroll events that arrive
  earlier than that all run the listener of the last render; they are
  [scroll_events]. *)

Module Controller.

(** A callback passed to [setTimeout].  Both delays are 300 ms, so the
    callbacks run in the order in which they were scheduled. *)
Inductive Timer : Type :=
| RevealTimer (selectedCluster : ClusterData.t) (page : nat)
    (* lines 101-107, with the [page] and [selectedCluster] of the
       render whose effect scheduled it *)
| CloseTimer.
    (* lines 346-350 *)

(** The scroll listener installed by the effect of lines 112-128: the DOM
    node it was added to and the [loadingMore] and [hasMore] its closure
    captured. *)
Record Listener : Type := mkListener {
  l_node : nat;
  l_loadingMore : bool;
  l_hasMore : bool
}.

Record State : Type := mkState {
  (* React state; a selection carries the identity of its object, which
     is what [Object.is] compares in a dependency list *)
  selectedCluster : option (nat * ClusterData.t);
  visibleMarkers : list MarkerData.t;
  page : nat;
  hasMore : bool;
  showPanel : bool;
  loadingMore : bool;
  (* the browser *)
  timers : list Timer;          (* pending callbacks, oldest first *)
  container : option nat;       (* [scrollContainerRef.current] *)
  listener : option Listener;
  fresh : nat                   (* next unused identity *)
}.

Definition set_selectedCluster v (s : State) : State :=
  mkState v (visibleMarkers s) (page s) (hasMore s) (showPanel s)
    (loadingMore s) (timers s) (container s) (listener s) (fresh s).
Definition set_visibleMarkers v (s : State) : State :=
  mkState (selectedCluster s) v (page s) (hasMore s) (showPanel s)
    (loadingMore s) (timers s) (container s) (listener s) (fresh s).
Definition set_page v (s : State) : State :=
  mkState (selectedCluster s) (visibleMarkers s) v (hasMore s) (showPanel s)
    (loadingMore s) (timers s) (container s) (listener s) (fresh s).
Definition set_hasMore v (s : State) : State :=
  mkState (selectedCluster s) (visibleMarkers s) (page s) v (showPanel s)
    (loadingMore s) (timers s) (container s) (listener s) (fresh s).
Definition set_showPanel v (s : State) : State :=
  mkState (selectedCluster s) (visibleMarkers s) (page s) (hasMore s) v
    (loadingMore s) (timers s) (container s) (listener s) (fresh s).
Definition set_loadingMore v (s : State) : State :=
  mkState (selectedCluster s) (visibleMarkers s) (page s) (hasMore s)
    (showPanel s) v (timers s) (container s) (listener s) (fresh s).
Definition set_timers v (s : State) : State :=
  mkState (selectedCluster s) (visibleMarkers s) (page s) (hasMore s)
    (showPanel s) (loadingMore s) v (container s) (listener s) (fresh s).
Definition set_container v (s : State) : State :=
  mkState (selectedCluster s) (visibleMarkers s) (page s) (hasMore s)
    (showPanel s) (loadingMore s) (timers s) v (listener s) (fresh s).
Definition set_listener v (s : State) : State :=
  mkState (selectedCluster s) (visibleMarkers s) (page s) (hasMore s)
    (showPanel s) (loadingMore s) (timers s) (container s) v (fresh s).
Definition set_fresh v (s : State) : State :=
  mkState (selectedCluster s) (visibleMarkers s) (page s) (hasMore s)
    (showPanel s) (loadingMore s) (timers s) (container s) (listener s) v.

Definition setTimeout (t : Timer) (s : State) : State :=
  set_timers (timers s ++ [t]) s.

(** [Object.is] on [selectedCluster]. *)
Definition same_selection (a b : option (nat * ClusterData.t)) : bool :=
  match a, b with
  | None, None => true
  | Some (r1, _), Some (r2, _) => Nat.eqb r1 r2
  | _, _ => false
  end.

(** *** The effects.  [cur] is the render the effect closes over, [s] the
    state its updates go to. *)

(** Lines 84-94, dependencies [[selectedCluster]]. *)
Definition reset_effect (cur s : State) : State :=
  match selectedCluster cur with
  | Some (_, c) =>
      let initialMarkers := firstn MARKERS_PER_PAGE (ClusterData.markers c) in
      set_hasMore (MARKERS_PER_PAGE <? List.length (ClusterData.markers c))
        (set_visibleMarkers initialMarkers (set_page 1 s))
  | None => set_hasMore false (set_visibleMarkers [] s)
  end.

(** Lines 97-109, dependencies [[page, selectedCluster]]. *)
Definition page_effect (cur s : State) : State :=
  match selectedCluster cur with
  | Some (_, c) =>
      if 1 <? page cur
      then setTimeout (RevealTimer c (page cur)) (set_loadingMore true s)
      else s
  | None => s
  end.

(** Lines 112-128, dependencies [[hasMore, loadingMore]]: the previous
    listener is removed by the clean-up, and a new one is added when the
    scroll container is in the document. *)
Definition scroll_effect (cur s : State) : State :=
  match container s with
  | Some node =>
      set_listener (Some (mkListener node (loadingMore cur) (hasMore cur))) s
  | None => set_listener None s
  end.

(** Committing render [cur]: the panel, and with it the scroll container,
    is in the document exactly when [selectedCluster] is not null. *)
Definition commit_dom (cur s : State) : State :=
  match selectedCluster cur, container s with
  | Some _, Some _ => s
  | Some _, None => set_fresh (S (fresh s)) (set_container (Some (fresh s)) s)
  | None, _ => set_container None s
  end.

Definition when (b : bool) (f : State -> State) (s : State) : State :=
  if b then f s else s.

(** Which dependency lists changed from render [prev] to render [cur]. *)
Definition sel_changed (prev cur : State) : bool :=
  negb (same_selection (selectedCluster prev) (selectedCluster cur)).

Definition page_changed (prev cur : State) : bool :=
  negb (page prev =? page cur).

Definition scroll_deps_changed (prev cur : State) : bool :=
  negb (Bool.eqb (hasMore prev) (hasMore cur))
  || negb (Bool.eqb (loadingMore prev) (loadingMore cur)).

(** The effects of render [cur], whose predecessor was render [prev], in
    the order of their declaration. *)
Definition run_effects (prev cur : State) : State :=
  when (scroll_deps_changed prev cur) (scroll_effect cur)
    (when (page_changed prev cur || sel_changed prev cur) (page_effect cur)
       (when (sel_changed prev cur) (reset_effect cur)
          (commit_dom cur cur))).

(** After an event took the state from [prev] to [cur]: render, run the
    effects, render their updates, run the effects again.
    [flush_quiescent] below shows that a third round would do nothing. *)
Definition flush (prev cur : State) : State :=
  run_effects cur (run_effects prev cur).

(** The first render: [useState]'s initial values, every effect runs. *)
Definition initial : State :=
  mkState None [] 1 true false false [] None None 0.

Definition mount : State :=
  let s1 := scroll_effect initial
              (page_effect initial (reset_effect initial
                 (commit_dom initial initial))) in
  run_effects initial s1.

(** *** Events *)

Record ScrollMetrics : Type := mkScroll {
  scrollTop : Z;
  scrollHeight : Z;
  clientHeight : Z
}.

Inductive Event : Type :=
| Select (c : ClusterData.t)    (* a marker or cluster click handler ran *)
| ClosePanel                    (* the close button, or a mousedown outside *)
| Scroll (m : ScrollMetrics)    (* a scroll event on the scroll container *)
| Tick.                         (* the oldest pending callback runs *)

(** Lines 296-302 and 319-325. *)
Definition on_select (c : ClusterData.t) (s : State) : State :=
  set_showPanel true
    (set_selectedCluster (Some (fresh s, c)) (set_fresh (S (fresh s)) s)).

(** [closePanel], lines 344-351. *)
Definition closePanel (s : State) : State :=
  setTimeout CloseTimer (set_showPanel false s).

(** [handleScroll], lines 116-124, with the values its closure captured. *)
Definition handleScroll (l : Listener) (m : ScrollMetrics) (s : State) : State :=
  if l_loadingMore l || negb (l_hasMore l) then s
  else if (scrollHeight m - scrollTop m - clientHeight m <? 100)%Z
       then set_page (page s + 1) s
       else s.

Definition run_timer (t : Timer) (s : State) : State :=
  match t with
  | RevealTimer c page =>
      let endIndex := page * MARKERS_PER_PAGE in
      let newVisibleMarkers := firstn endIndex (ClusterData.markers c) in
      set_loadingMore false
        (set_hasMore (endIndex <? List.length (ClusterData.markers c))
           (set_visibleMarkers newVisibleMarkers s))
  | CloseTimer =>
      set_page 1 (set_visibleMarkers [] (set_selectedCluster None s))
  end.

(** What the event does before React renders.  The close button exists
    while the panel is rendered; a scroll event reaches [handleScroll]
    when its listener sits on the node that is the scroll container. *)
Definition handle (e : Event) (s : State) : State :=
  match e with
  | Select c => on_select c s
  | ClosePanel =>
      match selectedCluster s with
      | Some _ => closePanel s
      | None => s
      end
  | Scroll m =>
      match listener s, container s with
      | Some l, Some node =>
          if l_node l =? node then handleScroll l m s else s
      | _, _ => s
      end
  | Tick =>
      match timers s with
      | t :: rest => run_timer t (set_timers rest s)
      | [] => s
      end
  end.

Definition step (e : Event) (s : State) : State := flush s (handle e s).

Definition run (tr : list Event) (s : State) : State :=
  fold_left (fun s e => step e s) tr s.

(** *** Observations *)

(** The spec's [revealedCount]. *)
Definition revealedCount (s : State) : nat := List.length (visibleMarkers s).

Definition members (s : State) : list MarkerData.t :=
  match selectedCluster s with
  | Some (_, c) => ClusterData.markers c
  | None => []
  end.

Definition is_reveal (t : Timer) : bool :=
  match t with RevealTimer _ _ => true | CloseTimer => false end.

(** Reveal operations in flight. *)
Definition reveals (s : State) : nat :=
  List.length (filter is_reveal (timers s)).

(** A scroll position within 100 px of the bottom. *)
Definition near_bottom : ScrollMetrics := mkScroll 900 1000 100.

Definition is_select (e : Event) : bool :=
  match e with Select _ => true | _ => false end.

(** *** What a round of effects computes, field by field *)

(** The callback the page effect schedules. *)
Definition scheduled (prev cur : State) : list Timer :=
  if page_changed prev cur || sel_changed prev cur
  then match selectedCluster cur with
       | Some (_, c) => if 1 <? page cur then [RevealTimer c (page cur)] else []
       | None => []
       end
  else [].

(** The scroll container after render [cur] is committed. *)
Definition rendered_container (cur : State) : option nat :=
  match selectedCluster cur, container cur with
  | Some _, Some n => Some n
  | Some _, None => Some (fresh cur)
  | None, _ => None
  end.

(** *** Invariants of the states between events *)

Record wf (s : State) : Prop := mkWf {
  wf_page : 1 <= page s;
  wf_panel : rendered_container s = container s;
  wf_selection : forall r c, selectedCluster s = Some (r, c) -> r < fresh s;
  wf_container : forall n, container s = Some n -> n < fresh s;
  wf_listener : forall l, listener s = Some l -> l_node l < fresh s;
  wf_closure : forall l, listener s = Some l -> container s = Some (l_node l) ->
               l_loadingMore l = loadingMore s /\ l_hasMore l = hasMore s
}.

(** At most one reveal is in flight, and [loadingMore] is set while it
    is. *)
Definition guarded (s : State) : Prop :=
  reveals s <= 1 /\ (loadingMore s = false -> reveals s = 0).

Definition is_scroll_or_tick (e : Event) : bool :=
  match e with Scroll _ | Tick => true | _ => false end.

(** Pagination of the selection [c] in a session that was opened on page 1
    with no callback pending and then only scrolled: the list holds the
    first [page] pages between reveals, and the reveal of [page] is the
    one callback pending otherwise. *)
Inductive paging (c : ClusterData.t) (s : State) : Prop :=
| paging_settled :
    timers s = [] -> loadingMore s = false ->
    visibleMarkers s
    = firstn (page s * MARKERS_PER_PAGE) (ClusterData.markers c) ->
    hasMore s
    = (page s * MARKERS_PER_PAGE <? List.length (ClusterData.markers c)) ->
    paging c s
| paging_revealing :
    timers s = [RevealTimer c (page s)] -> loadingMore s = true ->
    paging c s.

Definition in_session (c : ClusterData.t) (s : State) : Prop :=
  wf s /\ (exists r, selectedCluster s = Some (r, c)) /\ paging c s.

(** The scroll listener sits on the scroll container. *)
Definition listening (s : State) : Prop :=
  exists l, listener s = Some l /\ container s = Some (l_node l).

(** Scroll events that arrive before React has rendered the update of the
    first of them: each one runs the listener of the last render, whose
    closure holds the [loadingMore] and [hasMore] of that render. *)
Definition scroll_events (ms : list ScrollMetrics) (s : State) : State :=
  fold_left (fun s m => handle (Scroll m) s) ms s.

End Controller.

(** ** Attribute selectors

  [loadScript] and [loadCss] paste the URL between the quotes of
  [script[src="..."]] and [link[href="..."]] (lines 33 and 43) and hand
  the text to [document.querySelector], which reads it as CSS.  From the
  opening quote on the text is a string token (CSS Syntax Level 3, 3.3 and
  4.3.5): a backslash starts an escape, a line feed is an error, and the
  first quote that is not escaped ends it.  A URL is a string of code
  points 0 to 255. *)

Module Css.

Local Open Scope N_scope.

Definition code_points (s : string) : list N :=
  map N_of_ascii (list_ascii_of_string s).

Definition replacement : N := 65533.    (* U+FFFD *)

Definition surrogate (c : N) : bool := (55296 <=? c) && (c <=? 57343).

(** Preprocessing of the input: CR LF, CR and FF become a line feed, NUL
    and surrogates become U+FFFD. *)
Fixpoint preprocess (input : list N) : list N :=
  match input with
  | [] => []
  | c :: rest =>
      if c =? 13 then
        10 :: match rest with
              | c' :: rest' =>
                  if c' =? 10 then preprocess rest' else preprocess rest
              | [] => []
              end
      else if c =? 12 then 10 :: preprocess rest
      else if (c =? 0) || surrogate c then replacement :: preprocess rest
      else c :: preprocess rest
  end.

Definition hex_value (c : N) : option N :=
  if (48 <=? c) && (c <=? 57) then Some (c - 48)
  else if (65 <=? c) && (c <=? 70) then Some (c - 55)
  else if (97 <=? c) && (c <=? 102) then Some (c - 87)
  else None.

Definition whitespace (c : N) : bool := (c =? 10) || (c =? 9) || (c =? 32).

(** The code point a hexadecimal escape stands for. *)
Definition escaped (v : N) : N :=
  if (v =? 0) || surrogate v || (1114111 <? v) then replacement else v.

(** Where the tokenizer is inside the string. *)
Inductive Position : Type :=
| InString
| AfterBackslash
| InHex (digits value : N).

Inductive StringToken : Type :=
| Closed (value rest : list N)   (* the closing quote, and what follows it *)
| Unclosed (value : list N)      (* the text ended inside the string *)
| BadString.                     (* a line feed inside the string *)

(** Consume a string token whose opening quote has been read. *)
Fixpoint string_token (pos : Position) (value input : list N) : StringToken :=
  match input with
  | [] =>
      match pos with
      | InString | AfterBackslash => Unclosed value
      | InHex _ v => Unclosed (value ++ [escaped v])
      end
  | c :: rest =>
      match pos with
      | InString =>
          if c =? 34 then Closed value rest
          else if c =? 10 then BadString
          else if c =? 92 then string_token AfterBackslash value rest
          else string_token InString (value ++ [c]) rest
      | AfterBackslash =>
          if c =? 10 then string_token InString value rest
          else match hex_value c with
               | Some v => string_token (InHex 1 v) value rest
               | None => string_token InString (value ++ [c]) rest
               end
      | InHex digits v =>
          match hex_value c with
          | Some v' =>
              if digits <? 6
              then string_token (InHex (digits + 1) (16 * v + v')) value rest
              else string_token InString (value ++ [escaped v; c]) rest
          | None =>
              if whitespace c
              then string_token InString (value ++ [escaped v]) rest
              else if c =? 34 then Closed (value ++ [escaped v]) rest
              else if c =? 92
              then string_token AfterBackslash (value ++ [escaped v]) rest
              else string_token InString (value ++ [escaped v; c]) rest
          end
      end
  end.

(** The selector [tag[attr="url"]]: the attribute value it asks for, or
    [None] where [querySelector] throws a [SyntaxError].  A string that is
    still open at the end of the text is closed there, and so is the
    bracket (CSS Syntax Level 3, 5.4.8).  When a quote of the URL ends the
    string before the one the template adds, the rest of the URL and that
    last quote are read as further selector text; the selector grammar is
    not followed into that text, which is taken to be malformed. *)
Definition attribute_value (url : string) : option (list N) :=
  match string_token InString [] (preprocess (code_points url ++ [34; 93])) with
  | Closed value [93] => Some value
  | Closed _ _ => None
  | Unclosed value => Some value
  | BadString => None
  end.

Fixpoint same (a b : list N) : bool :=
  match a, b with
  | [], [] => true
  | x :: a', y :: b' => (x =? y) && same a' b'
  | _, _ => false
  end.

(** An element whose attribute is [actual] matches [tag[attr="url"]];
    [src] and [href] are compared case-sensitively. *)
Definition matches (url actual : string) : bool :=
  match attribute_value url with
  | Some value => same (code_points actual) value
  | None => false
  end.

(** The characters CSS gives a meaning inside a string: NUL, line feed,
    form feed, carriage return, the quote and the backslash. *)
Definition special (c : N) : bool :=
  (c =? 0) || (c =? 10) || (c =? 12) || (c =? 13) || (c =? 34) || (c =? 92).

(** A URL with none of them. *)
Definition plain (url : string) : bool :=
  forallb (fun c => negb (special c)) (code_points url).

End Css.

(** ** Asset loader

  The document as the two lists of elements the loader writes to and the
  attribute selectors read. *)

Module AssetLoader.

Inductive Element : Type :=
| ScriptEl (src : string)          (* <script src=... async> *)
| LinkEl (rel href : string).      (* <link rel=... href=...> *)

Record Document : Type := mkDocument {
  head : list Element;
  body : list Element
}.

(** The promise [loadScript] returns: already resolved, settled later by
    the [onload] or [onerror] of the element just attached, or rejected
    because the executor threw. *)
Inductive Promise : Type :=
| Resolved
| Pending
| Rejected.

(** The element matches [script[src="${src}"]]. *)
Definition is_script (src : string) (e : Element) : bool :=
  match e with
  | ScriptEl s => Css.matches src s
  | LinkEl _ _ => false
  end.

(** The element matches [link[href="${href}"]]. *)
Definition is_link (href : string) (e : Element) : bool :=
  match e with
  | ScriptEl _ => false
  | LinkEl _ h => Css.matches href h
  end.

(** [document.querySelector] with a selector that is well-formed: is there
    a match anywhere in the document? *)
Definition querySelector (p : Element -> bool) (d : Document) : bool :=
  existsb p (head d ++ body d).

(** Lines 31-40.  A [SyntaxError] of [querySelector] is thrown inside the
    executor of the promise, which rejects it. *)
Definition loadScript (src : string) (d : Document) : Document * Promise :=
  match Css.attribute_value src with
  | None => (d, Rejected)
  | Some _ =>
      if querySelector (is_script src) d then (d, Resolved)
      else (mkDocument (head d) (body d ++ [ScriptEl src]), Pending)
  end.

(** Lines 42-48; [None] when [querySelector] throws. *)
Definition loadCss (href : string) (d : Document) : option Document :=
  match Css.attribute_value href with
  | None => None
  | Some _ =>
      if querySelector (is_link href) d then Some d
      else Some (mkDocument (head d ++ [LinkEl "stylesheet" href]) (body d))
  end.

(** A call of the loader, and a page lifetime as a sequence of calls. *)
Inductive Call : Type :=
| CallScript (src : string)
| CallCss (href : string).

(** The document after the call; a call that throws leaves it as it is. *)
Definition exec (c : Call) (d : Document) : Document :=
  match c with
  | CallScript src => fst (loadScript src d)
  | CallCss href =>
      match loadCss href d with
      | Some d' => d'
      | None => d
      end
  end.

Definition exec_all (cs : list Call) (d : Document) : Document :=
  fold_left (fun d c => exec c d) cs d.

(** Elements in the document. *)
Definition size (d : Document) : nat :=
  List.length (head d) + List.length (body d).

Definition call_eqb (a b : Call) : bool :=
  match a, b with
  | CallScript x, CallScript y => String.eqb x y
  | CallCss x, CallCss y => String.eqb x y
  | _, _ => false
  end.

(** The selector the call [c] starts with finds an element. *)
Definition present (c : Call) (d : Document) : bool :=
  match c with
  | CallScript src => querySelector (is_script src) d
  | CallCss href => querySelector (is_link href) d
  end.

(** How many of the calls [cs], run in order from [d], are calls [c] that
    put a new element into the document. *)
Fixpoint attachments (c : Call) (cs : list Call) (d : Document) : nat :=
  match cs with
  | [] => 0
  | c' :: rest =>
      (if call_eqb c c' && (size d <? size (exec c' d)) then 1 else 0)
      + attachments c rest (exec c' d)
  end.

(** The URL of a call. *)
Definition url_of (c : Call) : string :=
  match c with
  | CallScript src => src
  | CallCss href => href
  end.

End AssetLoader.

(** ** Map mount: the marker loop and the click handlers *)

Module MapMount.

Import JS.
Local Open Scope float_scope.

(** A Leaflet marker as [mountMap] builds it (lines 293-294). *)
Record Marker : Type := mkMarker {
  latlng : option float * option float;
  markerData : MarkerData.t       (* [marker.options.markerData] *)
}.

(** Lines 283-305: the markers added to the cluster layer, in order. *)
Fixpoint attach (markers : list MarkerData.t) (markersLayer : list Marker)
  : list Marker :=
  match markers with
  | [] => markersLayer
  | m :: rest =>
      if negb (truthy (MarkerData.lat m)) || negb (truthy (MarkerData.lon m))
      then attach rest markersLayer
      else
        let marker := mkMarker (MarkerData.lat m, MarkerData.lon m) m in
        attach rest (markersLayer ++ [marker])
  end.

(** The object the click handler of marker [m] selects (lines 296-301). *)
Definition marker_click (m : MarkerData.t) : ClusterData.t :=
  {| ClusterData.clusterId := String_of (MarkerData.id m);
     ClusterData.lat := MarkerData.lat m;
     ClusterData.lon := MarkerData.lon m;
     ClusterData.markers := [m] |}.

(** A [clusterclick] event: the layer's child markers and its Leaflet
    id. *)
Record ClusterClick : Type := mkClusterClick {
  getAllChildMarkers : list Marker;
  _leaflet_id : Z
}.

(** The body of the [forEach] of lines 312-316 on the three variables it
    updates. *)
Definition visit (acc : list MarkerData.t * float * float) (marker : Marker)
  : list MarkerData.t * float * float :=
  let '(contained, avgLat, avgLng) := acc in
  (contained ++ [markerData marker],
   avgLat + to_number (MarkerData.lat (markerData marker)),
   avgLng + to_number (MarkerData.lon (markerData marker))).

(** Lines 308-324. *)
Definition cluster_click (e : ClusterClick) : ClusterData.t :=
  let children := getAllChildMarkers e in
  let '(contained, avgLat, avgLng) := fold_left visit children ([], 0, 0) in
  let avgLat := avgLat / nat2float (List.length children) in
  let avgLng := avgLng / nat2float (List.length children) in
  {| ClusterData.clusterId := String_of (Some (_leaflet_id e));
     ClusterData.markers := contained;
     ClusterData.lat := Some avgLat;
     ClusterData.lon := Some avgLng |}.

(** The arithmetic mean of a sequence of numbers, in the arithmetic of
    the language: the sum from left to right, divided by the count. *)
Definition sum (xs : list float) : float := fold_left PrimFloat.add xs 0.

Definition mean (xs : list float) : float :=
  sum xs / nat2float (List.length xs).

(** The guard of line 284 lets the entry through. *)
Definition renderable (m : MarkerData.t) : bool :=
  truthy (MarkerData.lat m) && truthy (MarkerData.lon m).

Definition marker_of (m : MarkerData.t) : Marker :=
  mkMarker (MarkerData.lat m, MarkerData.lon m) m.

(** The points of a list of markers and their coordinates. *)
Definition points (ms : list Marker) : list MarkerData.t := map markerData ms.

Definition lats (ps : list MarkerData.t) : list float :=
  map (fun p => to_number (MarkerData.lat p)) ps.

Definition lons (ps : list MarkerData.t) : list float :=
  map (fun p => to_number (MarkerData.lon p)) ps.

End MapMount.

(** ** Loading the mapping library and its clustering extension

  The effect of lines 156-213 as a program over the page, in a state
  monad with exceptions for [await], [try], [catch] and [finally]. *)

Module LibraryLoad.

Import AssetLoader.
Local Open Scope string_scope.

(** [window.L], observed through [typeof window.L.markerClusterGroup]. *)
Record Leaflet : Type := mkLeaflet {
  typeof_markerClusterGroup : string
}.

Record Window : Type := mkWindow {
  L : option Leaflet
}.

Inductive Level : Type := Log | Warn | Error.

Record Page : Type := mkPage {
  document : Document;
  window : Window;
  console : list (Level * list string);   (* oldest first *)
  loading : bool;                          (* the [loading] state *)
  mapRef : option (list MapMount.Marker);  (* the map and its marker layer *)
  loaderCalls : list string                (* every [loadScript] argument *)
}.

Inductive Result (A : Type) : Type :=
| Ok (a : A)
| Throw (error : string).
Arguments Ok {A} a.
Arguments Throw {A} error.

Definition M (A : Type) : Type := Page -> Result A * Page.

Definition ret {A} (a : A) : M A := fun p => (Ok a, p).

Definition bind {A B} (m : M A) (k : A -> M B) : M B :=
  fun p =>
    match m p with
    | (Ok a, p') => k a p'
    | (Throw e, p') => (Throw e, p')
    end.

Notation "x <- m ;; k" := (bind m (fun x => k))
  (at level 61, m at next level, right associativity).
Notation "m ;; k" := (bind m (fun _ => k))
  (at level 61, right associativity).

Definition try_catch {A} (m : M A) (handler : string -> M A) : M A :=
  fun p =>
    match m p with
    | (Ok a, p') => (Ok a, p')
    | (Throw e, p') => handler e p'
    end.

Definition finally {A} (m : M A) (f : M unit) : M A :=
  fun p =>
    match m p with
    | (r, p') =>
        match f p' with
        | (Ok _, p'') => (r, p'')
        | (Throw e, p'') => (Throw e, p'')
        end
    end.

Definition modify (f : Page -> Page) : M unit := fun p => (Ok tt, f p).

Definition get_window : M Window := fun p => (Ok (window p), p).

Definition print (l : Level) (args : list string) : M unit :=
  modify (fun p => mkPage (document p) (window p) (console p ++ [(l, args)])
                     (loading p) (mapRef p) (loaderCalls p)).

Definition setLoading (b : bool) : M unit :=
  modify (fun p => mkPage (document p) (window p) (console p) b
                     (mapRef p) (loaderCalls p)).

(** [loadCss(href)]; a [SyntaxError] of its [querySelector] is thrown to
    the caller. *)
Definition css (href : string) : M unit :=
  fun p =>
    match loadCss href (document p) with
    | Some d =>
        (Ok tt, mkPage d (window p) (console p) (loading p) (mapRef p)
                  (loaderCalls p))
    | None => (Throw "SyntaxError", p)
    end.

Definition is_function (w : Window) : bool :=
  match L w with
  | Some l => typeof_markerClusterGroup l =? "function"
  | None => false
  end.

Definition typeof_of (w : Window) : string :=
  match L w with
  | Some l => typeof_markerClusterGroup l
  | None => "undefined"
  end.

Definition leaflet_css := "https://unpkg.com/leaflet/dist/leaflet.css".
Definition cluster_css :=
  "https://unpkg.com/leaflet.markercluster/dist/MarkerCluster.Default.css".
Definition leaflet_js := "https://unpkg.com/leaflet/dist/leaflet.js".
Definition cluster_js :=
  "https://unpkg.com/leaflet.markercluster/dist/leaflet.markercluster.js".

Section Browser.

(** What the browser does with a script element once it is attached:
    fetch and run it, which changes [window], or fail ([None]). *)
Variable fetch : string -> Window -> option Window.

(** What scripts still initialising do to [window] during the 100 ms
    pause of line 174. *)
Variable settle : Window -> Window.

(** [await loadScript(src)]. *)
Definition await_loadScript (src : string) : M unit :=
  fun p =>
    let '(d, promise) := loadScript src (document p) in
    let p' := mkPage d (window p) (console p) (loading p) (mapRef p)
                (loaderCalls p ++ [src]) in
    match promise with
    | Resolved => (Ok tt, p')
    | Rejected => (Throw "SyntaxError", p')
    | Pending =>
        match fetch src (window p') with
        | Some w =>
            (Ok tt, mkPage d w (console p') (loading p') (mapRef p')
                      (loaderCalls p'))
        | None => (Throw "error", p')
        end
    end.

Definition pause : M unit :=
  modify (fun p => mkPage (document p) (settle (window p)) (console p)
                     (loading p) (mapRef p) (loaderCalls p)).

(** [mountMap], lines 250-341: the guard, then the map with its marker
    layer. *)
Definition mountMap (markers : list MarkerData.t) : M unit :=
  w <- get_window ;;
  if negb (is_function w)
  then print Error ["Cannot mount map: Leaflet or MarkerCluster plugin missing"]
  else modify (fun p => mkPage (document p) (window p) (console p)
                          (loading p) (Some (MapMount.attach markers []))
                          (loaderCalls p)).

(** Lines 158-162. *)
Definition load_styles : M unit :=
  setLoading true ;;
  css leaflet_css ;;
  css cluster_css.

(** Lines 166-174. *)
Definition load_scripts : M unit :=
  await_loadScript leaflet_js ;;
  print Log ["Leaflet loaded successfully"] ;;
  await_loadScript cluster_js ;;
  print Log ["MarkerCluster loaded successfully"] ;;
  pause.

(** Lines 177-190. *)
Definition check_plugin : M unit :=
  w <- get_window ;;
  match L w with
  | Some l =>
      if typeof_markerClusterGroup l =? "function"
      then print Log ["Leaflet and MarkerCluster loaded successfully."]
      else
        print Warn ["MarkerCluster plugin missing! typeof window.L.markerClusterGroup:";
                    typeof_markerClusterGroup l] ;;
        await_loadScript cluster_js ;;
        w' <- get_window ;;
        print Log ["Attempted to reload MarkerCluster. Status:";
                   if typeof_of w' =? "function" then "Success" else "Failed"]
  | None => print Error ["Leaflet (window.L) failed to load!"]
  end.

(** Lines 192-196. *)
Definition mount_or_give_up (markers : list MarkerData.t) : M unit :=
  w <- get_window ;;
  if is_function w && Nat.ltb 0 (List.length markers)
  then mountMap markers
  else print Error ["Cannot mount map: Libraries not loaded properly"].

(** [load], lines 157-202. *)
Definition load (markers : list MarkerData.t) : M unit :=
  load_styles ;;
  finally
    (try_catch
       (load_scripts ;; check_plugin ;; mount_or_give_up markers)
       (fun e => print Error ["Error loading map libraries:"; e]))
    (setLoading false).

(** The run of [load] up to the check of line 177. *)
Definition up_to_check : M unit := load_styles ;; load_scripts.

End Browser.

(** Calls of [loadScript] with [src] among [calls]. *)
Definition calls_of (src : string) (calls : list string) : nat :=
  List.length (filter (String.eqb src) calls).

End LibraryLoad.


(** ** Sample data *)

Module Sample.

Local Open Scope string_scope.

(** The point of the specification's scenario. *)
Definition origin : MarkerData.t :=
  MarkerData.mk None (Some 0%float) (Some 0%float) None None "/r/test/1".

(** The same post one degree north-east. *)
Definition north_east : MarkerData.t :=
  MarkerData.mk None (Some 1%float) (Some 1%float) None None "/r/test/1".

(** An entry whose [lat] is missing. *)
Definition no_lat : MarkerData.t :=
  MarkerData.mk None None (Some 1%float) None None "/r/test/2".

(** [n] points of a subreddit, numbered from 1. *)
Definition post (sub : string) (n : nat) : MarkerData.t :=
  MarkerData.mk (Some (Z.of_nat n)) (Some 1%float) (Some 2%float) None None
    ("/r/" ++ sub ++ "/" ++ JS.String_of (Some (Z.of_nat n))).

Definition posts (sub : string) (n : nat) : list MarkerData.t :=
  map (post sub) (seq 1 n).

Definition cluster (sub : string) (n : nat) : ClusterData.t :=
  ClusterData.mk sub (posts sub n) (Some 1%float) (Some 2%float).

End Sample.

(** ** Scenarios: event sequences from the mounted component *)

Module Scenario.

Import Controller Sample.
Local Open Scope string_scope.

(** The state a session is in: the component has seen [before], then the
    selection [c] was opened, then the events [after] arrived. *)
Definition session (before : list Event) (c : ClusterData.t)
    (after : list Event) : State :=
  run after (step (Select c) (run before mount)).

(** The specification's scenario: a cluster of 30 points is clicked and
    the list is scrolled to the bottom. *)
Definition thirty : list Event :=
  [Select (cluster "a" 30); Scroll near_bottom; Tick].

(** A second cluster is clicked while the first one shows its second
    page; 300 ms pass. *)
Definition reopen : list Event :=
  [Select (cluster "a" 60); Scroll near_bottom; Tick;
   Select (cluster "b" 60); Tick].

(** The list is scrolled to the bottom (t = 0 ms), the panel is closed
    (t = 100), another marker is clicked (t = 200), and the callback of
    t = 0 runs (t = 300). *)
Definition close_reopen : list Event :=
  [Select (cluster "a" 30); Scroll near_bottom; ClosePanel;
   Select (MapMount.marker_click north_east); Tick].

(** The panel is closed, the list still scrolls while it slides out, and
    both callbacks run. *)
Definition close_scroll : list Event :=
  [Select (cluster "a" 60); ClosePanel; Scroll near_bottom; Tick; Tick].

(** The panel is closed (t = 0 ms), the list still scrolls while it slides
    out (t = 250), the close completes (t = 300), a second cluster is
    clicked (t = 400), and the reveal of t = 250 runs (t = 550). *)
Definition late_reveal : list Event :=
  [Select (cluster "a" 60); ClosePanel; Scroll near_bottom; Tick;
   Select (cluster "b" 60); Tick].

(** A second cluster is clicked while a reveal is in flight; the first
    reveal completes and the list is scrolled again. *)
Definition reopen_in_flight : list Event :=
  [Select (cluster "a" 60); Scroll near_bottom; Select (cluster "b" 80);
   Tick; Scroll near_bottom].

(** The same with the mouse: the mousedown on the map calls [closePanel]
    before the click selects the second cluster. *)
Definition reopen_in_flight_click : list Event :=
  [Select (cluster "a" 60); Scroll near_bottom; ClosePanel;
   Select (cluster "b" 80); Tick; Scroll near_bottom].

End Scenario.

(** ** The rendered panel *)

Module PanelView.

Import Controller.
Local Open Scope string_scope.

(** One entry of the list (lines 408-418): its React key and the link of
    its embed. *)
Record Item : Type := mkItem {
  key : string;
  href : string
}.

(** [marker.id] as a condition: a number other than 0. *)
Definition truthy_id (id : option Z) : bool :=
  match id with
  | Some z => negb (z =? 0)%Z
  | None => false
  end.

Definition item (index : nat) (marker : MarkerData.t) : Item :=
  {| key := if truthy_id (MarkerData.id marker)
            then "marker-" ++ JS.String_of (MarkerData.id marker)
            else "marker-" ++ MarkerData.url marker ++ "-"
                 ++ JS.String_of (Some (Z.of_nat index));
     href := "https://www.reddit.com" ++ MarkerData.url marker |}.

(** [visibleMarkers.map((marker, index) => ...)]. *)
Fixpoint items_from (index : nat) (markers : list MarkerData.t) : list Item :=
  match markers with
  | [] => []
  | marker :: rest => item index marker :: items_from (S index) rest
  end.

(** The panel of lines 377-431. *)
Record Panel : Type := mkPanel {
  slid_in : bool;            (* the class chosen by [showPanel] *)
  results : nat;             (* [selectedCluster.markers.length] *)
  results_label : string;    (* "Result" or "Results" *)
  items : list Item;
  spinner : bool;            (* lines 419-423 *)
  end_of_list : bool         (* lines 424-428 *)
}.

Record View : Type := mkView {
  loading_overlay : bool;    (* lines 371-375 *)
  panel : option Panel
}.

Definition render (loading : bool) (s : State) : View :=
  {| loading_overlay := loading;
     panel :=
       match selectedCluster s with
       | Some (_, c) =>
           Some {| slid_in := showPanel s;
                   results := List.length (ClusterData.markers c);
                   results_label :=
                     if Nat.eqb (List.length (ClusterData.markers c)) 1
                     then "Result" else "Results";
                   items := items_from 0 (visibleMarkers s);
                   spinner := loadingMore s;
                   end_of_list :=
                     negb (loadingMore s) && negb (hasMore s)
                     && Nat.ltb 0 (List.length (visibleMarkers s)) |}
       | None => None
       end |}.

End PanelView.

(** ** The embed widget script (lines 131-153) *)

Module EmbedWidget.

Section Body.

(** The other children of [document.body]; none of them has the id
    [reddit-widget-script]. *)
Variable A : Type.

Inductive Node : Type :=
| Plain (a : A)
| WidgetScript.    (* <script id="reddit-widget-script" src=".../widgets.js"> *)

Definition is_widget (n : Node) : bool :=
  match n with
  | Plain _ => false
  | WidgetScript => true
  end.

(** [document.getElementById('reddit-widget-script')], then [remove()] on
    the element if there is one: the first match in document order. *)
Fixpoint remove_widget (body : list Node) : list Node :=
  match body with
  | [] => []
  | n :: rest => if is_widget n then rest else n :: remove_widget rest
  end.

(** The body of the effect, lines 134-146. *)
Definition effect (visibleMarkers : list MarkerData.t) (body : list Node)
  : list Node :=
  let body := remove_widget body in
  if Nat.ltb 0 (List.length visibleMarkers)
  then body ++ [WidgetScript]
  else body.

(** Its clean-up, lines 148-152. *)
Definition cleanup (body : list Node) : list Node := remove_widget body.

(** [visibleMarkers] changed: the clean-up of the previous run, then the
    effect. *)
Definition rerun (visibleMarkers : list MarkerData.t) (body : list Node)
  : list Node :=
  effect visibleMarkers (cleanup body).

(** From the first render, through the changes of [visibleMarkers]. *)
Definition lifecycle (first : list MarkerData.t)
    (changes : list (list MarkerData.t)) (body : list Node) : list Node :=
  fold_left (fun b v => rerun v b) changes (effect first body).

Definition widgets (body : list Node) : nat :=
  List.length (filter is_widget body).

Definition others (body : list Node) : list Node :=
  filter (fun n => negb (is_widget n)) body.

End Body.

Arguments Plain {A} a.
Arguments WidgetScript {A}.
Arguments is_widget {A} n.
Arguments remove_widget {A} body.
Arguments effect {A} visibleMarkers body.
Arguments cleanup {A} body.
Arguments rerun {A} visibleMarkers body.
Arguments lifecycle {A} first changes body.
Arguments widgets {A} body.
Arguments others {A} body.

End EmbedWidget.

(** ** Event sequences and checks used below *)

Module Flows.

Import Controller.

(** [k] times: the list is scrolled to the bottom and the reveal delay
    passes. *)
Definition scrolls (k : nat) : list Event :=
  List.concat (repeat [Scroll near_bottom; Tick] k).

(** After [k] such rounds in a session on [c]: nothing is pending, the
    list holds the first [k + 1] pages, and either more are left, the page
    is [k + 1] and the scroll listener sits on the scroll container, or
    everything is listed. *)
Definition revealed (c : ClusterData.t) (k : nat) (s : State) : Prop :=
  wf s
  /\ (exists r, selectedCluster s = Some (r, c))
  /\ timers s = [] /\ loadingMore s = false
  /\ visibleMarkers s = firstn ((k + 1) * 25) (ClusterData.markers c)
  /\ ((hasMore s = true /\ page s = k + 1
       /\ (k + 1) * 25 < List.length (ClusterData.markers c)
       /\ exists l, listener s = Some l /\ container s = Some (l_node l))
      \/ (hasMore s = false
          /\ List.length (ClusterData.markers c) <= (k + 1) * 25)).

(** Every callback pending in [s] runs, and nothing else happens. *)
Definition drain (s : State) : list Event :=
  repeat Tick (List.length (timers s)).

(** The four assets of the map are in the document. *)
Definition assets_present (d : AssetLoader.Document) : bool :=
  AssetLoader.present (AssetLoader.CallCss LibraryLoad.leaflet_css) d
  && AssetLoader.present (AssetLoader.CallCss LibraryLoad.cluster_css) d
  && AssetLoader.present (AssetLoader.CallScript LibraryLoad.leaflet_js) d
  && AssetLoader.present (AssetLoader.CallScript LibraryLoad.cluster_js) d.

(** The elements the loader creates. *)
Definition is_stylesheet (e : AssetLoader.Element) : Prop :=
  match e with
  | AssetLoader.LinkEl rel _ => rel = "stylesheet"%string
  | AssetLoader.ScriptEl _ => False
  end.

Definition is_script_element (e : AssetLoader.Element) : Prop :=
  match e with
  | AssetLoader.ScriptEl _ => True
  | AssetLoader.LinkEl _ _ => False
  end.

(** A number is integral. *)
Definition is_whole (x : float) : bool := PrimFloat.eqb (JS.Math_round x) x.

(** The markup of the icon built for an integer child count. *)
Definition icon_html (count : Z) : ClusterIcon.Html :=
  ClusterIcon.html (ClusterIcon.makeClusterIcon (JS.Z2float count)).

(** The integers from [lo] to [hi]. *)
Definition integers (lo hi : Z) : list Z :=
  map (fun i => (lo + Z.of_nat i)%Z) (seq 0 (Z.to_nat (hi - lo + 1))).

End Flows.

(** ** Sample pages and browsers *)

Module LoadSample.

Import AssetLoader LibraryLoad.
Local Open Scope string_scope.

(** A browser in which both scripts load and define what they should. *)
Definition good_fetch (src : string) (w : Window) : option Window :=
  if src =? leaflet_js then Some (mkWindow (Some (mkLeaflet "undefined")))
  else Some (mkWindow (Some (mkLeaflet "function"))).

(** A browser without a network. *)
Definition no_fetch (src : string) (w : Window) : option Window := None.

(** A URL with a backslash and one with a quote. *)
Definition escaped_js : string := "a\.js".
Definition quoted_js : string := "a" ++ String (ascii_of_nat 34) "b.js".

Definition blank_page : Page :=
  mkPage (mkDocument [] []) (mkWindow None) [] true None [].

(** The page after the scripts have loaded in [good_fetch]. *)
Definition loaded_page : Page :=
  mkPage (mkDocument [LinkEl "stylesheet" leaflet_css;
                      LinkEl "stylesheet" cluster_css]
                     [ScriptEl leaflet_js; ScriptEl cluster_js])
         (mkWindow (Some (mkLeaflet "function")))
         [(Log, ["Leaflet loaded successfully"]);
          (Log, ["MarkerCluster loaded successfully"])]
         true None [leaflet_js; cluster_js].

End LoadSample.

(** * Properties *)

(** ** Cluster icon builder *)

Module ClusterIconFacts.

Import JS ClusterIcon.
Local Open Scope float_scope.

Lemma in_counts (n : Z) : (2 <= n <= 100)%Z -> In n counts.
Proof.
  intros H. unfold counts.
  replace n with (Z.of_nat (Z.to_nat n)) by lia.
  apply in_map, in_seq. lia.
Qed.

Example icon_for_3 :
  makeClusterIcon 3 =
  {| html := mkHtml 34 34 27 12 3; className := "";
     iconSize := (34, 34); iconAnchor := (17, 17) |}.
Proof. vm_compute. reflexivity. Qed.

Example icon_for_100 :
  makeClusterIcon 100 =
  {| html := mkHtml 48 48 38 14 100; className := "";
     iconSize := (48, 48); iconAnchor := (24, 24) |}.
Proof. vm_compute. reflexivity. Qed.

Lemma rounded_descriptor_on_counts :
  Forall (fun n => makeClusterIcon (Z2float n) = rounded_descriptor (Z2float n))
         counts.
Proof.
  unfold counts. cbn [seq map].
  repeat (apply Forall_cons; [ vm_compute; reflexivity | ]).
  apply Forall_nil.
Qed.

(** C3, as the code has it: for every integer count in [2,100] the builder
    returns the specification's diameter rounded to a whole number of
    pixels, [round (32 + min (sqrt (count-2) / sqrt 98 * 16) 16)], and the
    inner diameter [round (diameter * 0.8)] and the font size
    [clamp (round (diameter * 0.35)) 11 14] of that rounded diameter. *)
Theorem makeClusterIcon_rounded_descriptor (n : Z) :
  (2 <= n <= 100)%Z ->
  makeClusterIcon (Z2float n) = rounded_descriptor (Z2float n).
Proof.
  intros H.
  pose proof rounded_descriptor_on_counts as A.
  rewrite Forall_forall in A. apply A, in_counts, H.
Qed.

Lemma makeClusterIcon_rounded_descriptor_witness :
  (2 <= 7 <= 100)%Z /\
  makeClusterIcon (Z2float 7) = rounded_descriptor (Z2float 7).
Proof.
  split; [ lia | apply (makeClusterIcon_rounded_descriptor 7); lia ].
Defined.

(** C3 as the specification words it fails: for 7 children the builder
    returns diameter 36, inner diameter 29 and font size 13, where the
    unrounded formula gives 35.61..., 28 and 12. *)
Lemma makeClusterIcon_not_spec_descriptor :
  makeClusterIcon (Z2float 7) =
    {| html := mkHtml 36 36 29 13 7; className := "";
       iconSize := (36, 36); iconAnchor := (18, 18) |}
  /\ (spec_diameter (Z2float 7) <? 36) = true
  /\ spec_inner (spec_diameter (Z2float 7)) = 28
  /\ spec_fontSize (spec_diameter (Z2float 7)) = 12
  /\ fst (iconSize (makeClusterIcon (Z2float 7))) <> spec_diameter (Z2float 7)
  /\ h_innerWidth (html (makeClusterIcon (Z2float 7)))
       <> spec_inner (spec_diameter (Z2float 7))
  /\ h_fontSize (html (makeClusterIcon (Z2float 7)))
       <> spec_fontSize (spec_diameter (Z2float 7)).
Proof.
  repeat split; try (vm_compute; reflexivity); intros E.
  - apply (f_equal (fun x => x <? 36)) in E. vm_compute in E. discriminate E.
  - apply (f_equal (fun x => x <? 28.5)) in E. vm_compute in E. discriminate E.
  - apply (f_equal (fun x => x <? 12.5)) in E. vm_compute in E. discriminate E.
Qed.

Lemma monotone_on_spec (f : Z -> float) (cs : list Z) (c1 c2 : Z) :
  monotone_on f cs = true -> In c1 cs -> In c2 cs -> (c1 <= c2)%Z ->
  (f c1 <=? f c2) = true.
Proof.
  unfold monotone_on. intros M I1 I2 L.
  rewrite forallb_forall in M. specialize (M c1 I1).
  rewrite forallb_forall in M. specialize (M c2 I2).
  apply Z.leb_le in L. rewrite L in M. exact M.
Qed.

Lemma bounded_on_spec (f : Z -> float) (cs : list Z) (c : Z) :
  bounded_on f cs = true -> In c cs ->
  (32 <=? f c) = true /\ (f c <=? 48) = true.
Proof.
  unfold bounded_on, in_range. intros B I.
  rewrite forallb_forall in B. specialize (B c I).
  apply andb_true_iff in B. exact B.
Qed.

Lemma diameter_checks :
  monotone_on diameter counts = true /\ bounded_on diameter counts = true.
Proof. split; vm_compute; reflexivity. Qed.

Lemma raw_size_checks :
  monotone_on raw_size counts = true /\ bounded_on raw_size counts = true.
Proof. split; vm_compute; reflexivity. Qed.

(** C4: for integer counts [c1 <= c2] in [2,100] the diameter the builder
    computes for [c1] is at most the one for [c2], and both lie between 32
    and 48; the same holds of the size before it is rounded. *)
Theorem diameter_monotone_bounded (c1 c2 : Z) :
  (2 <= c1)%Z -> (c1 <= c2)%Z -> (c2 <= 100)%Z ->
  (diameter c1 <=? diameter c2) = true
  /\ (32 <=? diameter c1) = true /\ (diameter c1 <=? 48) = true
  /\ (32 <=? diameter c2) = true /\ (diameter c2 <=? 48) = true
  /\ (raw_size c1 <=? raw_size c2) = true
  /\ (32 <=? raw_size c1) = true /\ (raw_size c2 <=? 48) = true.
Proof.
  intros H1 H12 H2.
  assert (I1 : In c1 counts) by (apply in_counts; lia).
  assert (I2 : In c2 counts) by (apply in_counts; lia).
  destruct diameter_checks as [Md Bd], raw_size_checks as [Ms Bs].
  pose proof (bounded_on_spec _ _ _ Bd I1) as [? ?].
  pose proof (bounded_on_spec _ _ _ Bd I2) as [? ?].
  pose proof (bounded_on_spec _ _ _ Bs I1) as [? ?].
  pose proof (bounded_on_spec _ _ _ Bs I2) as [? ?].
  pose proof (monotone_on_spec _ _ _ _ Md I1 I2 H12).
  pose proof (monotone_on_spec _ _ _ _ Ms I1 I2 H12).
  repeat split; assumption.
Qed.

Lemma diameter_monotone_bounded_witness :
  (diameter 3 <=? diameter 50) = true
  /\ (32 <=? diameter 3) = true /\ (diameter 3 <=? 48) = true
  /\ (32 <=? diameter 50) = true /\ (diameter 50 <=? 48) = true
  /\ (raw_size 3 <=? raw_size 50) = true
  /\ (32 <=? raw_size 3) = true /\ (raw_size 50 <=? 48) = true.
Proof. apply (diameter_monotone_bounded 3 50); lia. Defined.

End ClusterIconFacts.

(** ** Attribute selectors *)

Module CssFacts.

Import Css.
Local Open Scope N_scope.

Lemma same_eq (a b : list N) : same a b = true <-> a = b.
Proof.
  revert b. induction a as [| x a IH]; intros [| y b]; cbn;
    try (split; [ discriminate | congruence ]); [ tauto | ].
  rewrite andb_true_iff, N.eqb_eq, IH. split; [ intros [-> ->] | intros [= -> ->] ]; auto.
Qed.

Lemma code_points_inj (s t : string) : code_points s = code_points t -> s = t.
Proof.
  unfold code_points. intros E.
  rewrite <- (string_of_list_ascii_of_string s),
          <- (string_of_list_ascii_of_string t).
  f_equal.
  revert E. generalize (list_ascii_of_string s), (list_ascii_of_string t).
  intros l. induction l as [| a l IH]; intros [| b m]; cbn; try discriminate;
    [ reflexivity | ].
  intros [= E1 E2]. f_equal; [ | now apply IH ].
  rewrite <- (ascii_N_embedding a), <- (ascii_N_embedding b). now rewrite E1.
Qed.

(** A code point of a URL that CSS reads as itself. *)
Definition literal (c : N) : bool := negb (special c) && (c <? 256).

Lemma literal_points (s : string) :
  plain s = true -> forallb literal (code_points s) = true.
Proof.
  unfold plain, code_points.
  induction (list_ascii_of_string s) as [| a l IH]; cbn; [ reflexivity | ].
  intros H. apply andb_true_iff in H. destruct H as [H1 H2].
  unfold literal at 1. rewrite H1, (IH H2). cbn.
  pose proof (N_ascii_bounded a) as B. apply N.ltb_lt in B. now rewrite B.
Qed.

Lemma literal_cases (c : N) :
  literal c = true ->
  (c =? 13) = false /\ (c =? 12) = false /\ (c =? 0) = false
  /\ surrogate c = false /\ (c =? 34) = false /\ (c =? 10) = false
  /\ (c =? 92) = false.
Proof.
  unfold literal, special, surrogate. intros H.
  apply andb_true_iff in H. destruct H as [H B]. apply N.ltb_lt in B.
  apply negb_true_iff in H. repeat (apply orb_false_iff in H; destruct H as [H ?]).
  repeat split; try assumption.
  apply andb_false_iff. left. apply N.leb_gt. lia.
Qed.

Lemma preprocess_literal (l tail : list N) :
  forallb literal l = true ->
  preprocess (l ++ 34 :: tail) = l ++ preprocess (34 :: tail).
Proof.
  induction l as [| c l IH]; [ reflexivity | ].
  cbn [forallb app]. intros H. apply andb_true_iff in H. destruct H as [C H].
  destruct (literal_cases c C) as (E13 & E12 & E0 & Es & _).
  cbn [preprocess]. rewrite E13, E12, E0, Es. cbn [orb]. now rewrite IH.
Qed.

Lemma string_token_literal (l : list N) :
  forall value rest,
    forallb literal l = true ->
    string_token InString value (l ++ 34 :: rest) = Closed (value ++ l) rest.
Proof.
  induction l as [| c l IH]; intros value rest H.
  - cbn. now rewrite app_nil_r.
  - cbn [forallb] in H. apply andb_true_iff in H. destruct H as [C H].
    destruct (literal_cases c C) as (_ & _ & _ & _ & E34 & E10 & E92).
    cbn [app string_token]. rewrite E34, E10, E92, (IH _ _ H).
    now rewrite <- app_assoc.
Qed.

(** In the selector of a plain URL the string is the URL. *)
Lemma plain_value (url : string) :
  plain url = true -> attribute_value url = Some (code_points url).
Proof.
  intros P. apply literal_points in P. unfold attribute_value.
  rewrite (preprocess_literal _ [93] P). cbn [preprocess].
  change (if 34 =? 13 then _ else _) with [34; 93].
  now rewrite (string_token_literal _ [] [93] P).
Qed.

(** It selects the elements whose attribute is that URL. *)
Lemma matches_plain (url actual : string) :
  plain url = true -> matches url actual = String.eqb actual url.
Proof.
  intros P. unfold matches. rewrite (plain_value url P).
  destruct (String.eqb actual url) eqn:E.
  - apply String.eqb_eq in E. subst. now apply same_eq.
  - apply String.eqb_neq in E.
    destruct (same (code_points actual) (code_points url)) eqn:S';
      [ | reflexivity ].
    apply same_eq, code_points_inj in S'. contradiction.
Qed.

End CssFacts.

(** ** Asset loader *)

Module AssetLoaderFacts.

Import AssetLoader.

Lemma call_eqb_eq (a b : Call) : call_eqb a b = true -> a = b.
Proof.
  destruct a, b; cbn; intros E; try discriminate E;
    apply String.eqb_eq in E; now subst.
Qed.

Lemma querySelector_app_head p d e :
  querySelector p d = true ->
  querySelector p (mkDocument (head d ++ [e]) (body d)) = true.
Proof.
  unfold querySelector. cbn. rewrite !existsb_app. cbn.
  intros H. apply orb_true_iff in H. destruct H as [-> | ->];
    now rewrite ?orb_true_r.
Qed.

Lemma querySelector_app_body p d e :
  querySelector p d = true ->
  querySelector p (mkDocument (head d) (body d ++ [e])) = true.
Proof.
  unfold querySelector. cbn. rewrite !existsb_app. cbn.
  intros H. apply orb_true_iff in H. destruct H as [-> | ->];
    now rewrite ?orb_true_r.
Qed.

(** What a call does, by what its selector is and finds. *)
Lemma exec_cases (c : Call) (d : Document) :
  exec c d = d
  \/ (Css.attribute_value (url_of c) <> None /\ present c d = false
      /\ exec c d
         = match c with
           | CallScript src => mkDocument (head d) (body d ++ [ScriptEl src])
           | CallCss href =>
               mkDocument (head d ++ [LinkEl "stylesheet" href]) (body d)
           end).
Proof.
  destruct c as [src | href]; cbn [exec url_of present];
    unfold loadScript, loadCss.
  - destruct (Css.attribute_value src); [ | now left ].
    destruct (querySelector (is_script src) d); [ now left | right ].
    repeat split; congruence.
  - destruct (Css.attribute_value href); [ | now left ].
    destruct (querySelector (is_link href) d); [ now left | right ].
    repeat split; congruence.
Qed.

(** The loader never removes an element. *)
Lemma querySelector_exec p c d :
  querySelector p d = true -> querySelector p (exec c d) = true.
Proof.
  intros H. destruct (exec_cases c d) as [-> | (_ & _ & ->)]; [ exact H | ].
  destruct c; [ apply querySelector_app_body, H | apply querySelector_app_head, H ].
Qed.

Lemma present_exec c c' d : present c d = true -> present c (exec c' d) = true.
Proof. destruct c; cbn; apply querySelector_exec. Qed.

Lemma present_exec_all c cs :
  forall d, present c d = true -> present c (exec_all cs d) = true.
Proof.
  induction cs as [| c' cs IH]; intros d H; cbn; auto using present_exec.
Qed.

(** A call whose element is there changes nothing. *)
Lemma present_noop c d : present c d = true -> exec c d = d.
Proof.
  intros P. destruct (exec_cases c d) as [E | (_ & N & _)];
    [ exact E | congruence ].
Qed.

(** A selector that finds an element is well-formed. *)
Lemma present_valid c d :
  present c d = true -> Css.attribute_value (url_of c) <> None.
Proof.
  destruct c as [src | href]; cbn [present url_of]; unfold querySelector;
    intros Q; apply existsb_exists in Q; destruct Q as ([s | r h] & _ & Q);
    cbn in Q; try discriminate Q; unfold Css.matches in Q;
    destruct (Css.attribute_value _); [ discriminate | discriminate Q
                                      | discriminate | discriminate Q ].
Qed.

Lemma loadScript_found src d :
  querySelector (is_script src) d = true -> loadScript src d = (d, Resolved).
Proof.
  intros Q. pose proof (present_valid (CallScript src) d Q) as V.
  unfold loadScript. cbn in V. destruct (Css.attribute_value src);
    [ now rewrite Q | contradiction ].
Qed.

Lemma loadCss_found href d :
  querySelector (is_link href) d = true -> loadCss href d = Some d.
Proof.
  intros Q. pose proof (present_valid (CallCss href) d Q) as V.
  unfold loadCss. cbn in V. destruct (Css.attribute_value href);
    [ now rewrite Q | contradiction ].
Qed.

(** With a plain URL the selector is well-formed, and the call attaches
    the element unless it finds one. *)
Lemma loadScript_plain src d :
  Css.plain src = true ->
  loadScript src d
  = if querySelector (is_script src) d then (d, Resolved)
    else (mkDocument (head d) (body d ++ [ScriptEl src]), Pending).
Proof. intros P. unfold loadScript. now rewrite (CssFacts.plain_value src P). Qed.

Lemma loadCss_plain href d :
  Css.plain href = true ->
  loadCss href d
  = Some (if querySelector (is_link href) d then d
          else mkDocument (head d ++ [LinkEl "stylesheet" href]) (body d)).
Proof.
  intros P. unfold loadCss. rewrite (CssFacts.plain_value href P).
  now destruct (querySelector (is_link href) d).
Qed.

(** After a call with a plain URL its element is in the document. *)
Lemma present_after c d :
  Css.plain (url_of c) = true -> present c (exec c d) = true.
Proof.
  intros P. destruct (present c d) eqn:Q.
  - now rewrite (present_noop c d Q).
  - destruct (exec_cases c d) as [E | (_ & _ & ->)].
    + exfalso. revert E Q.
      destruct c as [src | href]; cbn [exec url_of present] in *;
        unfold loadScript, loadCss; rewrite (CssFacts.plain_value _ P);
        intros E Q; rewrite Q in E;
        apply (f_equal size) in E + (injection E as E; apply (f_equal size) in E);
        unfold size in E; cbn in E; rewrite length_app in E; cbn in E; lia.
    + destruct c as [src | href]; cbn [present url_of] in *;
        unfold querySelector; cbn; rewrite !existsb_app; cbn;
        rewrite (CssFacts.matches_plain _ _ P), String.eqb_refl;
        now rewrite ?orb_true_r.
Qed.

Lemma attachments_present c cs :
  forall d, present c d = true -> attachments c cs d = 0.
Proof.
  induction cs as [| c' cs IH]; intros d H; cbn [attachments];
    [ reflexivity | ].
  rewrite (IH _ (present_exec c c' d H)).
  destruct (call_eqb c c') eqn:E; [ | reflexivity ].
  apply call_eqb_eq in E. subst c'. cbn [andb].
  rewrite (present_noop c d H), Nat.ltb_irrefl. reflexivity.
Qed.

Lemma attachments_at_most_once c cs :
  Css.plain (url_of c) = true ->
  forall d, attachments c cs d <= 1.
Proof.
  intros P.
  induction cs as [| c' cs IH]; intros d; cbn [attachments]; [ lia | ].
  destruct (call_eqb c c') eqn:E; cbn [andb].
  - apply call_eqb_eq in E. subst c'.
    rewrite (attachments_present c cs _ (present_after c d P)).
    destruct (size d <? size (exec c d)); lia.
  - apply IH.
Qed.



(** X24: for a URL without the characters CSS reads specially in a string,
    after a first call and whatever other calls of the loader follow it, a
    further call leaves the document as it is ([loadScript] returns a
    resolved promise), and over any sequence of calls at most one call per
    URL and kind adds an element. *)
Theorem plain_url_attached_once (url : string) (d : Document)
    (cs : list Call) :
  Css.plain url = true ->
  loadScript url (exec_all cs (exec (CallScript url) d))
  = (exec_all cs (exec (CallScript url) d), Resolved)
  /\ loadCss url (exec_all cs (exec (CallCss url) d))
     = Some (exec_all cs (exec (CallCss url) d))
  /\ attachments (CallScript url) cs d <= 1
  /\ attachments (CallCss url) cs d <= 1.
Proof.
  intros P.
  repeat split; try (apply attachments_at_most_once; exact P).
  - pose proof (present_exec_all (CallScript url) cs _
                  (present_after (CallScript url) d P)) as Q.
    cbn [present] in Q. unfold loadScript at 1.
    now rewrite (CssFacts.plain_value url P), Q.
  - pose proof (present_exec_all (CallCss url) cs _
                  (present_after (CallCss url) d P)) as Q.
    cbn [present] in Q. unfold loadCss at 1.
    now rewrite (CssFacts.plain_value url P), Q.
Qed.

Lemma plain_url_attached_once_witness :
  loadScript LibraryLoad.leaflet_js
    (exec_all [CallCss LibraryLoad.leaflet_css; CallScript LoadSample.escaped_js]
       (exec (CallScript LibraryLoad.leaflet_js) (mkDocument [] [])))
  = (exec_all [CallCss LibraryLoad.leaflet_css; CallScript LoadSample.escaped_js]
       (exec (CallScript LibraryLoad.leaflet_js) (mkDocument [] [])),
     Resolved)
  /\ loadCss LibraryLoad.leaflet_js
       (exec_all [CallCss LibraryLoad.leaflet_css;
                  CallScript LoadSample.escaped_js]
          (exec (CallCss LibraryLoad.leaflet_js) (mkDocument [] [])))
     = Some (exec_all [CallCss LibraryLoad.leaflet_css;
                       CallScript LoadSample.escaped_js]
               (exec (CallCss LibraryLoad.leaflet_js) (mkDocument [] [])))
  /\ attachments (CallScript LibraryLoad.leaflet_js)
       [CallCss LibraryLoad.leaflet_css; CallScript LoadSample.escaped_js]
       (mkDocument [] []) <= 1
  /\ attachments (CallCss LibraryLoad.leaflet_js)
       [CallCss LibraryLoad.leaflet_css; CallScript LoadSample.escaped_js]
       (mkDocument [] []) <= 1.
Proof.
  apply (plain_url_attached_once LibraryLoad.leaflet_js (mkDocument [] [])
           [CallCss LibraryLoad.leaflet_css; CallScript LoadSample.escaped_js]).
  reflexivity.
Defined.

Example second_call_is_noop :
  loadScript "a.js" (mkDocument [] [])
  = (mkDocument [] [ScriptEl "a.js"], Pending)
  /\ loadScript "a.js" (mkDocument [] [ScriptEl "a.js"])
     = (mkDocument [] [ScriptEl "a.js"], Resolved)
  /\ attachments (CallScript "a.js")
       [CallScript "a.js"; CallCss "a.css"; CallScript "a.js"; CallScript "a.js"]
       (mkDocument [] []) = 1.
Proof. repeat split; reflexivity. Qed.

(** Escapes in a selector: [\.] is a dot, [\41 ] is [A], and a line
    feed or a quote in the URL makes the selector malformed. *)
Example selector_values :
  Css.attribute_value "a.js" = Some (Css.code_points "a.js")
  /\ Css.attribute_value LoadSample.escaped_js = Some (Css.code_points "a.js")
  /\ Css.attribute_value "\41 b" = Some (Css.code_points "Ab")
  /\ Css.attribute_value LoadSample.quoted_js = None
  /\ Css.attribute_value (String (ascii_of_nat 10) "a.js") = None.
Proof. repeat split; reflexivity. Qed.

End AssetLoaderFacts.

(** ** Loading the libraries *)

Module LibraryLoadFacts.

Import AssetLoader LibraryLoad.
Local Open Scope string_scope.
Local Open Scope list_scope.

Section WithBrowser.

Variable fetch : string -> Window -> option Window.
Variable settle : Window -> Window.

(** A script that is in the document is not attached again: the promise
    is resolved and [window] stays as it is. *)
Lemma await_present (src : string) (p : Page) :
  querySelector (is_script src) (document p) = true ->
  await_loadScript fetch src p
  = (Ok tt, mkPage (document p) (window p) (console p) (loading p) (mapRef p)
              (loaderCalls p ++ [src])).
Proof.
  intros Q. unfold await_loadScript.
  now rewrite (AssetLoaderFacts.loadScript_found src _ Q).
Qed.

(** A script with a plain URL that was awaited is in the document, whether
    it was found or attached, and the map is untouched. *)
Lemma await_attached (src : string) (p p' : Page) :
  Css.plain src = true ->
  await_loadScript fetch src p = (Ok tt, p') ->
  querySelector (is_script src) (document p') = true
  /\ mapRef p' = mapRef p /\ console p' = console p.
Proof.
  intros P. unfold await_loadScript.
  pose proof (AssetLoaderFacts.present_after (CallScript src) (document p) P)
    as A.
  cbn in A.
  destruct (loadScript src (document p)) as [d [| |]]; cbn in *.
  - intros [= <-]. auto.
  - destruct (fetch src (window p)); intros [= <-]. auto.
  - discriminate.
Qed.

(** The four URLs [load] passes are plain. *)
Lemma plain_urls :
  Css.plain leaflet_css = true /\ Css.plain cluster_css = true
  /\ Css.plain leaflet_js = true /\ Css.plain cluster_js = true.
Proof. repeat split; reflexivity. Qed.

(** [loadCss] with a plain URL returns. *)
Lemma css_plain (href : string) (p : Page) :
  Css.plain href = true ->
  css href p
  = (Ok tt, mkPage (exec (CallCss href) (document p)) (window p) (console p)
              (loading p) (mapRef p) (loaderCalls p)).
Proof.
  intros P. unfold css. cbn [exec].
  now rewrite (AssetLoaderFacts.loadCss_plain href _ P).
Qed.

(** Lines 158-162 never throw. *)
Lemma load_styles_ok (p : Page) :
  load_styles p
  = (Ok tt, mkPage (exec_all [CallCss leaflet_css; CallCss cluster_css]
                      (document p))
              (window p) (console p) true (mapRef p) (loaderCalls p)).
Proof.
  unfold load_styles, bind, setLoading, modify.
  rewrite (css_plain leaflet_css) by reflexivity.
  rewrite (css_plain cluster_css) by reflexivity.
  reflexivity.
Qed.

Lemma up_to_check_attached (p0 p1 : Page) :
  up_to_check fetch settle p0 = (Ok tt, p1) ->
  querySelector (is_script cluster_js) (document p1) = true
  /\ mapRef p1 = mapRef p0.
Proof.
  unfold up_to_check, bind. rewrite load_styles_ok.
  unfold load_scripts, bind, print, pause, modify.
  destruct (await_loadScript fetch leaflet_js _) as [[[]|e] pa] eqn:A;
    [ | discriminate ].
  destruct (await_loadScript fetch cluster_js _) as [[[]|e] pb] eqn:B;
    [ | discriminate ].
  apply await_attached in A, B; try reflexivity. cbn in *.
  intros [= <-]. cbn. destruct A as (_ & A & _), B as (B & B' & _).
  split; [ exact B | congruence ].
Qed.

(** [load] after the scripts have loaded. *)
Lemma load_after_scripts (markers : list MarkerData.t) (p0 p1 : Page) :
  up_to_check fetch settle p0 = (Ok tt, p1) ->
  load fetch settle markers p0
  = finally
      (try_catch (check_plugin fetch ;; mount_or_give_up markers)
         (fun e => print Error ["Error loading map libraries:"; e]))
      (setLoading false) p1.
Proof.
  unfold load, up_to_check, finally, try_catch, bind.
  destruct (load_styles p0) as [[[]|e] pa]; [ | discriminate ].
  destruct (load_scripts fetch settle pa) as [[[]|e] pb]; [ | discriminate ].
  intros [= <-]. reflexivity.
Qed.

(** C7: when the library's scripts have loaded and [window.L] is there
    without a [markerClusterGroup] function, [load] calls [loadScript] for
    the extension exactly once more, finds the capability still missing,
    logs that the map cannot be mounted, leaves the map unmounted, turns
    the loading state off and returns normally.  The extra call attaches
    nothing: the script element is in the document already. *)
Theorem plugin_missing_retries_once (markers : list MarkerData.t)
    (p0 p1 : Page) (l : Leaflet) :
  up_to_check fetch settle p0 = (Ok tt, p1) ->
  L (window p1) = Some l ->
  typeof_markerClusterGroup l <> "function" ->
  exists p,
    load fetch settle markers p0 = (Ok tt, p)
    /\ loaderCalls p = loaderCalls p1 ++ [cluster_js]
    /\ calls_of cluster_js (loaderCalls p)
       = calls_of cluster_js (loaderCalls p1) + 1
    /\ document p = document p1
    /\ window p = window p1
    /\ console p
       = console p1
         ++ [(Warn, ["MarkerCluster plugin missing! typeof window.L.markerClusterGroup:";
                     typeof_markerClusterGroup l]);
             (Log, ["Attempted to reload MarkerCluster. Status:"; "Failed"]);
             (Error, ["Cannot mount map: Libraries not loaded properly"])]
    /\ mapRef p = mapRef p0
    /\ loading p = false.
Proof.
  intros U Lw T. apply String.eqb_neq in T.
  destruct (up_to_check_attached p0 p1 U) as [Q M].
  rewrite (load_after_scripts markers p0 p1 U).
  unfold finally, try_catch, bind, check_plugin, mount_or_give_up, get_window,
    bind, print, setLoading, modify.
  rewrite Lw, T. cbn [console document window loading mapRef loaderCalls].
  rewrite await_present by exact Q.
  cbn [console document window loading mapRef loaderCalls].
  unfold typeof_of, is_function. rewrite Lw, T. cbn [andb].
  eexists. split; [ reflexivity | ].
  cbn [console document window loading mapRef loaderCalls].
  repeat split; try assumption.
  - unfold calls_of. rewrite filter_app, length_app. reflexivity.
  - now rewrite <- !app_assoc.
Qed.

End WithBrowser.

(** A browser in which the extension script loads but defines nothing. *)
Lemma plugin_missing_retries_once_witness :
  exists p,
    load (fun src w => if src =? leaflet_js
                       then Some (mkWindow (Some (mkLeaflet "undefined")))
                       else Some w)
         (fun w => w) [Sample.north_east]
         (mkPage (mkDocument [] []) (mkWindow None) [] true None [])
    = (Ok tt, p)
    /\ loaderCalls p = [leaflet_js; cluster_js] ++ [cluster_js]
    /\ calls_of cluster_js (loaderCalls p)
       = calls_of cluster_js [leaflet_js; cluster_js] + 1
    /\ document p
       = mkDocument [LinkEl "stylesheet" leaflet_css;
                     LinkEl "stylesheet" cluster_css]
                    [ScriptEl leaflet_js; ScriptEl cluster_js]
    /\ window p = mkWindow (Some (mkLeaflet "undefined"))
    /\ console p
       = [(Log, ["Leaflet loaded successfully"]);
          (Log, ["MarkerCluster loaded successfully"])]
         ++ [(Warn, ["MarkerCluster plugin missing! typeof window.L.markerClusterGroup:";
                     "undefined"]);
             (Log, ["Attempted to reload MarkerCluster. Status:"; "Failed"]);
             (Error, ["Cannot mount map: Libraries not loaded properly"])]
    /\ mapRef p = None
    /\ loading p = false.
Proof.
  apply (plugin_missing_retries_once
           (fun src w => if src =? leaflet_js
                         then Some (mkWindow (Some (mkLeaflet "undefined")))
                         else Some w)
           (fun w => w) [Sample.north_east]
           (mkPage (mkDocument [] []) (mkWindow None) [] true None [])
           (mkPage (mkDocument [LinkEl "stylesheet" leaflet_css;
                                LinkEl "stylesheet" cluster_css]
                               [ScriptEl leaflet_js; ScriptEl cluster_js])
                   (mkWindow (Some (mkLeaflet "undefined")))
                   [(Log, ["Leaflet loaded successfully"]);
                    (Log, ["MarkerCluster loaded successfully"])]
                   true None [leaflet_js; cluster_js])
           (mkLeaflet "undefined")).
  - vm_compute. reflexivity.
  - reflexivity.
  - discriminate.
Defined.

(** When the extension is there, the map is mounted with the renderable
    markers. *)
Example load_mounts :
  let fetch := fun src (w : Window) =>
    if src =? leaflet_js then Some (mkWindow (Some (mkLeaflet "undefined")))
    else Some (mkWindow (Some (mkLeaflet "function"))) in
  let '(r, p) := load fetch (fun w => w) [Sample.origin; Sample.north_east]
                   (mkPage (mkDocument [] []) (mkWindow None) [] true None []) in
  r = Ok tt /\ loading p = false
  /\ mapRef p = Some [MapMount.mkMarker (Some 1%float, Some 1%float)
                        Sample.north_east].
Proof. vm_compute. repeat split; reflexivity. Qed.

End LibraryLoadFacts.

(** ** Selection and pagination controller *)

Module ControllerFacts.

Import Controller.

Ltac simp := cbn -[Nat.ltb Nat.leb Nat.eqb firstn MARKERS_PER_PAGE Nat.mul].

Ltac effects_cases prev cur :=
  unfold run_effects, when, scroll_effect, page_effect, reset_effect,
    commit_dom, setTimeout;
  destruct (scroll_deps_changed prev cur), (page_changed prev cur),
    (sel_changed prev cur);
  destruct cur as [[[? ?]|] ? pg ? ? ? ? [?|] ? ?]; simp;
  try destruct (1 <? pg); simp; try reflexivity.

(** *** One round of effects *)

Lemma run_effects_selectedCluster prev cur :
  selectedCluster (run_effects prev cur) = selectedCluster cur.
Proof. effects_cases prev cur. Qed.

Lemma run_effects_showPanel prev cur :
  showPanel (run_effects prev cur) = showPanel cur.
Proof. effects_cases prev cur. Qed.

Lemma run_effects_page prev cur :
  page (run_effects prev cur) =
  if sel_changed prev cur
  then match selectedCluster cur with Some _ => 1 | None => page cur end
  else page cur.
Proof. effects_cases prev cur. Qed.

Lemma run_effects_timers prev cur :
  timers (run_effects prev cur) = timers cur ++ scheduled prev cur.
Proof. unfold scheduled. effects_cases prev cur; now rewrite app_nil_r. Qed.

Lemma run_effects_loadingMore prev cur :
  loadingMore (run_effects prev cur) =
  match scheduled prev cur with [] => loadingMore cur | _ => true end.
Proof. unfold scheduled. effects_cases prev cur. Qed.

Lemma run_effects_hasMore prev cur :
  hasMore (run_effects prev cur) =
  if sel_changed prev cur
  then match selectedCluster cur with
       | Some (_, c) => MARKERS_PER_PAGE <? List.length (ClusterData.markers c)
       | None => false
       end
  else hasMore cur.
Proof. effects_cases prev cur. Qed.

Lemma run_effects_visibleMarkers prev cur :
  visibleMarkers (run_effects prev cur) =
  if sel_changed prev cur
  then match selectedCluster cur with
       | Some (_, c) => firstn MARKERS_PER_PAGE (ClusterData.markers c)
       | None => []
       end
  else visibleMarkers cur.
Proof. effects_cases prev cur. Qed.

Lemma run_effects_container prev cur :
  container (run_effects prev cur) = rendered_container cur.
Proof. unfold rendered_container. effects_cases prev cur. Qed.

Lemma run_effects_fresh prev cur :
  fresh (run_effects prev cur) =
  match selectedCluster cur, container cur with
  | Some _, None => S (fresh cur)
  | _, _ => fresh cur
  end.
Proof. effects_cases prev cur. Qed.

Lemma run_effects_listener prev cur :
  listener (run_effects prev cur) =
  if scroll_deps_changed prev cur
  then match rendered_container cur with
       | Some n => Some (mkListener n (loadingMore cur) (hasMore cur))
       | None => None
       end
  else listener cur.
Proof. unfold rendered_container. effects_cases prev cur. Qed.

Lemma state_ext (a b : State) :
  selectedCluster a = selectedCluster b ->
  visibleMarkers a = visibleMarkers b ->
  page a = page b ->
  hasMore a = hasMore b ->
  showPanel a = showPanel b ->
  loadingMore a = loadingMore b ->
  timers a = timers b ->
  container a = container b ->
  listener a = listener b ->
  fresh a = fresh b ->
  a = b.
Proof. destruct a, b; cbn; intros; subst; reflexivity. Qed.

Lemma same_selection_refl a : same_selection a a = true.
Proof. destruct a as [[r c]|]; cbn; auto using Nat.eqb_refl. Qed.

(** *** The second round *)

Section SecondRound.

Variables prev cur : State.
Let s1 := run_effects prev cur.

Lemma second_sel_unchanged : sel_changed cur s1 = false.
Proof.
  unfold sel_changed, s1. rewrite run_effects_selectedCluster.
  now rewrite same_selection_refl.
Qed.

Lemma second_schedules_nothing : scheduled cur s1 = [].
Proof.
  unfold scheduled. rewrite second_sel_unchanged, orb_false_r.
  destruct (page_changed cur s1) eqn:P; [ | reflexivity ].
  unfold page_changed, s1 in *. rewrite run_effects_selectedCluster.
  rewrite run_effects_page in *.
  destruct (sel_changed prev cur), (selectedCluster cur) as [[r c]|];
    try reflexivity; rewrite ?Nat.eqb_refl in P; discriminate P.
Qed.

Lemma second_rendered_container :
  rendered_container s1 = container s1.
Proof.
  unfold rendered_container, s1.
  rewrite run_effects_selectedCluster, run_effects_container.
  unfold rendered_container.
  destruct (selectedCluster cur), (container cur); reflexivity.
Qed.

(** The second round only re-installs the scroll listener. *)
Lemma flush_eq :
  flush prev cur =
  set_listener
    (if scroll_deps_changed cur s1
     then match container s1 with
          | Some n => Some (mkListener n (loadingMore s1) (hasMore s1))
          | None => None
          end
     else listener s1) s1.
Proof.
  unfold flush. fold s1. apply state_ext; simp.
  - apply run_effects_selectedCluster.
  - rewrite run_effects_visibleMarkers. now rewrite second_sel_unchanged.
  - rewrite run_effects_page. now rewrite second_sel_unchanged.
  - rewrite run_effects_hasMore. now rewrite second_sel_unchanged.
  - apply run_effects_showPanel.
  - rewrite run_effects_loadingMore. now rewrite second_schedules_nothing.
  - rewrite run_effects_timers, second_schedules_nothing. apply app_nil_r.
  - rewrite run_effects_container. apply second_rendered_container.
  - rewrite run_effects_listener. now rewrite second_rendered_container.
  - rewrite run_effects_fresh. pose proof second_rendered_container as R.
    unfold rendered_container in R.
    destruct (selectedCluster s1), (container s1); congruence.
Qed.

End SecondRound.

Lemma scroll_deps_changed_refl s : scroll_deps_changed s s = false.
Proof. unfold scroll_deps_changed. now rewrite !eqb_reflx. Qed.

Lemma page_changed_refl s : page_changed s s = false.
Proof. unfold page_changed. now rewrite Nat.eqb_refl. Qed.

Lemma sel_changed_refl s : sel_changed s s = false.
Proof. unfold sel_changed. now rewrite same_selection_refl. Qed.

(** A render that changed nothing runs no effect. *)
Lemma run_effects_idle s :
  rendered_container s = container s -> run_effects s s = s.
Proof.
  intros R. unfold run_effects.
  rewrite scroll_deps_changed_refl, page_changed_refl, sel_changed_refl.
  cbn. unfold commit_dom. unfold rendered_container in R.
  destruct s as [[?|] ? ? ? ? ? ? [?|] ? ?]; cbn in *;
    first [ reflexivity | congruence ].
Qed.

(** Two rounds are enough: the state [flush] returns is one React would
    render without running any effect. *)
Lemma flush_quiescent (prev cur : State) :
  run_effects (run_effects prev cur) (flush prev cur) = flush prev cur.
Proof.
  set (s1 := run_effects prev cur). set (s2 := flush prev cur).
  assert (E : forall (A : Type) (f : State -> A),
            (forall v s, f (set_listener v s) = f s) -> f s2 = f s1).
  { intros A f Hf. unfold s2. rewrite flush_eq. apply Hf. }
  unfold run_effects.
  assert (S : sel_changed s1 s2 = false).
  { unfold sel_changed. rewrite (E _ selectedCluster) by reflexivity.
    now rewrite same_selection_refl. }
  assert (P : page_changed s1 s2 = false).
  { unfold page_changed. rewrite (E _ page) by reflexivity.
    now rewrite Nat.eqb_refl. }
  assert (D : scroll_deps_changed s1 s2 = false).
  { unfold scroll_deps_changed.
    rewrite (E _ hasMore), (E _ loadingMore) by reflexivity.
    now rewrite !eqb_reflx. }
  rewrite S, P, D. cbn. unfold commit_dom.
  rewrite (E _ selectedCluster) by reflexivity.
  assert (C : container s2 = container s1) by (apply (E _ container); reflexivity).
  pose proof (second_rendered_container prev cur) as R. fold s1 in R.
  unfold rendered_container in R. rewrite C.
  destruct (selectedCluster s1), (container s1) eqn:K; try congruence.
  apply state_ext; try reflexivity. cbn. now rewrite C.
Qed.


(** *** One event *)

Section Step.

Variables (e : Event) (s : State).
Let h := handle e s.
Let s1 := run_effects s h.

Lemma step_eq :
  step e s =
  set_listener
    (if scroll_deps_changed h s1
     then match container s1 with
          | Some n => Some (mkListener n (loadingMore s1) (hasMore s1))
          | None => None
          end
     else listener s1) s1.
Proof. unfold step. apply flush_eq. Qed.

Lemma step_selectedCluster : selectedCluster (step e s) = selectedCluster h.
Proof. rewrite step_eq. simp. apply run_effects_selectedCluster. Qed.

Lemma step_showPanel : showPanel (step e s) = showPanel h.
Proof. rewrite step_eq. simp. apply run_effects_showPanel. Qed.

Lemma step_page :
  page (step e s) =
  if sel_changed s h
  then match selectedCluster h with Some _ => 1 | None => page h end
  else page h.
Proof. rewrite step_eq. simp. apply run_effects_page. Qed.

Lemma step_timers : timers (step e s) = timers h ++ scheduled s h.
Proof. rewrite step_eq. simp. apply run_effects_timers. Qed.

Lemma step_loadingMore :
  loadingMore (step e s) =
  match scheduled s h with [] => loadingMore h | _ => true end.
Proof. rewrite step_eq. simp. apply run_effects_loadingMore. Qed.

Lemma step_hasMore :
  hasMore (step e s) =
  if sel_changed s h
  then match selectedCluster h with
       | Some (_, c) => MARKERS_PER_PAGE <? List.length (ClusterData.markers c)
       | None => false
       end
  else hasMore h.
Proof. rewrite step_eq. simp. apply run_effects_hasMore. Qed.

Lemma step_visibleMarkers :
  visibleMarkers (step e s) =
  if sel_changed s h
  then match selectedCluster h with
       | Some (_, c) => firstn MARKERS_PER_PAGE (ClusterData.markers c)
       | None => []
       end
  else visibleMarkers h.
Proof. rewrite step_eq. simp. apply run_effects_visibleMarkers. Qed.

Lemma step_container : container (step e s) = rendered_container h.
Proof. rewrite step_eq. simp. apply run_effects_container. Qed.

Lemma step_fresh :
  fresh (step e s) =
  match selectedCluster h, container h with
  | Some _, None => S (fresh h)
  | _, _ => fresh h
  end.
Proof. rewrite step_eq. simp. apply run_effects_fresh. Qed.

End Step.

(** What the handler leaves alone. *)

Ltac handle_cases e s :=
  unfold handle, on_select, closePanel, handleScroll, run_timer, setTimeout;
  destruct e as [c0 | | m |];
  destruct s as [[[r0 c1]|] vis pg hm sp lm [| [c2 p2 |] rest] [n0|] [l0|] fr];
  simp;
  repeat match goal with |- context [if ?b then _ else _] => destruct b end;
  simp.

Lemma handle_container e s : container (handle e s) = container s.
Proof. handle_cases e s; reflexivity. Qed.

Lemma handle_listener e s : listener (handle e s) = listener s.
Proof. handle_cases e s; reflexivity. Qed.

Lemma handle_fresh e s : fresh s <= fresh (handle e s).
Proof. handle_cases e s; lia. Qed.

Lemma handle_page e s : 1 <= page s -> 1 <= page (handle e s).
Proof. handle_cases e s; lia. Qed.

Lemma handle_selection e s r c :
  (forall r' c', selectedCluster s = Some (r', c') -> r' < fresh s) ->
  selectedCluster (handle e s) = Some (r, c) -> r < fresh (handle e s).
Proof.
  handle_cases e s; intros W E; try discriminate E;
    try (injection E as <- <-; lia); eauto.
Qed.



Lemma wf_mount : wf mount.
Proof.
  split; cbn; try lia; try congruence; try discriminate.
Qed.

Lemma wf_step (e : Event) (s : State) : wf s -> wf (step e s).
Proof.
  intros [Wp Wr Ws Wc Wl Wk].
  pose proof (handle_container e s) as Hc.
  pose proof (handle_listener e s) as Hl.
  pose proof (handle_fresh e s) as Hf.
  pose proof (handle_page e s Wp) as Hp.
  pose proof (fun r c => handle_selection e s r c Ws) as Hs.
  rewrite step_eq.
  set (h := handle e s) in *. set (s1 := run_effects s h).
  pose proof (run_effects_container s h) as C1.
  pose proof (run_effects_fresh s h) as F1.
  pose proof (run_effects_selectedCluster s h) as S1.
  pose proof (run_effects_page s h) as P1.
  pose proof (run_effects_listener s h) as L1.
  fold s1 in C1, F1, S1, P1, L1. unfold rendered_container in C1.
  rewrite Hc in C1, F1.
  assert (Fr : fresh h <= fresh s1).
  { rewrite F1. destruct (selectedCluster h), (container s); lia. }
  assert (Cn : forall n, container s1 = Some n -> n < fresh s1).
  { intros n. rewrite C1, F1.
    destruct (selectedCluster h), (container s) eqn:K; intros [= <-];
      try lia. specialize (Wc _ eq_refl). lia. }
  split; simp.
  - rewrite P1. destruct (sel_changed s h), (selectedCluster h); lia.
  - unfold rendered_container. simp. rewrite S1, C1.
    destruct (selectedCluster h), (container s); reflexivity.
  - intros r c. rewrite S1. intros E. apply Hs in E. lia.
  - exact Cn.
  - intros l. destruct (scroll_deps_changed h s1).
    + destruct (container s1) eqn:K; intros [= <-]. simp. auto.
    + rewrite L1. destruct (scroll_deps_changed s h).
      * unfold rendered_container. rewrite Hc, <- C1.
        destruct (container s1) eqn:K; intros [= <-]. simp. auto.
      * rewrite Hl. intros E. apply Wl in E. lia.
  - intros l. destruct (scroll_deps_changed h s1) eqn:D2.
    + destruct (container s1) eqn:K; intros [= <-]. simp. auto.
    + unfold scroll_deps_changed in D2.
      apply orb_false_iff in D2. destruct D2 as [D2h D2l].
      apply negb_false_iff, eqb_prop in D2h, D2l.
      rewrite L1. destruct (scroll_deps_changed s h) eqn:D1.
      * unfold rendered_container. rewrite Hc, <- C1.
        destruct (container s1) eqn:K; intros [= <-]. simp.
        intros _. split; congruence.
      * unfold scroll_deps_changed in D1.
        apply orb_false_iff in D1. destruct D1 as [D1h D1l].
        apply negb_false_iff, eqb_prop in D1h, D1l.
        rewrite Hl. intros E C. rewrite C1 in C.
        destruct (selectedCluster h), (container s) eqn:K; try discriminate.
        -- injection C as C. subst n.
           destruct (Wk l E eq_refl). split; congruence.
        -- injection C as C. apply Wl in E. lia.
Qed.

Lemma wf_run (tr : list Event) :
  forall s, wf s -> wf (run tr s).
Proof.
  induction tr as [| e tr IH]; intros s W; cbn;
    [ exact W | apply IH, wf_step, W ].
Qed.


(** *** The scroll guard *)

Lemma reveals_app (a b : list Timer) (s : State) :
  timers s = a ++ b ->
  reveals s = List.length (filter is_reveal a) + List.length (filter is_reveal b).
Proof. unfold reveals. intros ->. now rewrite filter_app, length_app. Qed.

Lemma scheduled_length prev cur :
  List.length (filter is_reveal (scheduled prev cur))
  = List.length (scheduled prev cur)
  /\ List.length (scheduled prev cur) <= 1.
Proof.
  unfold scheduled.
  destruct (page_changed prev cur || sel_changed prev cur);
    [ destruct (selectedCluster cur) as [[r c]|];
      [ destruct (1 <? page cur) | ] | ]; cbn; lia.
Qed.

Lemma step_reveals e s :
  reveals (step e s)
  = reveals (handle e s) + List.length (scheduled s (handle e s)).
Proof.
  rewrite (reveals_app _ _ _ (step_timers e s)).
  destruct (scheduled_length s (handle e s)) as [-> _]. reflexivity.
Qed.

(** An event that changes neither the page nor the selection schedules
    nothing. *)
Lemma scheduled_nil prev cur :
  page cur = page prev -> selectedCluster cur = selectedCluster prev ->
  scheduled prev cur = [].
Proof.
  intros P S. unfold scheduled, page_changed, sel_changed.
  now rewrite P, S, Nat.eqb_refl, same_selection_refl.
Qed.

Lemma scheduled_none prev cur :
  selectedCluster cur = None -> scheduled prev cur = [].
Proof.
  intros S. unfold scheduled. rewrite S.
  now destruct (page_changed prev cur || sel_changed prev cur).
Qed.

(** An ignored event leaves the state as it is. *)
Lemma step_idle e s : wf s -> handle e s = s -> step e s = s.
Proof.
  intros W H. unfold step, flush. rewrite H.
  now rewrite !run_effects_idle by apply W.
Qed.

(** A scroll event either does nothing, or advances the page by one and
    schedules the reveal of that page. *)
Lemma scroll_cases (m : ScrollMetrics) (s : State) :
  wf s ->
  step (Scroll m) s = s
  \/ exists r c,
       selectedCluster s = Some (r, c)
       /\ loadingMore s = false /\ hasMore s = true
       /\ selectedCluster (step (Scroll m) s) = Some (r, c)
       /\ page (step (Scroll m) s) = page s + 1
       /\ timers (step (Scroll m) s)
          = timers s ++ [RevealTimer c (page s + 1)]
       /\ loadingMore (step (Scroll m) s) = true
       /\ visibleMarkers (step (Scroll m) s) = visibleMarkers s
       /\ hasMore (step (Scroll m) s) = true.
Proof.
  intros W.
  destruct (listener s) as [l|] eqn:L;
    [ destruct (container s) as [node|] eqn:C;
      [ destruct (l_node l =? node) eqn:N | ] | ];
    try (left; apply step_idle; [ exact W | cbn; now rewrite L, ?C, ?N ]).
  apply Nat.eqb_eq in N. subst node.
  destruct (wf_closure s W l L C) as [Klm Khm].
  assert (H : handle (Scroll m) s = handleScroll l m s)
    by (cbn; now rewrite L, C, Nat.eqb_refl).
  unfold handleScroll in H.
  destruct (l_loadingMore l || negb (l_hasMore l)) eqn:B;
    [ left; apply step_idle; assumption | ].
  destruct (scrollHeight m - scrollTop m - clientHeight m <? 100)%Z;
    [ | left; apply step_idle; assumption ].
  right. apply orb_false_iff in B. destruct B as [Blm Bhm].
  apply negb_false_iff in Bhm. rewrite Klm in Blm. rewrite Khm in Bhm.
  pose proof (wf_panel s W) as R. unfold rendered_container in R.
  rewrite C in R.
  destruct (selectedCluster s) as [[r c]|] eqn:S; [ | discriminate R ].
  pose proof (wf_page s W) as P.
  assert (Sel : sel_changed s (handle (Scroll m) s) = false).
  { rewrite H. unfold sel_changed. simp. now rewrite same_selection_refl. }
  assert (Sch : scheduled s (handle (Scroll m) s)
                = [RevealTimer c (page s + 1)]).
  { unfold scheduled. rewrite Sel, H. unfold page_changed. simp. rewrite S.
    replace (page s =? page s + 1) with false
      by (symmetry; apply Nat.eqb_neq; lia).
    replace (1 <? page s + 1) with true
      by (symmetry; apply Nat.ltb_lt; lia).
    reflexivity. }
  exists r, c. repeat split; auto.
  - rewrite step_selectedCluster, H. exact S.
  - rewrite step_page, Sel, H. reflexivity.
  - rewrite step_timers, Sch, H. reflexivity.
  - rewrite step_loadingMore, Sch. reflexivity.
  - rewrite step_visibleMarkers, Sel, H. reflexivity.
  - rewrite step_hasMore, Sel, H. exact Bhm.
Qed.

(** With the guard in place, the scroll event that advances the page finds
    no reveal in flight and leaves exactly one. *)
Lemma scroll_step (m : ScrollMetrics) (s : State) :
  wf s -> guarded s ->
  step (Scroll m) s = s
  \/ (reveals s = 0 /\ loadingMore s = false
      /\ page (step (Scroll m) s) = page s + 1
      /\ reveals (step (Scroll m) s) = 1
      /\ loadingMore (step (Scroll m) s) = true).
Proof.
  intros W [G1 G2].
  destruct (scroll_cases m s W)
    as [E | (r & c & S & Lm & Hm & S' & P' & T' & Lm' & _)];
    [ left; exact E | right ].
  specialize (G2 Lm). repeat split; auto.
  rewrite (reveals_app _ _ _ T'). unfold reveals in G2. rewrite G2.
  reflexivity.
Qed.

Lemma handle_close s :
  page (handle ClosePanel s) = page s
  /\ selectedCluster (handle ClosePanel s) = selectedCluster s
  /\ loadingMore (handle ClosePanel s) = loadingMore s
  /\ reveals (handle ClosePanel s) = reveals s.
Proof.
  unfold reveals, handle, closePanel, setTimeout.
  destruct s as [[?|] ? ? ? ? ? tm ? ? ?]; simp; repeat split.
  rewrite filter_app, length_app. cbn. lia.
Qed.

(** The guard is kept by every event that selects nothing new. *)
Lemma guarded_step (e : Event) (s : State) :
  wf s -> guarded s -> is_select e = false -> guarded (step e s).
Proof.
  intros W G N. destruct e as [c | | m |]; [ discriminate N | | | ].
  - (* ClosePanel *)
    destruct G as [G1 G2]. unfold guarded.
    rewrite step_reveals, step_loadingMore.
    destruct (handle_close s) as (Hp & Hs & Hl & Hr).
    rewrite scheduled_nil by assumption. cbn [List.length].
    rewrite Hr, Hl. split; [ lia | intros F; rewrite (G2 F); reflexivity ].
  - (* Scroll *)
    destruct (scroll_step m s W G) as [-> | (_ & _ & _ & R & Lm)];
      [ exact G | ].
    split; [ lia | congruence ].
  - (* Tick *)
    destruct G as [G1 G2]. unfold guarded.
    rewrite step_reveals, step_loadingMore.
    destruct (timers s) as [| t rest] eqn:T.
    + assert (H : handle Tick s = s) by (cbn; now rewrite T).
      rewrite H, scheduled_nil by reflexivity. cbn [List.length].
      split; [ lia | intros F; rewrite (G2 F); reflexivity ].
    + assert (H : handle Tick s = run_timer t (set_timers rest s))
        by (cbn; now rewrite T).
      rewrite H. unfold reveals in G1, G2. rewrite T in G1, G2.
      destruct t as [c p |].
      * rewrite scheduled_nil by reflexivity.
        unfold reveals. simp. cbn in G1. split; [ lia | intros _; lia ].
      * rewrite scheduled_none by reflexivity.
        unfold reveals. simp. cbn in G1, G2.
        split; [ lia | intros F; rewrite (G2 F); reflexivity ].
Qed.

(** Opening a selection while no reveal is in flight establishes it. *)
Lemma guarded_select (c : ClusterData.t) (s : State) :
  reveals s = 0 -> guarded (step (Select c) s).
Proof.
  intros R. unfold guarded. rewrite step_reveals, step_loadingMore.
  assert (H : reveals (handle (Select c) s) = 0) by exact R.
  rewrite H.
  destruct (scheduled_length s (handle (Select c) s)) as [_ Le].
  destruct (scheduled s (handle (Select c) s)); cbn in *;
    split; try lia; discriminate.
Qed.

Lemma guarded_run (tr : list Event) :
  forall s, wf s -> guarded s -> forallb (fun e => negb (is_select e)) tr = true ->
            guarded (run tr s).
Proof.
  induction tr as [| e tr IH]; intros s W G N; cbn in *; [ exact G | ].
  apply andb_true_iff in N. destruct N as [Ne Ntr].
  apply negb_true_iff in Ne.
  apply IH; auto using wf_step, guarded_step.
Qed.


(** *** Opening a selection *)

Lemma select_changes (c : ClusterData.t) (s : State) :
  wf s -> sel_changed s (handle (Select c) s) = true.
Proof.
  intros W. unfold sel_changed. cbn.
  destruct (selectedCluster s) as [[r c']|] eqn:S; [ | reflexivity ].
  apply (wf_selection s W) in S.
  apply negb_true_iff, Nat.eqb_neq. lia.
Qed.

(** The click handler's selection is rendered with its first page. *)
Lemma select_resets (c : ClusterData.t) (s : State) :
  wf s ->
  members (step (Select c) s) = ClusterData.markers c
  /\ showPanel (step (Select c) s) = true
  /\ page (step (Select c) s) = 1
  /\ visibleMarkers (step (Select c) s)
     = firstn MARKERS_PER_PAGE (ClusterData.markers c)
  /\ hasMore (step (Select c) s)
     = (MARKERS_PER_PAGE <? List.length (ClusterData.markers c)).
Proof.
  intros W. pose proof (select_changes c s W) as Ch.
  unfold members.
  rewrite step_selectedCluster, step_showPanel, step_page,
    step_visibleMarkers, step_hasMore, Ch.
  repeat split; reflexivity.
Qed.

Lemma select_members (c : ClusterData.t) (s : State) :
  members (step (Select c) s) = ClusterData.markers c.
Proof. unfold members. now rewrite step_selectedCluster. Qed.

(** *** Pagination within one session *)

Lemma session_opens (c : ClusterData.t) (s : State) :
  wf s -> page s = 1 -> timers s = [] -> loadingMore s = false ->
  in_session c (step (Select c) s).
Proof.
  intros W P T Lm. pose proof (select_changes c s W) as Ch.
  assert (Sch : scheduled s (handle (Select c) s) = []).
  { unfold scheduled. cbn [handle on_select]. simp. rewrite P.
    now destruct (_ || _). }
  split; [ apply wf_step, W | split ].
  - exists (fresh s). now rewrite step_selectedCluster.
  - apply paging_settled.
    + rewrite step_timers, Sch. cbn. now rewrite T.
    + rewrite step_loadingMore, Sch. exact Lm.
    + rewrite step_visibleMarkers, step_page, Ch. reflexivity.
    + rewrite step_hasMore, step_page, Ch. reflexivity.
Qed.

Lemma session_scroll (c : ClusterData.t) (m : ScrollMetrics) (s : State) :
  in_session c s -> in_session c (step (Scroll m) s).
Proof.
  intros (W & (r & S) & Pg).
  destruct (scroll_cases m s W)
    as [-> | (r' & c' & S' & Lm & Hm & S2 & P2 & T2 & Lm2 & V2 & H2)].
  { exact (conj W (conj (ex_intro _ r S) Pg)). }
  rewrite S in S'. injection S' as <- <-.
  split; [ apply wf_step, W | split; [ eauto | ] ].
  destruct Pg as [T _ _ _ | _ Lm']; [ | congruence ].
  apply paging_revealing; [ | exact Lm2 ].
  rewrite T2, P2, T. reflexivity.
Qed.

Lemma session_tick (c : ClusterData.t) (s : State) :
  in_session c s -> in_session c (step Tick s).
Proof.
  intros (W & (r & S) & Pg).
  destruct Pg as [T Lm V H | T Lm].
  { rewrite step_idle; [ | exact W | cbn; now rewrite T ].
    exact (conj W (conj (ex_intro _ r S) (paging_settled c s T Lm V H))). }
  assert (Hd : handle Tick s = run_timer (RevealTimer c (page s))
                                 (set_timers [] s))
    by (cbn; now rewrite T).
  assert (Sch : scheduled s (handle Tick s) = [])
    by (apply scheduled_nil; rewrite Hd; reflexivity).
  assert (Sel : sel_changed s (handle Tick s) = false).
  { unfold sel_changed. rewrite Hd. simp. now rewrite same_selection_refl. }
  split; [ apply wf_step, W | split ].
  - exists r. rewrite step_selectedCluster, Hd. exact S.
  - apply paging_settled.
    + rewrite step_timers, Sch, Hd. reflexivity.
    + rewrite step_loadingMore, Sch, Hd. reflexivity.
    + rewrite step_visibleMarkers, step_page, Sel, Hd. reflexivity.
    + rewrite step_hasMore, step_page, Sel, Hd. reflexivity.
Qed.

Lemma session_run (c : ClusterData.t) (tr : list Event) :
  forallb is_scroll_or_tick tr = true ->
  forall s, in_session c s -> in_session c (run tr s).
Proof.
  induction tr as [| e tr IH]; intros N s I; cbn in *; [ exact I | ].
  apply andb_true_iff in N. destruct N as [Ne Ntr].
  apply IH; [ exact Ntr | ].
  destruct e; try discriminate Ne; auto using session_scroll, session_tick.
Qed.

(** In such a session, whenever no reveal is in flight, the panel shows
    [min (page * 25) (length members)] entries and [hasMore] says whether
    some are left. *)
Lemma session_pagination (c : ClusterData.t) (tr : list Event) (s : State) :
  wf s -> page s = 1 -> timers s = [] -> loadingMore s = false ->
  forallb is_scroll_or_tick tr = true ->
  reveals (run tr (step (Select c) s)) = 0 ->
  members (run tr (step (Select c) s)) = ClusterData.markers c
  /\ revealedCount (run tr (step (Select c) s))
     = Nat.min (page (run tr (step (Select c) s)) * MARKERS_PER_PAGE)
               (List.length (ClusterData.markers c))
  /\ (hasMore (run tr (step (Select c) s)) = true <->
      revealedCount (run tr (step (Select c) s))
      < List.length (ClusterData.markers c)).
Proof.
  intros W P T Lm N R.
  destruct (session_run c tr N _ (session_opens c s W P T Lm))
    as (W' & (r & S) & Pg).
  set (s' := run tr (step (Select c) s)) in *.
  destruct Pg as [_ _ V H | T' _];
    [ | unfold reveals in R; rewrite T' in R; discriminate R ].
  unfold members, revealedCount. rewrite S, V, H, length_firstn.
  repeat split; try reflexivity.
  - intros L. apply Nat.ltb_lt in L. lia.
  - intros L. apply Nat.ltb_lt. lia.
Qed.


(** *** The scenarios *)

Import Sample Scenario.

(** The specification's scenario: 25 of 30 entries and more to come; after
    the scroll has settled, all 30 and no more. *)
Example thirty_points :
  revealedCount (run (firstn 1 thirty) mount) = 25
  /\ hasMore (run (firstn 1 thirty) mount) = true
  /\ revealedCount (run thirty mount) = 30
  /\ hasMore (run thirty mount) = false
  /\ loadingMore (run thirty mount) = false.
Proof. vm_compute. repeat split; reflexivity. Qed.

(** C1 at its failing inputs.  In [reopen] a second cluster of 60 points
    is selected while the first one shows page 2: the reset effect sets
    the page to 1 and the list to 25 entries, but the page effect of that
    render still sees page 2 and schedules its reveal; once that has run,
    the controller is settled on page 1 with 50 entries.  In [late_reveal]
    the reveal scheduled for the first selection runs after the second
    one was opened from the closed panel, with the same outcome.  In both,
    [min (page * 25) 60 = 25]. *)
Theorem reopen_reveals_stale_page :
  (members (run reopen mount) = posts "b" 60
   /\ page (run (firstn 4 reopen) mount) = 1
   /\ revealedCount (run (firstn 4 reopen) mount) = 25
   /\ reveals (run (firstn 4 reopen) mount) = 1
   /\ timers (run reopen mount) = []
   /\ loadingMore (run reopen mount) = false
   /\ page (run reopen mount) = 1
   /\ revealedCount (run reopen mount) = 50
   /\ Nat.min (page (run reopen mount) * MARKERS_PER_PAGE)
              (List.length (members (run reopen mount))) = 25)
  /\ (members (run late_reveal mount) = posts "b" 60
      /\ selectedCluster (run (firstn 4 late_reveal) mount) = None
      /\ timers (run late_reveal mount) = []
      /\ loadingMore (run late_reveal mount) = false
      /\ page (run late_reveal mount) = 1
      /\ revealedCount (run late_reveal mount) = 50
      /\ Nat.min (page (run late_reveal mount) * MARKERS_PER_PAGE)
                 (List.length (members (run late_reveal mount))) = 25).
Proof. vm_compute. repeat split; reflexivity. Qed.

Lemma post_not_in_other (p : MarkerData.t) (ps : list MarkerData.t) :
  existsb (String.eqb (MarkerData.url p)) (map MarkerData.url ps) = false ->
  ~ In p ps.
Proof.
  intros E I. apply (in_map MarkerData.url) in I.
  assert (X : existsb (String.eqb (MarkerData.url p)) (map MarkerData.url ps)
              = true)
    by (apply existsb_exists; eexists; split; [ exact I | apply String.eqb_refl ]).
  congruence.
Qed.

(** C6 at its failing inputs.  In [close_reopen] the reveal scheduled for
    the first selection runs after the panel was closed and reopened on
    another marker, and puts the 30 points of the first selection into the
    list shown for the second one.  In [late_reveal] the close has
    completed before the second selection is opened, and the list shown
    for it ends up holding 50 points of the first one. *)
Theorem close_reopen_leaks :
  (members (run close_reopen mount) = [north_east]
   /\ showPanel (run close_reopen mount) = true
   /\ visibleMarkers (run close_reopen mount) = posts "a" 30
   /\ ~ In (post "a" 1) (members (run close_reopen mount)))
  /\ (members (run late_reveal mount) = posts "b" 60
      /\ showPanel (run late_reveal mount) = true
      /\ timers (run late_reveal mount) = []
      /\ visibleMarkers (run late_reveal mount) = posts "a" 50
      /\ forall p, In p (visibleMarkers (run late_reveal mount)) ->
                   In p (posts "a" 60)
                   /\ ~ In p (members (run late_reveal mount))).
Proof.
  assert (V : visibleMarkers (run late_reveal mount) = posts "a" 50)
    by (vm_compute; reflexivity).
  assert (M : members (run late_reveal mount) = posts "b" 60)
    by (vm_compute; reflexivity).
  split; [ | split; [ exact M | split; [ vm_compute; reflexivity
           | split; [ vm_compute; reflexivity | split; [ exact V | ] ] ] ] ].
  - repeat split; try (vm_compute; reflexivity).
    apply post_not_in_other. vm_compute. reflexivity.
  - intros p I. rewrite V in I. rewrite M. split.
    + unfold posts in *. apply in_map_iff in I. destruct I as (n & <- & I).
      apply in_map, in_seq. apply in_seq in I. lia.
    + unfold posts in I. apply in_map_iff in I. destruct I as (n & <- & I).
      apply in_seq in I. apply post_not_in_other.
      do 51 (destruct n as [| n]; [ try lia; vm_compute; reflexivity | ]).
      lia.
Qed.

(** C10 at its failing inputs.  With a selection: the list of
    [close_reopen] is no prefix of the selection's members.  Without one: a reveal
    scheduled while the panel slides out runs after the selection was
    discarded and leaves 50 entries and [hasMore]. *)
Theorem visible_not_prefix :
  (selectedCluster (run close_reopen mount) <> None
   /\ forall k, visibleMarkers (run close_reopen mount)
                <> firstn k (members (run close_reopen mount)))
  /\ (selectedCluster (run close_scroll mount) = None
      /\ visibleMarkers (run close_scroll mount) = posts "a" 50
      /\ hasMore (run close_scroll mount) = true).
Proof.
  split; [ split | repeat split; vm_compute; reflexivity ].
  - vm_compute. discriminate.
  - intros k E. apply (f_equal (@List.length _)) in E.
    rewrite length_firstn in E.
    assert (V : List.length (visibleMarkers (run close_reopen mount)) = 30)
      by (vm_compute; reflexivity).
    assert (M : List.length (members (run close_reopen mount)) = 1)
      by (vm_compute; reflexivity).
    lia.
Qed.

(** Without a new selection the guard holds: after a selection opened
    while no reveal was in flight and any events other than a new
    selection, each handled before the next arrives, at most one reveal
    is in flight, and a scroll event either changes nothing or finds none
    in flight, advances the page by exactly one and starts exactly one. *)
Lemma guard_without_reselection (before : list Event) (c : ClusterData.t)
    (after : list Event) (m : ScrollMetrics) :
  reveals (run before mount) = 0 ->
  forallb (fun e => negb (is_select e)) after = true ->
  reveals (session before c after) <= 1
  /\ (step (Scroll m) (session before c after) = session before c after
      \/ (reveals (session before c after) = 0
          /\ loadingMore (session before c after) = false
          /\ page (step (Scroll m) (session before c after))
             = page (session before c after) + 1
          /\ reveals (step (Scroll m) (session before c after)) = 1
          /\ loadingMore (step (Scroll m) (session before c after)) = true)).
Proof.
  intros R N. unfold session.
  pose proof (wf_run before mount wf_mount) as W0.
  pose proof (wf_step (Select c) _ W0) as W1.
  pose proof (guarded_select c _ R) as G1.
  pose proof (wf_run after _ W1) as W.
  pose proof (guarded_run after _ W1 G1 N) as G.
  split; [ apply G | apply scroll_step; assumption ].
Qed.

(** C9: the [loadingMore] guard does not keep reveals apart.  In
    [reopen_in_flight] a cluster of 80 points is selected while the
    reveal of the first cluster's second page is pending.  The page
    effect of that render schedules a reveal of its own, so two are in
    flight.  When the first of them has run, the panel is open on the
    second cluster with [loadingMore] false and the other reveal still
    pending; the next scroll event near the bottom passes the guard,
    advances the page and starts another reveal beside the pending
    one.  [reopen_in_flight_click] is the same with the mouse, where the
    close callback is pending as well. *)
Theorem two_reveals_in_flight :
  reveals (run (firstn 3 reopen_in_flight) mount) = 2
  /\ showPanel (run (firstn 4 reopen_in_flight) mount) = true
  /\ members (run (firstn 4 reopen_in_flight) mount) = posts "b" 80
  /\ timers (run (firstn 4 reopen_in_flight) mount)
     = [RevealTimer (cluster "b" 80) 2]
  /\ loadingMore (run (firstn 4 reopen_in_flight) mount) = false
  /\ hasMore (run (firstn 4 reopen_in_flight) mount) = true
  /\ page (run (firstn 4 reopen_in_flight) mount) = 1
  /\ page (run reopen_in_flight mount) = 2
  /\ timers (run reopen_in_flight mount)
     = [RevealTimer (cluster "b" 80) 2; RevealTimer (cluster "b" 80) 2]
  /\ reveals (run reopen_in_flight mount) = 2
  /\ showPanel (run (firstn 5 reopen_in_flight_click) mount) = true
  /\ members (run (firstn 5 reopen_in_flight_click) mount) = posts "b" 80
  /\ reveals (run (firstn 5 reopen_in_flight_click) mount) = 1
  /\ loadingMore (run (firstn 5 reopen_in_flight_click) mount) = false
  /\ page (run reopen_in_flight_click mount)
     = page (run (firstn 5 reopen_in_flight_click) mount) + 1
  /\ reveals (run reopen_in_flight_click mount) = 2.
Proof. vm_compute. repeat split; reflexivity. Qed.

End ControllerFacts.

(** ** Map mount *)

Module MapMountFacts.

Import JS MapMount.
Local Open Scope float_scope.

(** The loop of lines 283-305 adds a marker for exactly the entries whose
    [lat] and [lon] are both truthy, in the order of the list. *)
Lemma attach_filter (markers : list MarkerData.t) :
  forall markersLayer,
    attach markers markersLayer
    = markersLayer ++ map marker_of (filter renderable markers).
Proof.
  induction markers as [| m markers IH]; intros layer; cbn [attach filter].
  - cbn. now rewrite app_nil_r.
  - unfold renderable at 1.
    destruct (truthy (MarkerData.lat m)), (truthy (MarkerData.lon m));
      cbn [negb orb andb]; rewrite IH; try reflexivity.
    cbn [map]. now rewrite <- app_assoc.
Qed.

Lemma fold_visit (children : list Marker) :
  forall contained avgLat avgLng,
    fold_left visit children (contained, avgLat, avgLng) =
    (contained ++ points children,
     fold_left PrimFloat.add (lats (points children)) avgLat,
     fold_left PrimFloat.add (lons (points children)) avgLng).
Proof.
  induction children as [| m children IH]; intros contained avgLat avgLng.
  - cbn. now rewrite app_nil_r.
  - cbn [fold_left visit]. rewrite IH. cbn. now rewrite <- app_assoc.
Qed.

Lemma cluster_click_eq (e : ClusterClick) :
  cluster_click e =
  {| ClusterData.clusterId := String_of (Some (_leaflet_id e));
     ClusterData.markers := points (getAllChildMarkers e);
     ClusterData.lat := Some (mean (lats (points (getAllChildMarkers e))));
     ClusterData.lon := Some (mean (lons (points (getAllChildMarkers e)))) |}.
Proof.
  unfold cluster_click. rewrite fold_visit. cbn [app].
  unfold mean, sum, lats, lons, points. now rewrite !length_map.
Qed.

(** C2: the click handler of a cluster selects the points of the cluster's
    child markers, in their order, with the mean of their latitudes and
    the mean of their longitudes as its centre; that selection is the one
    the panel then has. *)
Theorem cluster_click_selection (e : ClusterClick) (s : Controller.State) :
  Controller.members (Controller.step (Controller.Select (cluster_click e)) s)
  = points (getAllChildMarkers e)
  /\ ClusterData.markers (cluster_click e) = points (getAllChildMarkers e)
  /\ ClusterData.lat (cluster_click e)
     = Some (mean (lats (points (getAllChildMarkers e))))
  /\ ClusterData.lon (cluster_click e)
     = Some (mean (lons (points (getAllChildMarkers e)))).
Proof.
  rewrite ControllerFacts.select_members, cluster_click_eq.
  repeat split; reflexivity.
Qed.

Example cluster_of_three :
  cluster_click
    (mkClusterClick
       [marker_of (MarkerData.mk (Some 1%Z) (Some 10) (Some 30) None None "/r/x/1");
        marker_of (MarkerData.mk (Some 2%Z) (Some 20) (Some 50) None None "/r/x/2");
        marker_of (MarkerData.mk (Some 3%Z) (Some 60) (Some 10) None None "/r/x/3")]
       17)
  = {| ClusterData.clusterId := "17";
       ClusterData.markers :=
         [MarkerData.mk (Some 1%Z) (Some 10) (Some 30) None None "/r/x/1";
          MarkerData.mk (Some 2%Z) (Some 20) (Some 50) None None "/r/x/2";
          MarkerData.mk (Some 3%Z) (Some 60) (Some 10) None None "/r/x/3"];
       ClusterData.lat := Some 30;
       ClusterData.lon := Some 30 |}.
Proof. vm_compute. reflexivity. Qed.

(** C5 at its failing input: the point at latitude 0 and longitude 0 has
    both fields, yet the guard [!m.lat || !m.lon] takes the number 0 for a
    missing value and no marker is built for it, so there is nothing to
    click.  The same post one degree away is rendered, and clicking it
    gives a selection of one member with [hasMore] false. *)
Theorem origin_not_rendered :
  MarkerData.lat Sample.origin = Some 0
  /\ MarkerData.lon Sample.origin = Some 0
  /\ MarkerData.url Sample.origin = "/r/test/1"%string
  /\ attach [Sample.origin] [] = []
  /\ attach [Sample.north_east] [] = [marker_of Sample.north_east]
  /\ Controller.visibleMarkers
       (Controller.step (Controller.Select (marker_click Sample.north_east))
          Controller.mount) = [Sample.north_east]
  /\ Controller.hasMore
       (Controller.step (Controller.Select (marker_click Sample.north_east))
          Controller.mount) = false.
Proof. vm_compute. repeat split; reflexivity. Qed.

(** A marker click at any time shows its one point and nothing more to
    load. *)
Lemma marker_click_single (m : MarkerData.t) (s : Controller.State) :
  Controller.wf s ->
  Controller.members (Controller.step (Controller.Select (marker_click m)) s)
  = [m]
  /\ Controller.visibleMarkers
       (Controller.step (Controller.Select (marker_click m)) s) = [m]
  /\ Controller.hasMore
       (Controller.step (Controller.Select (marker_click m)) s) = false.
Proof.
  intros W.
  destruct (ControllerFacts.select_resets (marker_click m) s W)
    as (M & _ & _ & V & H).
  rewrite M, V, H. repeat split; reflexivity.
Qed.

End MapMountFacts.

(** ** More on the controller *)

Module ControllerMore.

Import Controller ControllerFacts Flows.

Ltac simp := cbn -[Nat.ltb Nat.leb Nat.eqb firstn MARKERS_PER_PAGE Nat.mul].

Ltac simp_in H :=
  cbn -[Nat.ltb Nat.leb Nat.eqb firstn MARKERS_PER_PAGE Nat.mul] in H.

Lemma reachable_wf (tr : list Event) : wf (run tr mount).
Proof. apply wf_run, wf_mount. Qed.

Lemma run_app (a b : list Event) (s : State) :
  run (a ++ b) s = run b (run a s).
Proof. unfold run. apply fold_left_app. Qed.

(** The listener after an event. *)
Lemma step_listener (e : Event) (s : State) :
  listener (step e s) =
  if scroll_deps_changed (handle e s) (run_effects s (handle e s))
  then match rendered_container (handle e s) with
       | Some n => Some (mkListener n
                           (loadingMore (run_effects s (handle e s)))
                           (hasMore (run_effects s (handle e s))))
       | None => None
       end
  else if scroll_deps_changed s (handle e s)
       then match rendered_container (handle e s) with
            | Some n => Some (mkListener n (loadingMore (handle e s))
                                (hasMore (handle e s)))
            | None => None
            end
       else listener (handle e s).
Proof.
  rewrite step_eq. simp.
  rewrite run_effects_container, run_effects_listener. reflexivity.
Qed.

(** X1: right after any marker or cluster click, whatever happened before,
    the panel is shown for the clicked selection on page 1 with its first
    25 members (all of them if there are fewer), and [hasMore] says
    whether there are more than 25. *)
Theorem click_shows_first_page (tr : list Event) (c : ClusterData.t) :
  members (step (Select c) (run tr mount)) = ClusterData.markers c
  /\ showPanel (step (Select c) (run tr mount)) = true
  /\ page (step (Select c) (run tr mount)) = 1
  /\ visibleMarkers (step (Select c) (run tr mount))
     = firstn 25 (ClusterData.markers c)
  /\ revealedCount (step (Select c) (run tr mount))
     = Nat.min 25 (List.length (ClusterData.markers c))
  /\ (hasMore (step (Select c) (run tr mount)) = true
      <-> 25 < List.length (ClusterData.markers c)).
Proof.
  destruct (select_resets c _ (reachable_wf tr)) as (M & S & P & V & H).
  unfold revealedCount. rewrite M, S, P, V, H, length_firstn.
  repeat split; try reflexivity; apply Nat.ltb_lt.
Qed.

(** X2: in a session opened on page 1 with no callback pending and then
    only scrolled, whenever no reveal is in flight the list holds
    [min (page * 25) (length members)] entries, the first ones of the
    selection in order, and [hasMore] holds exactly when some are left. *)
Theorem clean_session_pagination (before : list Event) (c : ClusterData.t)
    (after : list Event) :
  page (run before mount) = 1 ->
  timers (run before mount) = [] ->
  loadingMore (run before mount) = false ->
  forallb is_scroll_or_tick after = true ->
  reveals (Scenario.session before c after) = 0 ->
  members (Scenario.session before c after) = ClusterData.markers c
  /\ visibleMarkers (Scenario.session before c after)
     = firstn (page (Scenario.session before c after) * 25)
              (ClusterData.markers c)
  /\ revealedCount (Scenario.session before c after)
     = Nat.min (page (Scenario.session before c after) * 25)
               (List.length (ClusterData.markers c))
  /\ (hasMore (Scenario.session before c after) = true <->
      revealedCount (Scenario.session before c after)
      < List.length (ClusterData.markers c)).
Proof.
  intros P T Lm N R. unfold Scenario.session in *.
  destruct (session_run c after N _
              (session_opens c _ (reachable_wf before) P T Lm))
    as (W' & (r & S) & Pg).
  set (s' := run after (step (Select c) (run before mount))) in *.
  destruct Pg as [_ _ V H | T' _];
    [ | unfold reveals in R; rewrite T' in R; discriminate R ].
  unfold members, revealedCount. rewrite S, V, H, length_firstn.
  repeat split; try reflexivity.
  - intros L. apply Nat.ltb_lt in L. unfold MARKERS_PER_PAGE in *. lia.
  - intros L. apply Nat.ltb_lt. unfold MARKERS_PER_PAGE in *. lia.
Qed.

Lemma clean_session_pagination_witness :
  members (Scenario.session [] (Sample.cluster "a" 60)
             [Scroll near_bottom; Tick])
  = ClusterData.markers (Sample.cluster "a" 60)
  /\ visibleMarkers (Scenario.session [] (Sample.cluster "a" 60)
                       [Scroll near_bottom; Tick])
     = firstn (page (Scenario.session [] (Sample.cluster "a" 60)
                       [Scroll near_bottom; Tick]) * 25)
              (ClusterData.markers (Sample.cluster "a" 60))
  /\ revealedCount (Scenario.session [] (Sample.cluster "a" 60)
                      [Scroll near_bottom; Tick])
     = Nat.min (page (Scenario.session [] (Sample.cluster "a" 60)
                        [Scroll near_bottom; Tick]) * 25)
               (List.length (ClusterData.markers (Sample.cluster "a" 60)))
  /\ (hasMore (Scenario.session [] (Sample.cluster "a" 60)
                 [Scroll near_bottom; Tick]) = true <->
      revealedCount (Scenario.session [] (Sample.cluster "a" 60)
                       [Scroll near_bottom; Tick])
      < List.length (ClusterData.markers (Sample.cluster "a" 60))).
Proof.
  apply (clean_session_pagination [] (Sample.cluster "a" 60)
           [Scroll near_bottom; Tick]); reflexivity.
Defined.


(** *** Scrolling through a selection *)

Lemma near_bottom_is_near :
  (scrollHeight near_bottom - scrollTop near_bottom - clientHeight near_bottom
   <? 100)%Z = true.
Proof. reflexivity. Qed.

(** A scroll to the bottom with the listener in place, more to show and no
    reveal flagged: the next page is scheduled. *)
Lemma scroll_accepted (s : State) (l : Listener) (r : nat) (c : ClusterData.t) :
  wf s ->
  listener s = Some l -> container s = Some (l_node l) ->
  loadingMore s = false -> hasMore s = true ->
  selectedCluster s = Some (r, c) ->
  selectedCluster (step (Scroll near_bottom) s) = Some (r, c)
  /\ page (step (Scroll near_bottom) s) = page s + 1
  /\ timers (step (Scroll near_bottom) s)
     = timers s ++ [RevealTimer c (page s + 1)]
  /\ loadingMore (step (Scroll near_bottom) s) = true
  /\ visibleMarkers (step (Scroll near_bottom) s) = visibleMarkers s
  /\ hasMore (step (Scroll near_bottom) s) = true.
Proof.
  intros W L C Lm Hm S.
  destruct (wf_closure s W l L C) as [Klm Khm].
  assert (H : handle (Scroll near_bottom) s = set_page (page s + 1) s).
  { cbn [handle]. rewrite L, C, Nat.eqb_refl. unfold handleScroll.
    now rewrite Klm, Khm, Lm, Hm, near_bottom_is_near. }
  destruct (scroll_cases near_bottom s W)
    as [E | (r' & c' & S' & _ & _ & S2 & P2 & T2 & Lm2 & V2 & H2)].
  - exfalso. apply (f_equal page) in E. rewrite step_page, H in E.
    unfold sel_changed in E. simp_in E. rewrite same_selection_refl in E.
    simp_in E. lia.
  - rewrite S in S'. injection S' as <- <-. repeat split; assumption.
Qed.

(** The reveal at the head of the queue runs. *)
Lemma tick_reveals (s : State) (r : nat) (c c' : ClusterData.t) (p : nat)
    (rest : list Timer) (n : nat) :
  wf s ->
  timers s = RevealTimer c p :: rest ->
  selectedCluster s = Some (r, c') -> container s = Some n ->
  loadingMore s = true ->
  selectedCluster (step Tick s) = Some (r, c')
  /\ page (step Tick s) = page s
  /\ timers (step Tick s) = rest
  /\ loadingMore (step Tick s) = false
  /\ visibleMarkers (step Tick s)
     = firstn (p * MARKERS_PER_PAGE) (ClusterData.markers c)
  /\ hasMore (step Tick s)
     = (p * MARKERS_PER_PAGE <? List.length (ClusterData.markers c))
  /\ container (step Tick s) = Some n
  /\ exists l, listener (step Tick s) = Some l /\ l_node l = n.
Proof.
  intros W T S C Lm.
  assert (Hd : handle Tick s = run_timer (RevealTimer c p) (set_timers rest s))
    by (cbn; now rewrite T).
  assert (Sch : scheduled s (handle Tick s) = [])
    by (apply scheduled_nil; rewrite Hd; reflexivity).
  assert (Sel : sel_changed s (handle Tick s) = false).
  { unfold sel_changed. rewrite Hd. simp. now rewrite same_selection_refl. }
  assert (Rc : rendered_container (handle Tick s) = Some n).
  { unfold rendered_container. rewrite Hd. simp. now rewrite S, C. }
  repeat split.
  - rewrite step_selectedCluster, Hd. exact S.
  - rewrite step_page, Sel, Hd. reflexivity.
  - rewrite step_timers, Sch, Hd. simp. apply app_nil_r.
  - rewrite step_loadingMore, Sch, Hd. reflexivity.
  - rewrite step_visibleMarkers, Sel, Hd. reflexivity.
  - rewrite step_hasMore, Sel, Hd. reflexivity.
  - rewrite step_container. exact Rc.
  - rewrite step_listener, Rc.
    destruct (scroll_deps_changed (handle Tick s)
                (run_effects s (handle Tick s))); [ eexists; split; reflexivity | ].
    assert (D : scroll_deps_changed s (handle Tick s) = true).
    { unfold scroll_deps_changed. rewrite Hd. simp. rewrite Lm.
      now rewrite orb_true_r. }
    rewrite D. eexists; split; reflexivity.
Qed.

Lemma revealed_round (c : ClusterData.t) (k : nat) (s : State) :
  revealed c k s ->
  revealed c (S k) (run [Scroll near_bottom; Tick] s).
Proof.
  intros (W & (r & Sl) & T & Lm & V & [(Hm & P & Lt & l & L & C) | (Hm & Le)]).
  - (* more to show *)
    destruct (scroll_accepted s l r c W L C Lm Hm Sl)
      as (S1 & P1 & T1 & Lm1 & V1 & H1).
    pose proof (wf_step (Scroll near_bottom) s W) as W1.
    assert (C1 : container (step (Scroll near_bottom) s) = Some (l_node l)).
    { rewrite step_container. unfold rendered_container.
      rewrite handle_container, C.
      rewrite <- (step_selectedCluster (Scroll near_bottom) s), S1.
      reflexivity. }
    rewrite T in T1. cbn [app] in T1.
    destruct (tick_reveals _ r c c (page s + 1) [] (l_node l) W1 T1 S1 C1 Lm1)
      as (S2 & P2 & T2 & Lm2 & V2 & H2 & C2 & l2 & L2 & N2).
    cbn [run fold_left].
    split; [ apply wf_step, W1 | ].
    split; [ eauto | ]. split; [ exact T2 | ]. split; [ exact Lm2 | ].
    replace (S k + 1) with (page s + 1) by lia.
    split; [ exact V2 | ].
    unfold MARKERS_PER_PAGE in H2.
    destruct ((page s + 1) * 25 <? List.length (ClusterData.markers c)) eqn:B.
    + left. apply Nat.ltb_lt in B. repeat split; try assumption; try lia.
      exists l2. split; [ exact L2 | now rewrite N2 ].
    + right. apply Nat.ltb_ge in B. split; assumption.
  - (* everything is listed *)
    assert (E1 : step (Scroll near_bottom) s = s).
    { destruct (scroll_cases near_bottom s W)
        as [E | (_ & _ & _ & _ & Hm' & _)]; [ exact E | congruence ]. }
    assert (E2 : step Tick s = s)
      by (apply step_idle; [ exact W | cbn; now rewrite T ]).
    cbn [run fold_left]. rewrite E1, E2.
    split; [ exact W | ]. split; [ eauto | ].
    split; [ exact T | ]. split; [ exact Lm | ].
    split; [ | right; split; [ exact Hm | lia ] ].
    rewrite V. rewrite !firstn_all2 by lia. reflexivity.
Qed.

Lemma revealed_rounds (c : ClusterData.t) (k : nat) :
  forall s, revealed c 0 s -> revealed c k (run (scrolls k) s).
Proof.
  induction k as [| k IH]; intros s R; [ exact R | ].
  unfold scrolls. replace (S k) with (k + 1) by lia.
  rewrite repeat_app, concat_app, run_app. cbn [repeat concat app].
  replace (k + 1) with (S k) by lia.
  apply revealed_round, IH, R.
Qed.

Lemma revealed_opens (c : ClusterData.t) (s : State) :
  wf s -> selectedCluster s = None -> hasMore s = false ->
  loadingMore s = false -> timers s = [] -> page s = 1 ->
  revealed c 0 (step (Select c) s).
Proof.
  intros W S Hm Lm T P.
  destruct (session_opens c s W P T Lm) as (W1 & (r & S1) & Pg).
  destruct Pg as [T1 Lm1 V1 H1 | T1 _].
  2:{ exfalso. rewrite step_timers in T1.
      assert (Sch : scheduled s (handle (Select c) s) = []).
      { unfold scheduled. cbn [handle on_select]. simp. rewrite P.
        now destruct (_ || _). }
      rewrite Sch in T1. cbn in T1. rewrite T in T1. discriminate T1. }
  assert (P1 : page (step (Select c) s) = 1).
  { rewrite step_page, (select_changes c s W). reflexivity. }
  rewrite P1 in V1, H1. unfold MARKERS_PER_PAGE in V1, H1.
  split; [ exact W1 | ]. split; [ eauto | ].
  split; [ exact T1 | ]. split; [ exact Lm1 | ]. split; [ exact V1 | ].
  destruct (1 * 25 <? List.length (ClusterData.markers c)) eqn:B.
  - left. apply Nat.ltb_lt in B. repeat split; try assumption; try lia.
    assert (Rc : exists n, rendered_container (handle (Select c) s) = Some n).
    { unfold rendered_container. cbn [handle on_select]. simp.
      destruct (container s); eauto. }
    destruct Rc as (n & Rc).
    assert (D : scroll_deps_changed (handle (Select c) s)
                  (run_effects s (handle (Select c) s)) = true).
    { unfold scroll_deps_changed.
      rewrite run_effects_hasMore, (select_changes c s W).
      cbn [handle on_select]. simp. rewrite Hm.
      unfold MARKERS_PER_PAGE.
      replace (25 <? List.length (ClusterData.markers c)) with true
        by (symmetry; apply Nat.ltb_lt; lia).
      reflexivity. }
    eexists. split.
    + rewrite step_listener, D, Rc. reflexivity.
    + rewrite step_container, Rc. reflexivity.
  - right. apply Nat.ltb_ge in B. split; [ exact H1 | lia ].
Qed.

(** X3: from a closed panel with nothing pending, clicking a selection and
    scrolling to the bottom [k] times, each time letting the reveal delay
    pass, leaves the first [(k + 1) * 25] members listed (all of them once
    that exceeds their number), nothing pending, and [hasMore] exactly
    when some are left. *)
Theorem scrolling_reveals_pages (tr : list Event) (c : ClusterData.t)
    (k : nat) :
  selectedCluster (run tr mount) = None ->
  hasMore (run tr mount) = false ->
  loadingMore (run tr mount) = false ->
  timers (run tr mount) = [] ->
  page (run tr mount) = 1 ->
  members (Scenario.session tr c (scrolls k)) = ClusterData.markers c
  /\ visibleMarkers (Scenario.session tr c (scrolls k))
     = firstn ((k + 1) * 25) (ClusterData.markers c)
  /\ timers (Scenario.session tr c (scrolls k)) = []
  /\ loadingMore (Scenario.session tr c (scrolls k)) = false
  /\ (hasMore (Scenario.session tr c (scrolls k)) = true
      <-> (k + 1) * 25 < List.length (ClusterData.markers c)).
Proof.
  intros S Hm Lm T P. unfold Scenario.session.
  destruct (revealed_rounds c k _
              (revealed_opens c _ (reachable_wf tr) S Hm Lm T P))
    as (_ & (r & S') & T' & Lm' & V' & Cases).
  unfold members. rewrite S'.
  repeat split; try assumption.
  - intros H. destruct Cases as [(_ & _ & Lt & _) | (H' & _)];
      [ exact Lt | congruence ].
  - intros Lt. destruct Cases as [(H' & _) | (_ & Le)]; [ exact H' | lia ].
Qed.

Lemma scrolling_reveals_pages_witness :
  members (Scenario.session [] (Sample.cluster "a" 60) (scrolls 2))
  = ClusterData.markers (Sample.cluster "a" 60)
  /\ visibleMarkers (Scenario.session [] (Sample.cluster "a" 60) (scrolls 2))
     = firstn ((2 + 1) * 25) (ClusterData.markers (Sample.cluster "a" 60))
  /\ timers (Scenario.session [] (Sample.cluster "a" 60) (scrolls 2)) = []
  /\ loadingMore (Scenario.session [] (Sample.cluster "a" 60) (scrolls 2))
     = false
  /\ (hasMore (Scenario.session [] (Sample.cluster "a" 60) (scrolls 2)) = true
      <-> (2 + 1) * 25
          < List.length (ClusterData.markers (Sample.cluster "a" 60))).
Proof.
  apply (scrolling_reveals_pages [] (Sample.cluster "a" 60) 2); reflexivity.
Defined.


(** *** Rendering settles *)

(** X4: after any event, the state reached by two rounds of effects is
    one in which no effect's dependency list has changed, so that a
    further render runs no effect and changes nothing. *)
Theorem effects_settle (e : Event) (s : State) :
  sel_changed (run_effects s (handle e s)) (step e s) = false
  /\ page_changed (run_effects s (handle e s)) (step e s) = false
  /\ scroll_deps_changed (run_effects s (handle e s)) (step e s) = false
  /\ run_effects (run_effects s (handle e s)) (step e s) = step e s.
Proof.
  rewrite step_eq.
  set (s1 := run_effects s (handle e s)).
  unfold sel_changed, page_changed, scroll_deps_changed. simp.
  rewrite same_selection_refl, Nat.eqb_refl, !eqb_reflx.
  repeat split; try reflexivity.
  pose proof (flush_quiescent s (handle e s)) as Q.
  unfold flush in Q. fold s1 in Q.
  pose proof (step_eq e s) as E. unfold step, flush in E. fold s1 in E.
  rewrite E in Q. exact Q.
Qed.

(** *** Closing the panel *)

Lemma close_step (s : State) (r : nat) (c : ClusterData.t) :
  selectedCluster s = Some (r, c) ->
  selectedCluster (step ClosePanel s) = Some (r, c)
  /\ showPanel (step ClosePanel s) = false
  /\ visibleMarkers (step ClosePanel s) = visibleMarkers s
  /\ page (step ClosePanel s) = page s
  /\ hasMore (step ClosePanel s) = hasMore s
  /\ timers (step ClosePanel s) = timers s ++ [CloseTimer].
Proof.
  intros Sl.
  assert (H : handle ClosePanel s = closePanel s) by (cbn; now rewrite Sl).
  assert (Sel : sel_changed s (handle ClosePanel s) = false).
  { unfold sel_changed. rewrite H. simp. now rewrite same_selection_refl. }
  assert (Sch : scheduled s (handle ClosePanel s) = [])
    by (apply scheduled_nil; rewrite H; reflexivity).
  rewrite step_selectedCluster, step_showPanel, step_visibleMarkers,
    step_page, step_hasMore, step_timers, Sel, Sch, H.
  repeat split; try assumption; try reflexivity. simp. apply app_nil_r.
Qed.

(** The close callback at the head of the queue runs. *)
Lemma tick_closes (s : State) (rest : list Timer) (r : nat)
    (c : ClusterData.t) :
  timers s = CloseTimer :: rest ->
  selectedCluster s = Some (r, c) ->
  selectedCluster (step Tick s) = None
  /\ showPanel (step Tick s) = showPanel s
  /\ visibleMarkers (step Tick s) = []
  /\ page (step Tick s) = 1
  /\ hasMore (step Tick s) = false
  /\ timers (step Tick s) = rest.
Proof.
  intros T Sl.
  assert (H : handle Tick s = run_timer CloseTimer (set_timers rest s))
    by (cbn; now rewrite T).
  assert (Sel : sel_changed s (handle Tick s) = true).
  { unfold sel_changed. rewrite H. simp. now rewrite Sl. }
  assert (Sch : scheduled s (handle Tick s) = [])
    by (apply scheduled_none; rewrite H; reflexivity).
  rewrite step_selectedCluster, step_showPanel, step_visibleMarkers,
    step_page, step_hasMore, step_timers, Sel, Sch, H.
  repeat split; try reflexivity. simp. apply app_nil_r.
Qed.

(** X5: closing an open panel with nothing pending hides it at once but
    keeps the selection and its list for the 300 ms of the exit
    animation; when the delay has passed, the selection and the list are
    gone, the page is 1 and [hasMore] is false. *)
Theorem close_then_teardown (tr : list Event) (r : nat) (c : ClusterData.t) :
  selectedCluster (run tr mount) = Some (r, c) ->
  timers (run tr mount) = [] ->
  (selectedCluster (step ClosePanel (run tr mount)) = Some (r, c)
   /\ showPanel (step ClosePanel (run tr mount)) = false
   /\ visibleMarkers (step ClosePanel (run tr mount))
      = visibleMarkers (run tr mount))
  /\ (selectedCluster (run [ClosePanel; Tick] (run tr mount)) = None
      /\ showPanel (run [ClosePanel; Tick] (run tr mount)) = false
      /\ visibleMarkers (run [ClosePanel; Tick] (run tr mount)) = []
      /\ page (run [ClosePanel; Tick] (run tr mount)) = 1
      /\ hasMore (run [ClosePanel; Tick] (run tr mount)) = false
      /\ timers (run [ClosePanel; Tick] (run tr mount)) = []).
Proof.
  intros Sl T.
  destruct (close_step _ r c Sl) as (S1 & Sp1 & V1 & P1 & H1 & T1).
  rewrite T in T1. cbn [app] in T1.
  destruct (tick_closes _ [] r c T1 S1) as (S2 & Sp2 & V2 & P2 & H2 & T2).
  cbn [run fold_left]. rewrite Sp1 in Sp2.
  repeat split; assumption.
Qed.

Lemma close_then_teardown_witness :
  (selectedCluster (step ClosePanel (run [Select (Sample.cluster "a" 30)] mount))
   = Some (0, Sample.cluster "a" 30)
   /\ showPanel (step ClosePanel (run [Select (Sample.cluster "a" 30)] mount))
      = false
   /\ visibleMarkers
        (step ClosePanel (run [Select (Sample.cluster "a" 30)] mount))
      = visibleMarkers (run [Select (Sample.cluster "a" 30)] mount))
  /\ (selectedCluster (run [ClosePanel; Tick]
                         (run [Select (Sample.cluster "a" 30)] mount)) = None
      /\ showPanel (run [ClosePanel; Tick]
                      (run [Select (Sample.cluster "a" 30)] mount)) = false
      /\ visibleMarkers (run [ClosePanel; Tick]
                           (run [Select (Sample.cluster "a" 30)] mount)) = []
      /\ page (run [ClosePanel; Tick]
                 (run [Select (Sample.cluster "a" 30)] mount)) = 1
      /\ hasMore (run [ClosePanel; Tick]
                    (run [Select (Sample.cluster "a" 30)] mount)) = false
      /\ timers (run [ClosePanel; Tick]
                   (run [Select (Sample.cluster "a" 30)] mount)) = []).
Proof.
  apply (close_then_teardown [Select (Sample.cluster "a" 30)] 0
           (Sample.cluster "a" 30)); reflexivity.
Defined.

(** X6: a selection that is opened during the close delay of the previous
    one is discarded when that delay completes: the panel has no selection
    and no entries, although [showPanel] is still true. *)
Theorem selection_during_close_is_discarded (tr : list Event) (r : nat)
    (c c' : ClusterData.t) :
  selectedCluster (run tr mount) = Some (r, c) ->
  timers (run tr mount) = [] ->
  members (run [ClosePanel; Select c'] (run tr mount)) = ClusterData.markers c'
  /\ selectedCluster (run [ClosePanel; Select c'; Tick] (run tr mount)) = None
  /\ visibleMarkers (run [ClosePanel; Select c'; Tick] (run tr mount)) = []
  /\ hasMore (run [ClosePanel; Select c'; Tick] (run tr mount)) = false
  /\ showPanel (run [ClosePanel; Select c'; Tick] (run tr mount)) = true.
Proof.
  intros Sl T.
  destruct (close_step _ r c Sl) as (S1 & Sp1 & V1 & P1 & H1 & T1).
  rewrite T in T1. cbn [app] in T1.
  set (s1 := step ClosePanel (run tr mount)) in *.
  assert (S2 : selectedCluster (step (Select c') s1) = Some (fresh s1, c'))
    by (rewrite step_selectedCluster; reflexivity).
  assert (T2 : timers (step (Select c') s1)
               = CloseTimer :: scheduled s1 (handle (Select c') s1)).
  { rewrite step_timers. cbn [handle on_select]. simp. now rewrite T1. }
  assert (Sp2 : showPanel (step (Select c') s1) = true)
    by (rewrite step_showPanel; reflexivity).
  destruct (tick_closes _ _ _ _ T2 S2) as (S3 & Sp3 & V3 & P3 & H3 & T3).
  cbn [run fold_left]. fold s1. rewrite Sp2 in Sp3.
  repeat split; try assumption. apply select_members.
Qed.

Lemma selection_during_close_is_discarded_witness :
  members (run [ClosePanel; Select (Sample.cluster "b" 60)]
             (run [Select (Sample.cluster "a" 30)] mount))
  = ClusterData.markers (Sample.cluster "b" 60)
  /\ selectedCluster (run [ClosePanel; Select (Sample.cluster "b" 60); Tick]
                        (run [Select (Sample.cluster "a" 30)] mount)) = None
  /\ visibleMarkers (run [ClosePanel; Select (Sample.cluster "b" 60); Tick]
                       (run [Select (Sample.cluster "a" 30)] mount)) = []
  /\ hasMore (run [ClosePanel; Select (Sample.cluster "b" 60); Tick]
                (run [Select (Sample.cluster "a" 30)] mount)) = false
  /\ showPanel (run [ClosePanel; Select (Sample.cluster "b" 60); Tick]
                  (run [Select (Sample.cluster "a" 30)] mount)) = true.
Proof.
  apply (selection_during_close_is_discarded
           [Select (Sample.cluster "a" 30)] 0
           (Sample.cluster "a" 30) (Sample.cluster "b" 60)); reflexivity.
Defined.


(** *** The loading flag *)

Lemma handle_loading (e : Event) (s : State) :
  (loadingMore s = true -> 1 <= reveals s) ->
  loadingMore (handle e s) = true -> 1 <= reveals (handle e s).
Proof.
  unfold reveals, handle, on_select, closePanel, handleScroll, run_timer,
    setTimeout.
  destruct e as [c0 | | m |];
    destruct s as [[[r0 c1]|] vis pg hm sp lm [| [c2 p2 |] rest] [n0|] [l0|] fr];
    simp;
    repeat match goal with |- context [if ?b then _ else _] => destruct b end;
    simp; rewrite ?filter_app, ?length_app; simp;
    intros I L; try discriminate L; try (specialize (I L)); lia.
Qed.

Lemma loading_step (e : Event) (s : State) :
  (loadingMore s = true -> 1 <= reveals s) ->
  loadingMore (step e s) = true -> 1 <= reveals (step e s).
Proof.
  intros I. rewrite step_reveals, step_loadingMore.
  destruct (scheduled s (handle e s)) as [| t ts]; cbn [List.length];
    [ | lia ].
  intros L. pose proof (handle_loading e s I L). lia.
Qed.

Lemma loading_run (tr : list Event) :
  forall s, (loadingMore s = true -> 1 <= reveals s) ->
            loadingMore (run tr s) = true -> 1 <= reveals (run tr s).
Proof.
  induction tr as [| e tr IH]; intros s I; cbn [run fold_left];
    [ exact I | ].
  apply IH, loading_step, I.
Qed.

(** A callback that runs schedules no other. *)
Lemma tick_pops (s : State) : timers (step Tick s) = tl (timers s).
Proof.
  rewrite step_timers.
  destruct (timers s) as [| [c p |] rest] eqn:T.
  - assert (H : handle Tick s = s) by (cbn; now rewrite T).
    rewrite H, scheduled_nil, T by reflexivity. reflexivity.
  - assert (H : handle Tick s
                = run_timer (RevealTimer c p) (set_timers rest s))
      by (cbn; now rewrite T).
    rewrite H, scheduled_nil by reflexivity. simp. apply app_nil_r.
  - assert (H : handle Tick s = run_timer CloseTimer (set_timers rest s))
      by (cbn; now rewrite T).
    rewrite H, scheduled_none by reflexivity. simp. apply app_nil_r.
Qed.

Lemma ticks_pop (n : nat) :
  forall s, timers (run (repeat Tick n) s) = skipn n (timers s).
Proof.
  induction n as [| n IH]; intros s; cbn [repeat run fold_left];
    [ reflexivity | ].
  fold (run (repeat Tick n) (step Tick s)). rewrite IH, tick_pops.
  destruct (timers s); [ now rewrite skipn_nil | reflexivity ].
Qed.

(** X7: in every state the component can reach, the page is at least 1
    and [loadingMore] is set only while a reveal callback is pending; so
    once the pending callbacks have run, nothing is pending and the
    loading indicator is off. *)
Theorem loading_indicator_clears (tr : list Event) :
  1 <= page (run tr mount)
  /\ (loadingMore (run tr mount) = true -> 1 <= reveals (run tr mount))
  /\ timers (run (drain (run tr mount)) (run tr mount)) = []
  /\ loadingMore (run (drain (run tr mount)) (run tr mount)) = false.
Proof.
  assert (I : forall tr', loadingMore (run tr' mount) = true ->
                          1 <= reveals (run tr' mount)).
  { intros tr'. apply loading_run. cbn. discriminate. }
  assert (T : timers (run (drain (run tr mount)) (run tr mount)) = []).
  { unfold drain. rewrite ticks_pop. apply skipn_all. }
  split; [ apply (wf_page _ (reachable_wf tr)) | ].
  split; [ apply I | ]. split; [ exact T | ].
  specialize (I (tr ++ drain (run tr mount))). rewrite run_app in I.
  destruct (loadingMore _); [ | reflexivity ].
  specialize (I eq_refl). unfold reveals in I. rewrite T in I.
  cbn in I. lia.
Qed.

(** *** Scroll events that change nothing *)



(** *** What the panel shows *)

Lemma items_from_length (ms : list MarkerData.t) :
  forall i, List.length (PanelView.items_from i ms) = List.length ms.
Proof.
  induction ms as [| m ms IH]; intros i; cbn; [ reflexivity | ].
  now rewrite IH.
Qed.

(** X9: in a session opened on page 1 with no callback pending and then
    only scrolled, whenever no reveal is in flight the panel is rendered
    without the loading spinner, with [min (page * 25) (length members)]
    entries, and with the end-of-list message exactly when the selection
    is not empty and all of its members are listed. *)
Theorem end_message_when_all_listed (before : list Event)
    (c : ClusterData.t) (after : list Event) (loading : bool) :
  page (run before mount) = 1 ->
  timers (run before mount) = [] ->
  loadingMore (run before mount) = false ->
  forallb is_scroll_or_tick after = true ->
  reveals (Scenario.session before c after) = 0 ->
  exists p,
    PanelView.panel (PanelView.render loading (Scenario.session before c after))
    = Some p
    /\ PanelView.spinner p = false
    /\ PanelView.results p = List.length (ClusterData.markers c)
    /\ List.length (PanelView.items p)
       = Nat.min (page (Scenario.session before c after) * 25)
                 (List.length (ClusterData.markers c))
    /\ (PanelView.end_of_list p = true <->
        0 < PanelView.results p
        /\ List.length (PanelView.items p) = PanelView.results p).
Proof.
  intros P T Lm N R. unfold Scenario.session in *.
  destruct (session_run c after N _
              (session_opens c _ (reachable_wf before) P T Lm))
    as (W' & (r & Sl) & Pg).
  set (s' := run after (step (Select c) (run before mount))) in *.
  destruct Pg as [_ Lm' V H | T' _];
    [ | unfold reveals in R; rewrite T' in R; discriminate R ].
  pose proof (wf_page s' W') as Pge.
  unfold PanelView.render. cbn [PanelView.panel]. rewrite Sl.
  eexists. split; [ reflexivity | ].
  cbn [PanelView.spinner PanelView.results PanelView.items
         PanelView.end_of_list].
  rewrite items_from_length, Lm', H, V, length_firstn.
  unfold MARKERS_PER_PAGE.
  split; [ reflexivity | ]. split; [ reflexivity | ].
  split; [ reflexivity | ]. cbn [negb andb]. split.
  - intros E. apply andb_true_iff in E. destruct E as [A B].
    apply negb_true_iff, Nat.ltb_ge in A. apply Nat.ltb_lt in B. lia.
  - intros [Pos All]. apply andb_true_iff. split.
    + apply negb_true_iff, Nat.ltb_ge. lia.
    + apply Nat.ltb_lt. lia.
Qed.

Lemma end_message_when_all_listed_witness :
  exists p,
    PanelView.panel
      (PanelView.render false
         (Scenario.session [] (Sample.cluster "a" 30)
            [Scroll near_bottom; Tick]))
    = Some p
    /\ PanelView.spinner p = false
    /\ PanelView.results p
       = List.length (ClusterData.markers (Sample.cluster "a" 30))
    /\ List.length (PanelView.items p)
       = Nat.min (page (Scenario.session [] (Sample.cluster "a" 30)
                          [Scroll near_bottom; Tick]) * 25)
                 (List.length (ClusterData.markers (Sample.cluster "a" 30)))
    /\ (PanelView.end_of_list p = true <->
        0 < PanelView.results p
        /\ List.length (PanelView.items p) = PanelView.results p).
Proof.
  apply (end_message_when_all_listed [] (Sample.cluster "a" 30)
           [Scroll near_bottom; Tick] false); reflexivity.
Defined.


(** *** What scrolling and closing leave alone *)

Lemma handle_keeps (e : Event) (s : State) :
  e <> Tick -> is_select e = false ->
  selectedCluster (handle e s) = selectedCluster s
  /\ visibleMarkers (handle e s) = visibleMarkers s
  /\ hasMore (handle e s) = hasMore s.
Proof.
  unfold handle, on_select, closePanel, handleScroll, setTimeout.
  destruct e as [c0 | | m |]; intros NT NS;
    [ discriminate NS | | | congruence ];
    destruct s as [[[r0 c1]|] vis pg hm sp lm tm [n0|] [l0|] fr]; simp;
    repeat match goal with |- context [if ?b then _ else _] => destruct b end;
    simp; repeat split.
Qed.

(** X23: a scroll event or a close request never changes, by the time its
    effects have run, which selection the panel has, which entries are
    listed, or [hasMore]; only a click and a callback do. *)
Theorem scroll_and_close_keep_the_list (e : Event) (s : State) :
  e <> Tick -> is_select e = false ->
  selectedCluster (step e s) = selectedCluster s
  /\ visibleMarkers (step e s) = visibleMarkers s
  /\ hasMore (step e s) = hasMore s.
Proof.
  intros NT NS. destruct (handle_keeps e s NT NS) as (Sl & V & H).
  assert (Sel : sel_changed s (handle e s) = false).
  { unfold sel_changed. now rewrite Sl, same_selection_refl. }
  rewrite step_selectedCluster, step_visibleMarkers, step_hasMore, Sel.
  repeat split; assumption.
Qed.

Lemma scroll_and_close_keep_the_list_witness :
  selectedCluster (step (Scroll near_bottom)
                     (run [Select (Sample.cluster "a" 60)] mount))
  = selectedCluster (run [Select (Sample.cluster "a" 60)] mount)
  /\ visibleMarkers (step (Scroll near_bottom)
                       (run [Select (Sample.cluster "a" 60)] mount))
     = visibleMarkers (run [Select (Sample.cluster "a" 60)] mount)
  /\ hasMore (step (Scroll near_bottom)
                (run [Select (Sample.cluster "a" 60)] mount))
     = hasMore (run [Select (Sample.cluster "a" 60)] mount).
Proof.
  apply (scroll_and_close_keep_the_list (Scroll near_bottom)
           (run [Select (Sample.cluster "a" 60)] mount)).
  - discriminate.
  - reflexivity.
Defined.

(** *** The scroll guard in a session that starts clean *)

(** A scroll within 100 px of the bottom with the listener in place, more
    to show and no reveal flagged: the next page is scheduled. *)
Lemma scroll_passes (m : ScrollMetrics) (s : State) (r : nat)
    (c : ClusterData.t) :
  wf s -> listening s ->
  (scrollHeight m - scrollTop m - clientHeight m < 100)%Z ->
  loadingMore s = false -> hasMore s = true ->
  selectedCluster s = Some (r, c) ->
  page (step (Scroll m) s) = page s + 1
  /\ timers (step (Scroll m) s) = timers s ++ [RevealTimer c (page s + 1)]
  /\ loadingMore (step (Scroll m) s) = true
  /\ hasMore (step (Scroll m) s) = true
  /\ listening (step (Scroll m) s).
Proof.
  intros W (l & L & C) Near Lm Hm S.
  destruct (wf_closure s W l L C) as [Klm Khm].
  apply Z.ltb_lt in Near.
  assert (H : handle (Scroll m) s = set_page (page s + 1) s).
  { cbn [handle]. rewrite L, C, Nat.eqb_refl. unfold handleScroll.
    now rewrite Klm, Khm, Lm, Hm, Near. }
  destruct (scroll_cases m s W)
    as [E | (r' & c' & S' & _ & _ & S2 & P2 & T2 & Lm2 & V2 & H2)].
  { exfalso. apply (f_equal page) in E. rewrite step_page, H in E.
    unfold sel_changed in E. simp_in E. rewrite same_selection_refl in E.
    simp_in E. lia. }
  rewrite S in S'. injection S' as <- <-.
  repeat split; try assumption.
  assert (Rc : rendered_container (handle (Scroll m) s) = Some (l_node l)).
  { unfold rendered_container. rewrite H. simp. now rewrite S, C. }
  exists (mkListener (l_node l) true true). split.
  - rewrite step_listener, Rc.
    assert (D : scroll_deps_changed (handle (Scroll m) s)
                  (run_effects s (handle (Scroll m) s)) = true).
    { unfold scroll_deps_changed.
      rewrite run_effects_loadingMore.
      pose proof (step_loadingMore (Scroll m) s) as Q. rewrite Lm2 in Q.
      rewrite <- Q, H. simp. rewrite Lm. now rewrite orb_true_r. }
    rewrite D, run_effects_loadingMore, run_effects_hasMore.
    pose proof (step_loadingMore (Scroll m) s) as Q. rewrite Lm2 in Q.
    rewrite <- Q.
    pose proof (step_hasMore (Scroll m) s) as Q'. rewrite H2 in Q'.
    now rewrite <- Q'.
  - rewrite step_container. exact Rc.
Qed.

(** A scroll that is too far from the bottom, or meets the guard. *)
Lemma scroll_stopped (m : ScrollMetrics) (s : State) :
  wf s ->
  (100 <= scrollHeight m - scrollTop m - clientHeight m)%Z
  \/ hasMore s = false \/ loadingMore s = true ->
  step (Scroll m) s = s.
Proof.
  intros W [Far | Rest].
  - apply step_idle; [ exact W | ].
    cbn [handle]. unfold handleScroll.
    apply Z.ltb_ge in Far. rewrite Far.
    destruct (listener s), (container s); try reflexivity.
    destruct (_ =? _); [ | reflexivity ].
    destruct (_ || _); reflexivity.
  - destruct (scroll_cases m s W)
      as [E | (r & c & Sl & Lm & Hm & _)]; [ exact E | ].
    destruct Rest as [H | H]; congruence.
Qed.

(** The listener stays in place through the scroll events and reveals of
    a session. *)
Lemma listening_step (c : ClusterData.t) (e : Event) (s : State) :
  in_session c s -> (hasMore s = true -> listening s) ->
  is_scroll_or_tick e = true ->
  hasMore (step e s) = true -> listening (step e s).
Proof.
  intros (W & (r & S) & Pg) Li E.
  destruct e as [| | m |]; try discriminate E.
  - (* scroll *)
    destruct (scroll_cases m s W)
      as [-> | (r' & c' & S' & Lm & Hm & _)]; [ exact Li | ].
    intros _.
    destruct (Z.ltb_spec (scrollHeight m - scrollTop m - clientHeight m) 100)
      as [Near | Far].
    + rewrite S in S'. injection S' as <- <-.
      apply (scroll_passes m s r c W (Li Hm) Near Lm Hm S).
    + rewrite (scroll_stopped m s W (or_introl Far)). exact (Li Hm).
  - (* the oldest callback *)
    destruct Pg as [T Lm V H | T Lm].
    { rewrite step_idle; [ exact Li | exact W | cbn; now rewrite T ]. }
    intros _.
    assert (C : exists n, container s = Some n).
    { pose proof (wf_panel s W) as P. unfold rendered_container in P.
      rewrite S in P. destruct (container s); eauto. }
    destruct C as (n & C).
    destruct (tick_reveals s r c c (page s) [] n W T S C Lm)
      as (_ & _ & _ & _ & _ & _ & C2 & l2 & L2 & N2).
    exists l2. split; [ exact L2 | now rewrite N2 ].
Qed.

Lemma listening_run (c : ClusterData.t) (tr : list Event) :
  forallb is_scroll_or_tick tr = true ->
  forall s, in_session c s -> (hasMore s = true -> listening s) ->
            hasMore (run tr s) = true -> listening (run tr s).
Proof.
  induction tr as [| e tr IH]; intros N s I Li; cbn in *; [ exact Li | ].
  apply andb_true_iff in N. destruct N as [Ne Ntr].
  apply IH; [ exact Ntr | | apply (listening_step c e s I Li Ne) ].
  destruct e; try discriminate Ne; auto using session_scroll, session_tick.
Qed.

(** X25: in a session that is opened from a closed panel with nothing
    pending and then only scrolled, each event arriving after React has
    rendered the one before, at most one reveal is in flight and
    [loadingMore] is set exactly while it is; a scroll event within
    100 px of the bottom that finds more to show and no reveal in flight
    advances the page by exactly one and starts the one reveal of that
    page; every other scroll event changes nothing. *)
Theorem guard_in_clean_session (tr : list Event) (c : ClusterData.t)
    (after : list Event) (m : ScrollMetrics) :
  selectedCluster (run tr mount) = None ->
  hasMore (run tr mount) = false ->
  loadingMore (run tr mount) = false ->
  timers (run tr mount) = [] ->
  page (run tr mount) = 1 ->
  forallb is_scroll_or_tick after = true ->
  reveals (Scenario.session tr c after) <= 1
  /\ (loadingMore (Scenario.session tr c after) = true
      <-> reveals (Scenario.session tr c after) = 1)
  /\ ((scrollHeight m - scrollTop m - clientHeight m < 100)%Z ->
      hasMore (Scenario.session tr c after) = true ->
      loadingMore (Scenario.session tr c after) = false ->
      page (step (Scroll m) (Scenario.session tr c after))
      = page (Scenario.session tr c after) + 1
      /\ timers (step (Scroll m) (Scenario.session tr c after))
         = [RevealTimer c (page (Scenario.session tr c after) + 1)]
      /\ loadingMore (step (Scroll m) (Scenario.session tr c after)) = true)
  /\ ((100 <= scrollHeight m - scrollTop m - clientHeight m)%Z
      \/ hasMore (Scenario.session tr c after) = false
      \/ loadingMore (Scenario.session tr c after) = true ->
      step (Scroll m) (Scenario.session tr c after)
      = Scenario.session tr c after).
Proof.
  intros S Hm Lm T P N. unfold Scenario.session.
  pose proof (revealed_opens c _ (reachable_wf tr) S Hm Lm T P) as R0.
  pose proof (session_opens c _ (reachable_wf tr) P T Lm) as I0.
  assert (Li0 : hasMore (step (Select c) (run tr mount)) = true ->
                listening (step (Select c) (run tr mount))).
  { destruct R0 as (_ & _ & _ & _ & _ & [(_ & _ & _ & Li) | (H' & _)]);
      [ intros _; exact Li | congruence ]. }
  pose proof (session_run c after N _ I0) as I.
  pose proof (listening_run c after N _ I0 Li0) as Li.
  set (s := run after (step (Select c) (run tr mount))) in *.
  destruct I as (W & (r & Sl) & Pg).
  split; [ | split; [ | split ] ].
  - unfold reveals. destruct Pg as [T' _ _ _ | T' _]; rewrite T'; cbn; lia.
  - unfold reveals.
    destruct Pg as [T' Lm' _ _ | T' Lm']; rewrite T', Lm'; cbn;
      split; congruence.
  - intros Near Hm' Lm'.
    destruct (scroll_passes m s r c W (Li Hm') Near Lm' Hm' Sl)
      as (P' & T' & Lm2 & _).
    destruct Pg as [Ts _ _ _ | _ Lmr]; [ | congruence ].
    rewrite Ts in T'. repeat split; assumption.
  - apply scroll_stopped, W.
Qed.

Lemma guard_in_clean_session_witness :
  reveals (Scenario.session [] (Sample.cluster "a" 60)
             [Scroll near_bottom; Tick]) <= 1
  /\ (loadingMore (Scenario.session [] (Sample.cluster "a" 60)
                     [Scroll near_bottom; Tick]) = true
      <-> reveals (Scenario.session [] (Sample.cluster "a" 60)
                     [Scroll near_bottom; Tick]) = 1)
  /\ ((scrollHeight near_bottom - scrollTop near_bottom
       - clientHeight near_bottom < 100)%Z ->
      hasMore (Scenario.session [] (Sample.cluster "a" 60)
                 [Scroll near_bottom; Tick]) = true ->
      loadingMore (Scenario.session [] (Sample.cluster "a" 60)
                     [Scroll near_bottom; Tick]) = false ->
      page (step (Scroll near_bottom)
              (Scenario.session [] (Sample.cluster "a" 60)
                 [Scroll near_bottom; Tick]))
      = page (Scenario.session [] (Sample.cluster "a" 60)
                [Scroll near_bottom; Tick]) + 1
      /\ timers (step (Scroll near_bottom)
                   (Scenario.session [] (Sample.cluster "a" 60)
                      [Scroll near_bottom; Tick]))
         = [RevealTimer (Sample.cluster "a" 60)
              (page (Scenario.session [] (Sample.cluster "a" 60)
                       [Scroll near_bottom; Tick]) + 1)]
      /\ loadingMore (step (Scroll near_bottom)
                        (Scenario.session [] (Sample.cluster "a" 60)
                           [Scroll near_bottom; Tick])) = true)
  /\ ((100 <= scrollHeight near_bottom - scrollTop near_bottom
              - clientHeight near_bottom)%Z
      \/ hasMore (Scenario.session [] (Sample.cluster "a" 60)
                    [Scroll near_bottom; Tick]) = false
      \/ loadingMore (Scenario.session [] (Sample.cluster "a" 60)
                        [Scroll near_bottom; Tick]) = true ->
      step (Scroll near_bottom)
        (Scenario.session [] (Sample.cluster "a" 60)
           [Scroll near_bottom; Tick])
      = Scenario.session [] (Sample.cluster "a" 60)
          [Scroll near_bottom; Tick]).
Proof.
  apply (guard_in_clean_session [] (Sample.cluster "a" 60)
           [Scroll near_bottom; Tick] near_bottom); reflexivity.
Defined.

(** *** Scroll events that arrive before React has rendered *)

(** X26: the guard reads the [loadingMore] of the render in which the
    listener was installed, so every scroll event that arrives before
    the next render passes it: with the listener in place, more to show
    and no reveal flagged, [n] events near the bottom advance the page
    by [n]. *)
Theorem scrolls_before_render_all_pass (tr : list Event) (n : nat) :
  listening (run tr mount) ->
  loadingMore (run tr mount) = false -> hasMore (run tr mount) = true ->
  page (scroll_events (repeat near_bottom n) (run tr mount))
  = page (run tr mount) + n.
Proof.
  pose proof (reachable_wf tr) as W. set (s := run tr mount) in *.
  intros (l & L & C) Lm Hm.
  destruct (wf_closure s W l L C) as [Klm Khm].
  assert (G : forall k t, listener t = Some l -> container t = Some (l_node l) ->
                          listener (scroll_events (repeat near_bottom k) t) = Some l
                          /\ page (scroll_events (repeat near_bottom k) t)
                             = page t + k).
  { induction k as [| k IH]; intros t Lt Ct; cbn [repeat scroll_events fold_left].
    - split; [ exact Lt | lia ].
    - assert (H : handle (Scroll near_bottom) t = set_page (page t + 1) t).
      { cbn [handle]. rewrite Lt, Ct, Nat.eqb_refl. unfold handleScroll.
        now rewrite Klm, Khm, Lm, Hm, near_bottom_is_near. }
      rewrite H. fold (scroll_events (repeat near_bottom k) (set_page (page t + 1) t)).
      destruct (IH (set_page (page t + 1) t) Lt Ct) as [A B].
      split; [ exact A | rewrite B; cbn; lia ]. }
  apply (G n s L C).
Qed.

Lemma scrolls_before_render_all_pass_witness :
  page (scroll_events (repeat near_bottom 2)
          (run [Select (Sample.cluster "a" 80)] mount))
  = page (run [Select (Sample.cluster "a" 80)] mount) + 2.
Proof.
  apply (scrolls_before_render_all_pass [Select (Sample.cluster "a" 80)] 2).
  - eexists. split; reflexivity.
  - reflexivity.
  - reflexivity.
Defined.

(** Two scroll events before the render, in a panel that shows the first
    25 of 80 points: the page goes from 1 to 3, and the one reveal that
    follows lists 75 points. *)
Example two_scrolls_one_render :
  let s := run [Select (Sample.cluster "a" 80)] mount in
  let s' := flush s (scroll_events [near_bottom; near_bottom] s) in
  page s = 1 /\ page s' = 3
  /\ timers s' = [RevealTimer (Sample.cluster "a" 80) 3]
  /\ revealedCount (step Tick s') = 75.
Proof. vm_compute. repeat split; reflexivity. Qed.

End ControllerMore.

(** ** More on the asset loader and the library load *)

Module LoadMore.

Import AssetLoader LibraryLoad Flows LoadSample.
Local Open Scope string_scope.
Local Open Scope list_scope.

Lemma exec_appends (c : Call) (d : Document) :
  exists hs bs,
    head (exec c d) = head d ++ hs /\ body (exec c d) = body d ++ bs
    /\ Forall is_stylesheet hs /\ Forall is_script_element bs.
Proof.
  destruct (AssetLoaderFacts.exec_cases c d) as [-> | (_ & _ & ->)].
  - exists [], []. now rewrite !app_nil_r.
  - destruct c as [src | href]; cbn [head body].
    + exists [], [ScriptEl src]. rewrite app_nil_r.
      repeat split; constructor; cbn; auto.
    + exists [LinkEl "stylesheet" href], []. rewrite app_nil_r.
      repeat split; constructor; cbn; auto.
Qed.

(** X10: the loader only ever appends: after any sequence of calls the
    elements that were in the head and in the body are still there, in
    their order and in front, followed in the head by stylesheet links
    only and in the body by scripts only. *)
Theorem loader_only_appends (cs : list Call) (d : Document) :
  exists hs bs,
    head (exec_all cs d) = head d ++ hs
    /\ body (exec_all cs d) = body d ++ bs
    /\ Forall is_stylesheet hs /\ Forall is_script_element bs.
Proof.
  revert d. induction cs as [| c cs IH]; intros d; cbn [exec_all fold_left].
  - exists [], []. now rewrite !app_nil_r.
  - destruct (exec_appends c d) as (hs1 & bs1 & H1 & B1 & Fh1 & Fb1).
    destruct (IH (exec c d)) as (hs2 & bs2 & H2 & B2 & Fh2 & Fb2).
    exists (hs1 ++ hs2), (bs1 ++ bs2).
    unfold exec_all in *. rewrite H2, B2, H1, B1, <- !app_assoc.
    repeat split; apply Forall_app; auto.
Qed.

(** Attaching a stylesheet does not change what a script selector
    finds. *)
Lemma script_query_loadCss (src href : string) (d : Document) :
  querySelector (is_script src) (exec (CallCss href) d)
  = querySelector (is_script src) d.
Proof.
  destruct (AssetLoaderFacts.exec_cases (CallCss href) d)
    as [-> | (_ & _ & ->)]; [ reflexivity | ].
  unfold querySelector. cbn [head body]. rewrite !existsb_app. cbn.
  now rewrite orb_false_r.
Qed.

Lemma script_query_styles (src : string) (d : Document) :
  querySelector (is_script src)
    (exec_all [CallCss leaflet_css; CallCss cluster_css] d)
  = querySelector (is_script src) d.
Proof. cbn [exec_all fold_left]. now rewrite !script_query_loadCss. Qed.

Section AnyBrowser.

Variable fetch : string -> Window -> option Window.
Variable settle : Window -> Window.

(** X11: whatever the browser does and whatever page it starts from,
    [load] returns normally and leaves the loading state off: a script
    that fails to load is never thrown to the page. *)
Theorem load_always_completes (markers : list MarkerData.t) (p : Page) :
  exists p',
    load fetch settle markers p = (Ok tt, p') /\ loading p' = false.
Proof.
  unfold load, finally, try_catch.
  unfold bind at 1.
  rewrite LibraryLoadFacts.load_styles_ok.
  set (ps := mkPage _ _ _ _ _ _).
  destruct ((load_scripts fetch settle;; check_plugin fetch;;
             mount_or_give_up markers) ps) as [[[] | e] pb];
    unfold print, setLoading, modify; cbn; eexists; split; reflexivity.
Qed.

(** X12: a script with a plain URL whose load failed stays attached, so
    a later [loadScript] for the same URL resolves at once, without a
    fetch and without touching the document or [window]: the load is not
    retried. *)
Theorem failed_script_is_not_retried (fetch' : string -> Window -> option Window)
    (src e : string) (p p' : Page) :
  Css.plain src = true ->
  await_loadScript fetch src p = (Throw e, p') ->
  exists p'',
    await_loadScript fetch' src p' = (Ok tt, p'')
    /\ document p'' = document p' /\ window p'' = window p'
    /\ loaderCalls p'' = loaderCalls p' ++ [src].
Proof.
  intros P. unfold await_loadScript at 1.
  pose proof (AssetLoaderFacts.present_after (CallScript src) (document p) P)
    as A.
  cbn [present exec] in A.
  rewrite (AssetLoaderFacts.loadScript_plain src _ P) in *.
  destruct (querySelector (is_script src) (document p)); cbn [fst] in A;
    [ discriminate | ].
  cbn [document window console loading mapRef loaderCalls].
  destruct (fetch src (window p)); intros [= <- <-].
  unfold await_loadScript. cbn [document].
  rewrite (AssetLoaderFacts.loadScript_found src _ A).
  eexists. repeat split.
Qed.

(** X13: when the mapping library's script cannot be fetched, [load] logs
    the error and stops: the extension script is neither requested nor
    attached, [window] and the map stay as they were, and the loading
    state is turned off. *)
Theorem library_failure_stops_the_load (markers : list MarkerData.t)
    (p : Page) :
  querySelector (is_script leaflet_js) (document p) = false ->
  fetch leaflet_js (window p) = None ->
  exists p',
    load fetch settle markers p = (Ok tt, p')
    /\ loaderCalls p' = loaderCalls p ++ [leaflet_js]
    /\ querySelector (is_script cluster_js) (document p')
       = querySelector (is_script cluster_js) (document p)
    /\ window p' = window p
    /\ mapRef p' = mapRef p
    /\ console p'
       = console p ++ [(Error, ["Error loading map libraries:"; "error"])]
    /\ loading p' = false.
Proof.
  intros Q F.
  unfold load, finally, try_catch. unfold bind at 1.
  rewrite LibraryLoadFacts.load_styles_ok.
  unfold load_scripts, bind, setLoading, print, modify, await_loadScript.
  cbn [document window console loading mapRef loaderCalls].
  rewrite (AssetLoaderFacts.loadScript_plain leaflet_js) by reflexivity.
  rewrite script_query_styles, Q.
  cbn [document window console loading mapRef loaderCalls]. rewrite F.
  cbn [document window console loading mapRef loaderCalls].
  eexists. split; [ reflexivity | ].
  cbn [document window console loading mapRef loaderCalls].
  repeat split.
  set (d := exec_all _ (document p)).
  transitivity (querySelector (is_script cluster_js) d);
    [ | apply script_query_styles ].
  unfold querySelector. cbn [head body]. rewrite !existsb_app. cbn.
  now rewrite orb_false_r.
Qed.


Lemma present_loadCss (href : string) (d : Document) :
  present (CallCss href) d = true -> exec (CallCss href) d = d.
Proof. apply (AssetLoaderFacts.present_noop (CallCss href)). Qed.

(** X14: once the two stylesheets and the two scripts are in the
    document, a run of [load] attaches nothing and fetches nothing: its
    outcome is the same whatever the network would answer, the document
    is unchanged, and [window] changes only by what happens during the
    100 ms pause. *)
Theorem load_again_uses_what_is_there
    (fetch' : string -> Window -> option Window)
    (markers : list MarkerData.t) (p : Page) :
  assets_present (document p) = true ->
  load fetch settle markers p = load fetch' settle markers p
  /\ document (snd (load fetch settle markers p)) = document p
  /\ window (snd (load fetch settle markers p)) = settle (window p).
Proof.
  unfold assets_present. intros A.
  apply andb_true_iff in A. destruct A as [A Qc].
  apply andb_true_iff in A. destruct A as [A Ql].
  apply andb_true_iff in A. destruct A as [Cl Cc].
  cbn [present] in Ql, Qc.
  assert (Ld : forall f,
             load f settle markers p
             = finally
                 (try_catch (check_plugin f ;; mount_or_give_up markers)
                    (fun e => print Error ["Error loading map libraries:"; e]))
                 (setLoading false)
                 (mkPage (document p) (settle (window p))
                    (console p ++ [(Log, ["Leaflet loaded successfully"])]
                       ++ [(Log, ["MarkerCluster loaded successfully"])])
                    true (mapRef p)
                    (loaderCalls p ++ [leaflet_js] ++ [cluster_js]))).
  { intros f.
    unfold load, finally, try_catch. unfold bind at 1.
    rewrite LibraryLoadFacts.load_styles_ok. cbn [exec_all fold_left].
    rewrite (present_loadCss _ _ Cl), (present_loadCss _ _ Cc).
    unfold load_scripts, bind, setLoading, print, pause, modify.
    cbn [document window console loading mapRef loaderCalls].
    rewrite LibraryLoadFacts.await_present by exact Ql.
    cbn [document window console loading mapRef loaderCalls].
    rewrite LibraryLoadFacts.await_present by exact Qc.
    cbn [document window console loading mapRef loaderCalls].
    now rewrite <- !app_assoc. }
  assert (C : forall f q,
             document q = document p ->
             check_plugin f q
             = check_plugin fetch' q
             /\ forall r q', check_plugin f q = (r, q') ->
                             document q' = document p /\ window q' = window q).
  { intros f q Dq.
    unfold check_plugin, bind, get_window, print, modify.
    destruct (L (window q)) as [l |]; cbn.
    - destruct (typeof_markerClusterGroup l =? "function"); cbn.
      + split; [ reflexivity | intros r q' [= <- <-]; auto ].
      + rewrite !LibraryLoadFacts.await_present by (cbn; now rewrite Dq).
        cbn. split; [ reflexivity | intros r q' [= <- <-]; auto ].
    - split; [ reflexivity | intros r q' [= <- <-]; auto ]. }
  rewrite !Ld.
  set (q := mkPage _ _ _ _ _ _).
  destruct (C fetch q eq_refl) as [E K].
  unfold finally, try_catch, bind. rewrite E. rewrite E in K.
  destruct (check_plugin fetch' q) as [[[] | e] q'] eqn:R.
  - destruct (K _ _ eq_refl) as [Dq Wq].
    split; [ reflexivity | ].
    unfold mount_or_give_up, mountMap, bind, get_window, print, setLoading,
      modify.
    destruct (is_function (window q') && Nat.ltb 0 (List.length markers));
      cbn; [ destruct (negb (is_function (window q'))); cbn | ];
      rewrite ?Dq, ?Wq; auto.
  - destruct (K _ _ eq_refl) as [Dq Wq].
    split; [ reflexivity | ].
    unfold print, setLoading, modify. cbn. auto.
Qed.

(** X15: when the scripts have loaded, the extension is there and the
    marker store is not empty, [load] mounts the map with one marker for
    each entry whose [lat] and [lon] are both truthy, in the order of the
    store, without calling the loader again, and turns the loading state
    off. *)
Theorem load_mounts_renderable_markers (markers : list MarkerData.t)
    (p0 p1 : Page) :
  up_to_check fetch settle p0 = (Ok tt, p1) ->
  is_function (window p1) = true ->
  markers <> [] ->
  exists p,
    load fetch settle markers p0 = (Ok tt, p)
    /\ mapRef p
       = Some (map MapMount.marker_of (filter MapMount.renderable markers))
    /\ loaderCalls p = loaderCalls p1
    /\ document p = document p1
    /\ console p
       = console p1
         ++ [(Log, ["Leaflet and MarkerCluster loaded successfully."])]
    /\ loading p = false.
Proof.
  intros U F N.
  rewrite (LibraryLoadFacts.load_after_scripts fetch settle markers p0 p1 U).
  unfold is_function in F.
  destruct (L (window p1)) as [l |] eqn:Lw; [ | discriminate F ].
  assert (NE : Nat.ltb 0 (List.length markers) = true)
    by (destruct markers; [ congruence | reflexivity ]).
  unfold finally, try_catch, bind, check_plugin, mount_or_give_up,
    get_window, bind, print, setLoading, modify.
  rewrite Lw, F. cbn [console document window loading mapRef loaderCalls].
  unfold is_function at 1. rewrite Lw, F, NE. cbn [andb].
  unfold mountMap, bind, get_window, print, modify.
  cbn [console document window loading mapRef loaderCalls].
  unfold is_function. rewrite Lw, F. cbn [negb].
  eexists. split; [ reflexivity | ].
  cbn [console document window loading mapRef loaderCalls].
  rewrite MapMountFacts.attach_filter. repeat split.
Qed.

(** X16: with an empty marker store the map is not mounted, even when
    both libraries are there: [load] logs that the libraries were not
    loaded properly and turns the loading state off. *)
Theorem load_with_empty_store (p0 p1 : Page) :
  up_to_check fetch settle p0 = (Ok tt, p1) ->
  is_function (window p1) = true ->
  exists p,
    load fetch settle [] p0 = (Ok tt, p)
    /\ mapRef p = mapRef p0
    /\ console p
       = console p1
         ++ [(Log, ["Leaflet and MarkerCluster loaded successfully."]);
             (Error, ["Cannot mount map: Libraries not loaded properly"])]
    /\ loading p = false.
Proof.
  intros U F.
  destruct (LibraryLoadFacts.up_to_check_attached fetch settle p0 p1 U)
    as [_ M].
  rewrite (LibraryLoadFacts.load_after_scripts fetch settle [] p0 p1 U).
  unfold is_function in F.
  destruct (L (window p1)) as [l |] eqn:Lw; [ | discriminate F ].
  unfold finally, try_catch, bind, check_plugin, mount_or_give_up,
    get_window, bind, print, setLoading, modify.
  rewrite Lw, F. cbn [console document window loading mapRef loaderCalls].
  unfold is_function. rewrite Lw, F.
  cbn [andb List.length Nat.ltb Nat.leb].
  eexists. split; [ reflexivity | ].
  cbn [console document window loading mapRef loaderCalls].
  repeat split; [ exact M | now rewrite <- app_assoc ].
Qed.

Lemma await_calls (src : string) (p : Page) :
  loaderCalls (snd (await_loadScript fetch src p)) = loaderCalls p ++ [src].
Proof.
  unfold await_loadScript.
  destruct (loadScript src (document p)) as [d [| |]]; cbn;
    [ reflexivity | | reflexivity ].
  destruct (fetch src (window p)); reflexivity.
Qed.

(** X22: in every run of [load] the loader is asked for the library
    first, for the extension only after the library's script has
    resolved, and for the extension a second time at most once: the calls
    a run adds are the library alone, the library and the extension, or
    the library and the extension twice. *)
Theorem load_requests_in_order (markers : list MarkerData.t) (p : Page) :
  loaderCalls (snd (load fetch settle markers p))
  = loaderCalls p ++ [leaflet_js]
  \/ loaderCalls (snd (load fetch settle markers p))
     = loaderCalls p ++ [leaflet_js; cluster_js]
  \/ loaderCalls (snd (load fetch settle markers p))
     = loaderCalls p ++ [leaflet_js; cluster_js; cluster_js].
Proof.
  unfold load, finally, try_catch, load_styles, load_scripts, check_plugin,
    mount_or_give_up, mountMap, bind, get_window, bind, setLoading, css, print,
    pause, modify.
  cbn [document window console loading mapRef loaderCalls].
  rewrite (AssetLoaderFacts.loadCss_plain leaflet_css) by reflexivity.
  cbn [document window console loading mapRef loaderCalls].
  rewrite (AssetLoaderFacts.loadCss_plain cluster_css) by reflexivity.
  cbn [document window console loading mapRef loaderCalls].
  set (pa := mkPage _ _ _ _ _ _).
  pose proof (await_calls leaflet_js pa) as Ca.
  destruct (await_loadScript fetch leaflet_js pa) as [[[] | e] p1];
    cbn [snd] in Ca; cbn [document window console loading mapRef loaderCalls snd];
    [ | left; exact Ca ].
  set (pb := mkPage _ _ _ _ _ _).
  pose proof (await_calls cluster_js pb) as Cb.
  destruct (await_loadScript fetch cluster_js pb) as [[[] | e] p2];
    cbn [snd] in Cb; subst pb;
    cbn [document window console loading mapRef loaderCalls snd] in *;
    [ | right; left; rewrite Cb, Ca, <- app_assoc; reflexivity ].
  destruct (L (settle (window p2))) as [l |].
  - destruct (typeof_markerClusterGroup l =? "function").
    + cbn [document window console loading mapRef loaderCalls snd].
      right; left.
      repeat match goal with
             | |- context [if ?b then _ else _] => destruct b
             end;
        cbn [document window console loading mapRef loaderCalls snd];
        rewrite Cb, Ca, <- app_assoc; reflexivity.
    + cbn [document window console loading mapRef loaderCalls snd].
      set (pc := mkPage _ _ _ _ _ _).
      pose proof (await_calls cluster_js pc) as Cc.
      destruct (await_loadScript fetch cluster_js pc) as [[[] | e] p3];
        cbn [snd] in Cc; subst pc;
        cbn [document window console loading mapRef loaderCalls snd] in *;
        right; right;
        repeat match goal with
               | |- context [if ?b then _ else _] => destruct b
               end;
        cbn [document window console loading mapRef loaderCalls snd];
        rewrite Cc, Cb, Ca, <- !app_assoc; reflexivity.
  - cbn [document window console loading mapRef loaderCalls snd].
    right; left.
    repeat match goal with
           | |- context [if ?b then _ else _] => destruct b
           end;
      cbn [document window console loading mapRef loaderCalls snd];
      rewrite Cb, Ca, <- app_assoc; reflexivity.
Qed.

End AnyBrowser.


Lemma failed_script_is_not_retried_witness :
  exists p'',
    await_loadScript good_fetch leaflet_js
      (mkPage (mkDocument [] [ScriptEl leaflet_js]) (mkWindow None) [] true
         None [leaflet_js])
    = (Ok tt, p'')
    /\ document p'' = mkDocument [] [ScriptEl leaflet_js]
    /\ window p'' = mkWindow None
    /\ loaderCalls p'' = [leaflet_js] ++ [leaflet_js].
Proof.
  apply (failed_script_is_not_retried no_fetch good_fetch leaflet_js "error"
           blank_page
           (mkPage (mkDocument [] [ScriptEl leaflet_js]) (mkWindow None) []
              true None [leaflet_js])).
  - reflexivity.
  - reflexivity.
Defined.

Lemma library_failure_stops_the_load_witness :
  exists p',
    load no_fetch (fun w => w) [Sample.north_east] blank_page = (Ok tt, p')
    /\ loaderCalls p' = loaderCalls blank_page ++ [leaflet_js]
    /\ querySelector (is_script cluster_js) (document p')
       = querySelector (is_script cluster_js) (document blank_page)
    /\ window p' = window blank_page
    /\ mapRef p' = mapRef blank_page
    /\ console p'
       = console blank_page
         ++ [(Error, ["Error loading map libraries:"; "error"])]
    /\ loading p' = false.
Proof.
  apply (library_failure_stops_the_load no_fetch (fun w => w)
           [Sample.north_east] blank_page); reflexivity.
Defined.

Lemma load_again_uses_what_is_there_witness :
  load good_fetch (fun w => w) [Sample.north_east] loaded_page
  = load no_fetch (fun w => w) [Sample.north_east] loaded_page
  /\ document (snd (load good_fetch (fun w => w) [Sample.north_east]
                      loaded_page))
     = document loaded_page
  /\ window (snd (load good_fetch (fun w => w) [Sample.north_east]
                    loaded_page))
     = (fun w => w) (window loaded_page).
Proof.
  apply (load_again_uses_what_is_there good_fetch (fun w => w) no_fetch
           [Sample.north_east] loaded_page).
  reflexivity.
Defined.

Lemma load_mounts_renderable_markers_witness :
  exists p,
    load good_fetch (fun w => w) [Sample.origin; Sample.north_east] blank_page
    = (Ok tt, p)
    /\ mapRef p
       = Some (map MapMount.marker_of
                 (filter MapMount.renderable
                    [Sample.origin; Sample.north_east]))
    /\ loaderCalls p = loaderCalls loaded_page
    /\ document p = document loaded_page
    /\ console p
       = console loaded_page
         ++ [(Log, ["Leaflet and MarkerCluster loaded successfully."])]
    /\ loading p = false.
Proof.
  apply (load_mounts_renderable_markers good_fetch (fun w => w)
           [Sample.origin; Sample.north_east] blank_page loaded_page).
  - reflexivity.
  - reflexivity.
  - discriminate.
Defined.

Lemma load_with_empty_store_witness :
  exists p,
    load good_fetch (fun w => w) [] blank_page = (Ok tt, p)
    /\ mapRef p = mapRef blank_page
    /\ console p
       = console loaded_page
         ++ [(Log, ["Leaflet and MarkerCluster loaded successfully."]);
             (Error, ["Cannot mount map: Libraries not loaded properly"])]
    /\ loading p = false.
Proof.
  apply (load_with_empty_store good_fetch (fun w => w) blank_page loaded_page);
    reflexivity.
Defined.

End LoadMore.

(** ** More on the map mount, the embed script and the icons *)

Module MountMore.

Import JS MapMount.

(** X17: the marker loop builds one marker for each entry whose [lat] and
    [lon] are both truthy, in the order of the store and after the markers
    that were on the layer, and none for any other entry. *)
Theorem markers_are_the_renderable_entries (markers : list MarkerData.t)
    (markersLayer : list Marker) :
  attach markers markersLayer
  = markersLayer ++ map marker_of (filter renderable markers).
Proof.
  revert markersLayer.
  induction markers as [| m markers IH]; intros layer; cbn [attach filter].
  - cbn. now rewrite app_nil_r.
  - unfold renderable at 1.
    destruct (truthy (MarkerData.lat m)), (truthy (MarkerData.lon m));
      cbn [negb orb andb]; rewrite IH; try reflexivity.
    cbn [map]. now rewrite <- app_assoc.
Qed.

Lemma rendered_point (markers : list MarkerData.t) (child : Marker) :
  In child (attach markers []) ->
  In (markerData child) markers /\ renderable (markerData child) = true.
Proof.
  rewrite MapMountFacts.attach_filter. cbn [app]. intros I.
  apply in_map_iff in I. destruct I as (m & <- & I).
  apply filter_In in I. exact I.
Qed.

(** X18: the members of a selection made by clicking a cluster of
    rendered markers are entries of the marker store, each with a [lat]
    and a [lon] that are numbers other than 0 and NaN. *)
Theorem cluster_members_are_loaded_points (markers : list MarkerData.t)
    (e : ClusterClick) (p : MarkerData.t) :
  incl (getAllChildMarkers e) (attach markers []) ->
  In p (ClusterData.markers (cluster_click e)) ->
  In p markers
  /\ exists la lo,
       MarkerData.lat p = Some la /\ MarkerData.lon p = Some lo
       /\ PrimFloat.eqb la 0 = false /\ PrimFloat.eqb lo 0 = false
       /\ PrimFloat.eqb la la = true /\ PrimFloat.eqb lo lo = true.
Proof.
  intros Inc I. rewrite MapMountFacts.cluster_click_eq in I.
  cbn [ClusterData.markers] in I. unfold points in I.
  apply in_map_iff in I. destruct I as (child & <- & I).
  destruct (rendered_point markers child (Inc _ I)) as [Im R].
  split; [ exact Im | ].
  unfold renderable, truthy in R.
  destruct (MarkerData.lat (markerData child)) as [la |];
    [ | discriminate R ].
  destruct (MarkerData.lon (markerData child)) as [lo |];
    [ | now rewrite andb_false_r in R ].
  exists la, lo. apply andb_true_iff in R. destruct R as [Ra Ro].
  apply negb_true_iff, orb_false_iff in Ra, Ro.
  unfold is_nan, is_zero in Ra, Ro.
  destruct Ra as [Na Za], Ro as [No Zo].
  apply negb_false_iff in Na, No. repeat split; assumption.
Qed.

Lemma cluster_members_are_loaded_points_witness :
  In Sample.north_east [Sample.origin; Sample.north_east]
  /\ exists la lo,
       MarkerData.lat Sample.north_east = Some la
       /\ MarkerData.lon Sample.north_east = Some lo
       /\ PrimFloat.eqb la 0 = false /\ PrimFloat.eqb lo 0 = false
       /\ PrimFloat.eqb la la = true /\ PrimFloat.eqb lo lo = true.
Proof.
  apply (cluster_members_are_loaded_points
           [Sample.origin; Sample.north_east]
           (mkClusterClick [marker_of Sample.north_east] 7)
           Sample.north_east).
  - intros child [<- | []]. vm_compute. left. reflexivity.
  - vm_compute. left. reflexivity.
Defined.

End MountMore.

Module WidgetMore.

Import EmbedWidget.

Section OnBody.

Variable A : Type.
Implicit Types body : list (Node A).

Lemma others_remove body : others (remove_widget body) = others body.
Proof.
  induction body as [| [a |] body IH]; cbn; [ reflexivity | | reflexivity ].
  unfold others in IH. now rewrite IH.
Qed.

Lemma widgets_remove body :
  widgets (remove_widget body) = pred (widgets body).
Proof.
  induction body as [| [a |] body IH]; cbn; try reflexivity.
  unfold widgets in IH. exact IH.
Qed.

Lemma others_effect v body : others (effect v body) = others body.
Proof.
  unfold effect. destruct (Nat.ltb 0 (List.length v)).
  - unfold others. rewrite filter_app. cbn. rewrite app_nil_r.
    apply others_remove.
  - apply others_remove.
Qed.

Lemma widgets_effect v body :
  widgets body <= 1 ->
  widgets (effect v body) = if Nat.ltb 0 (List.length v) then 1 else 0.
Proof.
  intros W. unfold effect. destruct (Nat.ltb 0 (List.length v)).
  - unfold widgets. rewrite filter_app, length_app. cbn.
    pose proof (widgets_remove body) as R. unfold widgets in R, W. lia.
  - pose proof (widgets_remove body) as R. lia.
Qed.

Lemma widgets_rerun v body :
  widgets body <= 1 ->
  widgets (rerun v body) = if Nat.ltb 0 (List.length v) then 1 else 0.
Proof.
  intros W. unfold rerun, cleanup. apply widgets_effect.
  rewrite widgets_remove. lia.
Qed.

Lemma others_rerun v body : others (rerun v body) = others body.
Proof. unfold rerun, cleanup. now rewrite others_effect, others_remove. Qed.

Lemma last_cons (B : Type) (l : list B) :
  forall a d, last (a :: l) d = last l a.
Proof.
  induction l as [| b l IH]; intros a d; [ reflexivity | ].
  change (last (a :: b :: l) d) with (last (b :: l) d).
  now rewrite !IH.
Qed.

Lemma lifecycle_invariant (changes : list (list MarkerData.t)) :
  forall v body,
    widgets body = (if Nat.ltb 0 (List.length v) then 1 else 0) ->
    widgets (fold_left (fun b v => rerun v b) changes body)
    = (if Nat.ltb 0 (List.length (last changes v)) then 1 else 0)
    /\ others (fold_left (fun b v => rerun v b) changes body) = others body.
Proof.
  induction changes as [| v' changes IH]; intros v body W; cbn [fold_left].
  - split; [ exact W | reflexivity ].
  - assert (W' : widgets body <= 1) by (destruct (Nat.ltb _ _); lia).
    destruct (IH v' (rerun v' body) (widgets_rerun v' body W')) as [Wl Ol].
    rewrite Ol, others_rerun. split; [ | reflexivity ].
    now rewrite Wl, last_cons.
Qed.

(** X19: however often the list of visible markers changes, the document
    holds exactly one embed script while the list is not empty and none
    while it is empty, the other children of the body are unchanged, and
    the clean-up on unmount leaves no embed script. *)
Theorem one_embed_script (first : list MarkerData.t)
    (changes : list (list MarkerData.t)) (body : list (Node A)) :
  widgets body <= 1 ->
  widgets (lifecycle first changes body)
  = (if Nat.ltb 0 (List.length (last changes first)) then 1 else 0)
  /\ others (lifecycle first changes body) = others body
  /\ widgets (cleanup (lifecycle first changes body)) = 0.
Proof.
  intros W. unfold lifecycle.
  destruct (lifecycle_invariant changes first (effect first body)
              (widgets_effect first body W)) as [Wl Ol].
  rewrite Wl, Ol, others_effect. repeat split.
  unfold cleanup. rewrite widgets_remove, Wl.
  destruct (Nat.ltb _ _); reflexivity.
Qed.

End OnBody.

Lemma one_embed_script_witness :
  widgets (lifecycle [Sample.north_east] [[]; [Sample.north_east]]
             [Plain 1; Plain 2])
  = (if Nat.ltb 0 (List.length
                     (last [[]; [Sample.north_east]] [Sample.north_east]))
     then 1 else 0)
  /\ others (lifecycle [Sample.north_east] [[]; [Sample.north_east]]
               [Plain 1; Plain 2])
     = others [Plain 1; Plain 2]
  /\ widgets (cleanup (lifecycle [Sample.north_east]
                         [[]; [Sample.north_east]] [Plain 1; Plain 2])) = 0.
Proof.
  apply (one_embed_script nat [Sample.north_east] [[]; [Sample.north_east]]
           [Plain 1; Plain 2]).
  cbn. lia.
Defined.

End WidgetMore.

Module IconMore.

Import JS ClusterIcon Flows.
Local Open Scope float_scope.

Lemma in_integers (lo hi n : Z) :
  (lo <= n <= hi)%Z -> In n (integers lo hi).
Proof.
  intros H. unfold integers.
  replace n with (lo + Z.of_nat (Z.to_nat (n - lo)))%Z by lia.
  apply (in_map (fun i => (lo + Z.of_nat i)%Z)), in_seq. lia.
Qed.

Lemma forallb_at (f : Z -> bool) (l : list Z) (x : Z) :
  forallb f l = true -> In x l -> f x = true.
Proof. intros F I. rewrite forallb_forall in F. apply F, I. Qed.

Ltac check_on lo hi f n H :=
  apply (forallb_at f (integers lo hi) n);
  [ vm_compute; reflexivity | apply in_integers, H ].

(** X20: for every count from 2 to 100 the icon's diameter, inner diameter
    and font size are whole numbers of pixels, the inner circle is smaller
    than the outer one, and the font size lies between 11 and 14. *)
Theorem icon_sizes_are_whole_pixels (n : Z) :
  (2 <= n <= 100)%Z ->
  is_whole (h_width (icon_html n)) = true
  /\ is_whole (h_innerWidth (icon_html n)) = true
  /\ is_whole (h_fontSize (icon_html n)) = true
  /\ (h_innerWidth (icon_html n) <? h_width (icon_html n)) = true
  /\ (11 <=? h_fontSize (icon_html n)) = true
  /\ (h_fontSize (icon_html n) <=? 14) = true.
Proof.
  intros H. repeat split.
  - check_on 2%Z 100%Z (fun n => is_whole (h_width (icon_html n))) n H.
  - check_on 2%Z 100%Z (fun n => is_whole (h_innerWidth (icon_html n))) n H.
  - check_on 2%Z 100%Z (fun n => is_whole (h_fontSize (icon_html n))) n H.
  - check_on 2%Z 100%Z
      (fun n => h_innerWidth (icon_html n) <? h_width (icon_html n)) n H.
  - check_on 2%Z 100%Z (fun n => 11 <=? h_fontSize (icon_html n)) n H.
  - check_on 2%Z 100%Z (fun n => h_fontSize (icon_html n) <=? 14) n H.
Qed.

Lemma icon_sizes_are_whole_pixels_witness :
  is_whole (h_width (icon_html 7)) = true
  /\ is_whole (h_innerWidth (icon_html 7)) = true
  /\ is_whole (h_fontSize (icon_html 7)) = true
  /\ (h_innerWidth (icon_html 7) <? h_width (icon_html 7)) = true
  /\ (11 <=? h_fontSize (icon_html 7)) = true
  /\ (h_fontSize (icon_html 7) <=? 14) = true.
Proof. apply (icon_sizes_are_whole_pixels 7). lia. Defined.

(** X21: a cluster of 100 to 1000 children gets the largest icon:
    diameter 48, inner diameter 38 and font size 14. *)
Theorem large_clusters_get_the_largest_icon (n : Z) :
  (100 <= n <= 1000)%Z ->
  (h_width (icon_html n) =? 48) = true
  /\ (h_height (icon_html n) =? 48) = true
  /\ (h_innerWidth (icon_html n) =? 38) = true
  /\ (h_fontSize (icon_html n) =? 14) = true.
Proof.
  intros H. repeat split.
  - check_on 100%Z 1000%Z (fun n => h_width (icon_html n) =? 48) n H.
  - check_on 100%Z 1000%Z (fun n => h_height (icon_html n) =? 48) n H.
  - check_on 100%Z 1000%Z (fun n => h_innerWidth (icon_html n) =? 38) n H.
  - check_on 100%Z 1000%Z (fun n => h_fontSize (icon_html n) =? 14) n H.
Qed.

Lemma large_clusters_get_the_largest_icon_witness :
  (h_width (icon_html 250) =? 48) = true
  /\ (h_height (icon_html 250) =? 48) = true
  /\ (h_innerWidth (icon_html 250) =? 38) = true
  /\ (h_fontSize (icon_html 250) =? 14) = true.
Proof. apply (large_clusters_get_the_largest_icon 250). lia. Defined.

End IconMore.
